(** * Telemetry interpreter of the lawnmower dashboard

    A shallow embedding of the state taxonomy, the cockpit session
    (battery, GPS and state ingestion, stuck detection, message log), the
    battery trend predictor and the status aggregator, with the properties
    of the specification proved or refuted on it.

    JavaScript numbers are IEEE 754 binary64 values: they are embedded as
    Rocq's primitive [float], so that division by zero, NaN and rounding
    behave as they do in the program. *)

From Stdlib Require Import ZArith List Bool Lia Floats String Sorted.
From stdpp Require Import base option list gmap strings.
Import ListNotations.

Local Open Scope string_scope.
Local Open Scope Z_scope.

(* ===================================================================== *)
(** * The JavaScript runtime the components rely on *)
(* ===================================================================== *)

Module JS.

(** The Number that is nearest to an integer (ties to even). *)
Definition of_Z (n : Z) : float :=
  SF2Prim (binary_normalize prec emax n 0 false).

(** ToIntegerOrInfinity, as a Number: truncation toward zero, NaN and
    both zeros to +0, the infinities kept. *)
Definition truncate (x : float) : float :=
  match Prim2SF x with
  | S754_nan => 0%float
  | S754_zero _ => 0%float
  | S754_infinity _ => x
  | S754_finite s m e =>
      if 0 <=? e then x
      else of_Z (cond_Zopp s (Z.shiftr (Zpos m) (- e)))
  end.

(** TimeClip: the time value of [new Date(x)]; NaN is the invalid date. *)
Definition TimeClip (x : float) : float :=
  if negb (is_finite x) then nan
  else if PrimFloat.ltb 8.64e15%float (PrimFloat.abs x) then nan
  else truncate x.

(** [Math.round]: the nearest integer, ties toward +infinity; a result
    that is zero keeps the sign of the argument. *)
Definition Math_round (x : float) : float :=
  match Prim2SF x with
  | S754_finite s m e =>
      if 0 <=? e then x
      else
        let n := Z.shiftr (2 * cond_Zopp s (Zpos m) + Z.shiftl 1 (- e)) (1 - e) in
        if n =? 0 then (if s then neg_zero else zero) else of_Z n
  | _ => x
  end.

Definition Math_abs (x : float) : float := PrimFloat.abs x.

(** [Math.PI] *)
Definition Math_PI : float := 0x1.921fb54442d18p+1%float.

(** The transcendental functions of [Math] are not part of the program:
    they are taken from the host. *)
Record MathLib := {
  Math_sin : float -> float;
  Math_cos : float -> float;
  Math_atan2 : float -> float -> float
}.

(** [Math.sqrt] is the correctly rounded square root. *)
Definition Math_sqrt (x : float) : float := PrimFloat.sqrt x.

(** Date objects: a time value in milliseconds, NaN when invalid. *)
Record Date := mkDate { getTime : float }.

Definition new_Date (ms : float) : Date := mkDate (TimeClip ms).

(** [a - b] on two dates: both are converted to their time values. *)
Definition Date_sub (a b : Date) : float :=
  PrimFloat.sub (getTime a) (getTime b).

(** A template literal, kept as its parts: the fixed text and the
    numbers interpolated into it (the digits printed for a number are
    not modelled). *)
Inductive piece :=
| Str (s : string)
| Num (x : float).

Definition text := list piece.

(** Own-property lookup in an object literal whose keys are integers. *)
Fixpoint prop {A} (o : list (Z * A)) (k : Z) : option A :=
  match o with
  | [] => None
  | (k', v) :: o' => if k =? k' then Some v else prop o' k
  end.

(** [v || d] on a possibly undefined string: the empty string is falsy. *)
Definition or_else (v : option string) (d : string) : string :=
  match v with
  | Some s => if String.eqb s "" then d else s
  | None => d
  end.

End JS.

(* ===================================================================== *)
(** * LawnmowerAPI: state mapping and distance utilities *)
(* ===================================================================== *)

Module LawnmowerAPI.
Import JS.

Definition stateNames : list (Z * string) :=
  [ (0, "Station Charging");
    (1, "Station Charging Completed");
    (2, "Mowing");
    (3, "Returning to Station");
    (4, "Paused");
    (5, "Error") ].

Definition getStateName (stateId : Z) : string :=
  or_else (prop stateNames stateId) "Unknown".

Definition stateClasses : list (Z * string) :=
  [ (0, "status-charging");
    (1, "status-charging");
    (2, "status-mowing");
    (3, "status-returning");
    (4, "status-paused");
    (5, "status-error") ].

Definition getStateClass (stateId : Z) : string :=
  or_else (prop stateClasses stateId) "".

Section Distance.
Variable M : MathLib.

Definition calculateDistance (lat1 lon1 lat2 lon2 : float) : float :=
  let R := 6371e3%float in
  let phi1 := (lat1 * Math_PI / 180)%float in
  let phi2 := (lat2 * Math_PI / 180)%float in
  let dphi := ((lat2 - lat1) * Math_PI / 180)%float in
  let dlambda := ((lon2 - lon1) * Math_PI / 180)%float in
  let a := (Math_sin M (dphi / 2) * Math_sin M (dphi / 2) +
            Math_cos M phi1 * Math_cos M phi2 *
            Math_sin M (dlambda / 2) * Math_sin M (dlambda / 2))%float in
  let c := (2 * Math_atan2 M (Math_sqrt a) (Math_sqrt (1 - a)))%float in
  (R * c)%float.
End Distance.

End LawnmowerAPI.

(* ===================================================================== *)
(** * CockpitManager: the telemetry session of the selected device *)
(* ===================================================================== *)

Module CockpitManager.
Import JS LawnmowerAPI.

Record Device := {
  id : Z;
  name : string;
  address : string
}.

Record Config := {
  stuckThreshold : float;       (* seconds *)
  batteryLowThreshold : float;  (* percent *)
  liveRange : float;            (* seconds *)
  historyRange : float          (* seconds *)
}.

Record Message := {
  msg_id : float;
  msg_text : text;
  msg_type : string;
  msg_timestamp : Date
}.

(** An entry of [stuckPositions]; [timestamp] is a [Date.now()] value. *)
Record StuckData := {
  stuck_latitude : float;
  stuck_longitude : float;
  stuck_timestamp : float
}.

Record Position := {
  pos_latitude : float;
  pos_longitude : float;
  pos_timestamp : Date
}.

(** What the manager reads from [this.app]. *)
Record App := {
  currentTab : string;
  mapManager : bool;     (* is [app.mapManager] set? *)
  chartManager : bool    (* is [app.chartManager] set? *)
}.

(** Calls into the page and into the other managers, in the order made. *)
Inductive effect :=
| DomText (element : string) (content : text)
| DomClass (element : string) (className : string)
| ChartUpdateBattery (level : float) (timestamp : Date)
| MapUpdatePosition (latitude longitude : float) (timestamp : Date)
| MapMarkStuck (latitude longitude : float)
| MapSetDevice (device : Device)
| RenderMessages
| HideStaleDataBanner
| ConsoleLog (type : string) (timestamp : Date) (content : text)
| AppUpdateLastUpdateTime.

(** The manager: the fields that the telemetry handlers read or write,
    with the random calls made and the effects caused so far. The display
    mode, the stale-data banner and the polling timer are left out. *)
Record Cockpit := {
  currentDevice : option Device;
  messages : list Message;                 (* newest first *)
  lastStates : gmap Z Z;
  stuckPositions : gmap Z StuckData;
  lastPosition : option Position;
  config : Config;
  app : App;
  randoms : nat;                           (* calls of Math.random so far *)
  effects : list effect                    (* latest first *)
}.

(** The clock and the random source seen by one handler invocation: a
    handler runs to completion at the instant [now] (milliseconds). *)
Record Env := {
  now : float;
  random : nat -> float
}.

Definition set_currentDevice (d : option Device) (s : Cockpit) : Cockpit :=
  {| currentDevice := d; messages := messages s; lastStates := lastStates s;
     stuckPositions := stuckPositions s; lastPosition := lastPosition s;
     config := config s; app := app s; randoms := randoms s;
     effects := effects s |}.

Definition set_messages (ms : list Message) (s : Cockpit) : Cockpit :=
  {| currentDevice := currentDevice s; messages := ms; lastStates := lastStates s;
     stuckPositions := stuckPositions s; lastPosition := lastPosition s;
     config := config s; app := app s; randoms := randoms s;
     effects := effects s |}.

Definition set_lastStates (m : gmap Z Z) (s : Cockpit) : Cockpit :=
  {| currentDevice := currentDevice s; messages := messages s; lastStates := m;
     stuckPositions := stuckPositions s; lastPosition := lastPosition s;
     config := config s; app := app s; randoms := randoms s;
     effects := effects s |}.

Definition set_stuckPositions (m : gmap Z StuckData) (s : Cockpit) : Cockpit :=
  {| currentDevice := currentDevice s; messages := messages s;
     lastStates := lastStates s; stuckPositions := m;
     lastPosition := lastPosition s; config := config s; app := app s;
     randoms := randoms s; effects := effects s |}.

Definition set_lastPosition (p : option Position) (s : Cockpit) : Cockpit :=
  {| currentDevice := currentDevice s; messages := messages s;
     lastStates := lastStates s; stuckPositions := stuckPositions s;
     lastPosition := p; config := config s; app := app s;
     randoms := randoms s; effects := effects s |}.

Definition set_config (c : Config) (s : Cockpit) : Cockpit :=
  {| currentDevice := currentDevice s; messages := messages s;
     lastStates := lastStates s; stuckPositions := stuckPositions s;
     lastPosition := lastPosition s; config := c; app := app s;
     randoms := randoms s; effects := effects s |}.

Definition set_app (a : App) (s : Cockpit) : Cockpit :=
  {| currentDevice := currentDevice s; messages := messages s;
     lastStates := lastStates s; stuckPositions := stuckPositions s;
     lastPosition := lastPosition s; config := config s; app := a;
     randoms := randoms s; effects := effects s |}.

Definition set_randoms (n : nat) (s : Cockpit) : Cockpit :=
  {| currentDevice := currentDevice s; messages := messages s;
     lastStates := lastStates s; stuckPositions := stuckPositions s;
     lastPosition := lastPosition s; config := config s; app := app s;
     randoms := n; effects := effects s |}.

Definition emit (e : effect) (s : Cockpit) : Cockpit :=
  {| currentDevice := currentDevice s; messages := messages s;
     lastStates := lastStates s; stuckPositions := stuckPositions s;
     lastPosition := lastPosition s; config := config s; app := app s;
     randoms := randoms s; effects := e :: effects s |}.

(** [constructor(app)] *)
Definition new_CockpitManager (a : App) : Cockpit :=
  {| currentDevice := None;
     messages := [];
     lastStates := ∅;
     stuckPositions := ∅;
     lastPosition := None;
     config := {| stuckThreshold := 90; batteryLowThreshold := 10;
                  liveRange := 5 * 60; historyRange := 60 * 60 |};
     app := a;
     randoms := 0%nat;
     effects := [] |}.

(** The measurement events delivered by the transport. *)
Record BatteryData := {
  battery_LawnmowerId : Z;
  BatteryLevel : float
}.

Record GpsData := {
  gps_LawnmowerId : Z;
  Latitude : float;
  Longitude : float
}.

Record StateData := {
  state_LawnmowerId : Z;
  State : Z
}.

(** What [loadInitialData] obtains from the backend; a request that
    was not fulfilled gives [None]. *)
Record InitialData := {
  init_battery : option (float * Date);
  init_gps : option (float * float * Date);
  init_state : option (Z * Date)
}.

Section Handlers.
Variable M : MathLib.
Variable E : Env.

(** [new Date()] *)
Definition Date_current : Date := new_Date (now E).

(* ---- Message system ---- *)

Definition addMessage (txt : text) (type : string)
    (timestamp : option Date) (s : Cockpit) : Cockpit :=
  let messageTimestamp := default Date_current timestamp in
  let message :=
    {| msg_id := (now E + random E (randoms s))%float;
       msg_text := txt;
       msg_type := type;
       msg_timestamp := messageTimestamp |} in
  let s := set_randoms (S (randoms s)) s in
  (* unshift, then limit the history *)
  let ms := message :: messages s in
  let ms := if (1000 <? Z.of_nat (length ms)) then firstn 1000 ms else ms in
  let s := set_messages ms s in
  let s := emit (DomText "messageCount"
                   [Num (of_Z (Z.of_nat (length (messages s))))]) s in
  let s := if String.eqb (currentTab (app s)) "messages"
           then emit RenderMessages s else s in
  emit (ConsoleLog type messageTimestamp txt) s.

(* ---- Data update methods ---- *)

Definition updateBatteryLevel (level : float) (timestamp : Date)
    (s : Cockpit) : Cockpit :=
  let s := emit (DomText "batteryLevel" [Num (Math_round level); Str "%"]) s in
  let s := emit (DomClass "batteryLevel" "") s in
  let s :=
    if (level <=? 0)%float then emit (DomClass "batteryLevel" "battery-critical") s
    else if (level <? batteryLowThreshold (config s))%float
         then emit (DomClass "batteryLevel" "battery-low") s
         else emit (DomClass "batteryLevel" "battery-normal") s in
  if String.eqb (currentTab (app s)) "battery" && chartManager (app s)
  then emit (ChartUpdateBattery level timestamp) s
  else s.

Definition updateDeviceState (stateId : Z) (timestamp : Date)
    (s : Cockpit) : Cockpit :=
  let stateName := getStateName stateId in
  let stateClass := getStateClass stateId in
  let s := emit (DomText "deviceStatus" [Str stateName]) s in
  let s := emit (DomClass "deviceStatus" stateClass) s in
  (* Handle error state visual feedback *)
  if stateId =? 5
  then addMessage [Str "Device entered error state"] "error" None s
  else s.

Definition updateGpsPosition (latitude longitude : float) (timestamp : Date)
    (s : Cockpit) : Cockpit :=
  let s :=
    if String.eqb (currentTab (app s)) "map" && mapManager (app s)
    then emit (MapUpdatePosition latitude longitude timestamp) s
    else s in
  set_lastPosition
    (Some {| pos_latitude := latitude; pos_longitude := longitude;
             pos_timestamp := timestamp |}) s.

(* ---- Warning and alert systems ---- *)

Definition checkBatteryWarnings (level : float) (s : Cockpit) : Cockpit :=
  if (level =? 0)%float
  then addMessage [Str "Battery empty - device shutting down"] "error" None s
  else if (level <? batteryLowThreshold (config s))%float
       then addMessage [Str "Battery low: "; Num (Math_round level); Str "%"]
              "warning" None s
       else s.

Definition checkStuckDetection (latitude longitude : float)
    (s : Cockpit) : Cockpit :=
  match currentDevice s with
  | None => s
  | Some dev =>
      let deviceId := id dev in
      let currentState := lastStates s !! deviceId in
      (* Only check for stuck in Mowing or ReturningToStation states *)
      if bool_decide (currentState ≠ Some 2 ∧ currentState ≠ Some 3)
      then set_stuckPositions (delete deviceId (stuckPositions s)) s
      else
        let anchor :=
          {| stuck_latitude := latitude; stuck_longitude := longitude;
             stuck_timestamp := now E |} in
        match stuckPositions s !! deviceId with
        | None =>
            (* First position recorded *)
            set_stuckPositions (<[deviceId := anchor]> (stuckPositions s)) s
        | Some stuckData =>
            let distance :=
              calculateDistance M
                (stuck_latitude stuckData) (stuck_longitude stuckData)
                latitude longitude in
            if (1 <? distance)%float
            then (* Moved more than 1 meter: reset stuck detection *)
              set_stuckPositions (<[deviceId := anchor]> (stuckPositions s)) s
            else
              (* Check if stuck for too long *)
              let stuckTime := ((now E - stuck_timestamp stuckData) / 1000)%float in
              if (stuckThreshold (config s) <? stuckTime)%float
              then
                let s := addMessage
                           [Str "Device appears to be stuck (";
                            Num (Math_round stuckTime);
                            Str "s without movement)"] "error" None s in
                let s := if mapManager (app s)
                         then emit (MapMarkStuck latitude longitude) s
                         else s in
                (* Reset to avoid spam *)
                set_stuckPositions (<[deviceId := anchor]> (stuckPositions s)) s
              else s
        end
  end.

Definition generateStateChangeMessage (previousState newState : Z)
    (s : Cockpit) : Cockpit :=
  let previousName := getStateName previousState in
  let newName := getStateName newState in
  let s := addMessage
             [Str "State changed: "; Str previousName; Str " → "; Str newName]
             "info" None s in
  (* Check for recovery from stuck *)
  if (previousState =? 4) && (newState =? 2)
  then addMessage [Str "Device resumed operation"] "info" None s
  else s.

(** [app.updateLastUpdateTime()] belongs to the application shell: it
    stamps the page and restarts the stale-data timer. *)
Definition updateLastUpdateTime (s : Cockpit) : Cockpit :=
  emit AppUpdateLastUpdateTime s.

(* ---- Real-time data handlers ---- *)

(** [!this.currentDevice || data.LawnmowerId !== this.currentDevice.id] *)
Definition rejected (lawnmowerId : Z) (s : Cockpit) : bool :=
  match currentDevice s with
  | None => true
  | Some dev => negb (lawnmowerId =? id dev)
  end.

Definition handleBatteryUpdate (data : BatteryData) (s : Cockpit) : Cockpit :=
  if rejected (battery_LawnmowerId data) s then s
  else
    let s := updateBatteryLevel (BatteryLevel data) Date_current s in
    let s := checkBatteryWarnings (BatteryLevel data) s in
    updateLastUpdateTime s.

Definition handleGpsUpdate (data : GpsData) (s : Cockpit) : Cockpit :=
  if rejected (gps_LawnmowerId data) s then s
  else
    let s := updateGpsPosition (Latitude data) (Longitude data) Date_current s in
    let s := checkStuckDetection (Latitude data) (Longitude data) s in
    updateLastUpdateTime s.

Definition handleStateUpdate (data : StateData) (s : Cockpit) : Cockpit :=
  match currentDevice s with
  | None => s
  | Some dev =>
      if negb (state_LawnmowerId data =? id dev) then s
      else
        let previousState := lastStates s !! id dev in
        let s := updateDeviceState (State data) Date_current s in
        let s :=
          match previousState with
          | Some previous =>
              if negb (previous =? State data)
              then generateStateChangeMessage previous (State data) s
              else s
          | None => s
          end in
        let s := set_lastStates (<[id dev := State data]> (lastStates s)) s in
        updateLastUpdateTime s
  end.

(* ---- Device selection ---- *)

Definition clearCockpitData (s : Cockpit) : Cockpit :=
  let s := emit (DomText "batteryLevel" [Str "--"]) s in
  let s := emit (DomText "deviceStatus" [Str "Unknown"]) s in
  let s := emit (DomText "messageCount" [Str "0"]) s in
  let s := set_messages [] s in
  emit HideStaleDataBanner s.

Definition updateDeviceHeader (s : Cockpit) : Cockpit :=
  match currentDevice s with
  | None => s
  | Some dev =>
      let s := emit (DomText "deviceName" [Str (name dev)]) s in
      emit (DomText "deviceAddress" [Str (address dev)]) s
  end.

(** [loadInitialData()], from the point where its three requests have
    settled with [i]. The initial status message reads the name of the
    device bound by then; with no device bound that read throws, and the
    handler of the exception adds the failure message instead. *)
Definition loadInitialData (i : InitialData) (s : Cockpit) : Cockpit :=
  let s := match init_battery i with
           | Some (level, ts) => updateBatteryLevel level ts s
           | None => s
           end in
  let s := match init_state i with
           | Some (st, ts) => updateDeviceState st ts s
           | None => s
           end in
  let s := match init_gps i with
           | Some (lat, lon, ts) => updateGpsPosition lat lon ts s
           | None => s
           end in
  match currentDevice s with
  | Some dev =>
      (* Generate initial status message *)
      let s := addMessage [Str ("Cockpit initialized for " ++ name dev)]
                 "info" None s in
      updateLastUpdateTime s
  | None =>
      addMessage [Str "Failed to load initial device data"] "error" None s
  end.

(** [setDevice(device)] up to its first wait after the fields are reset
    (subscription and polling are the transport's and are left out). *)
Definition setDevice_selected (device : option Device) (s : Cockpit) : Cockpit :=
  let s := set_currentDevice device s in
  let s := set_messages [] s in
  let s := set_lastStates ∅ s in
  let s := set_stuckPositions ∅ s in
  match device with
  | None => clearCockpitData s
  | Some _ => updateDeviceHeader s
  end.

(** [setDevice(device)] for a device, once the initial data has arrived. *)
Definition setDevice_loaded (device : Device) (i : InitialData)
    (s : Cockpit) : Cockpit :=
  let s := loadInitialData i s in
  (* Initialize map with device *)
  if mapManager (app s) then emit (MapSetDevice device) s else s.

(** [setDevice(device)] when nothing else runs while it waits. *)
Definition setDevice (device : option Device) (i : InitialData)
    (s : Cockpit) : Cockpit :=
  let s := setDevice_selected device s in
  match device with
  | None => s
  | Some dev => setDevice_loaded dev i s
  end.

End Handlers.

(** ** Sessions: what can happen to a cockpit. A device selection is two
    events, since measurements may be handled while it waits for the
    initial data. *)

Inductive event :=
| DeviceSelected (device : option Device)
| InitialDataLoaded (device : Device) (i : InitialData)
| BatteryUpdate (data : BatteryData)
| GpsUpdate (data : GpsData)
| StateUpdate (data : StateData)
| ConfigLoaded (c : Config)          (* [loadConfiguration] stores a config *)
| TabSelected (tab : string).        (* the shell switches [app.currentTab] *)

Definition step (M : MathLib) (E : Env) (ev : event) (s : Cockpit) : Cockpit :=
  match ev with
  | DeviceSelected device => setDevice_selected device s
  | InitialDataLoaded device i => setDevice_loaded E device i s
  | BatteryUpdate data => handleBatteryUpdate E data s
  | GpsUpdate data => handleGpsUpdate M E data s
  | StateUpdate data => handleStateUpdate E data s
  | ConfigLoaded c => set_config c s
  | TabSelected tab =>
      set_app {| currentTab := tab; mapManager := mapManager (app s);
                 chartManager := chartManager (app s) |} s
  end.

(** A run: the events with the clock and random source of each. *)
Fixpoint run (M : MathLib) (evs : list (Env * event)) (s : Cockpit) : Cockpit :=
  match evs with
  | [] => s
  | (E, ev) :: evs' => run M evs' (step M E ev s)
  end.

Inductive reachable (M : MathLib) : Cockpit -> Prop :=
| reachable_new a : reachable M (new_CockpitManager a)
| reachable_step s E ev : reachable M s -> reachable M (step M E ev s).

End CockpitManager.

(* ===================================================================== *)
(** * ChartManager: battery trend prediction *)
(* ===================================================================== *)

Module ChartManager.
Import JS.

Record BatterySample := {
  timestamp : Date;
  level : float
}.

Record Point := { x : Date; y : float }.

Record Prediction := {
  data : list Point;
  label : text
}.

Record Chart := {
  cockpitManager : option CockpitManager.Cockpit;   (* [this.app.cockpitManager] *)
  currentDevice : option CockpitManager.Device;
  batteryData : list BatterySample;
  isLiveMode : bool
}.

(** [l.slice(-n)]: the last [n] elements. *)
Definition slice_last {A} (n : nat) (l : list A) : list A :=
  skipn (length l - n) l.

(** [xs.includes(v)] where [v] may be undefined. *)
Definition includes (xs : list Z) (v : option Z) : bool :=
  match v with
  | Some n => existsb (Z.eqb n) xs
  | None => false
  end.

Definition getCurrentDeviceState (c : Chart) : option Z :=
  (* Get current state from cockpit manager *)
  match cockpitManager c with
  | Some cockpit =>
      match currentDevice c with
      | Some dev => CockpitManager.lastStates cockpit !! CockpitManager.id dev
      | None => None
      end
  | None => Some 0 (* Default to charging *)
  end.

Definition calculateBatteryPrediction (c : Chart) : option Prediction :=
  if (length (batteryData c) <? 2)%nat then None
  else
    let currentState := getCurrentDeviceState c in
    let recentData := slice_last 10 (batteryData c) in (* Use last 10 data points *)
    if (length recentData <? 2)%nat then None
    else
      match head recentData, last recentData with
      | Some first, Some latest =>
          (* Calculate trend *)
          let timeSpan := Date_sub (timestamp latest) (timestamp first) in
          let levelChange := (level latest - level first)%float in
          let ratePerMs := (levelChange / timeSpan)%float in
          let currentLevel := level latest in
          let currentTime := timestamp latest in
          let '(predictionPoints, lbl) :=
            if bool_decide (currentState = Some 0) then (* Station Charging *)
              if (0 <? ratePerMs)%float then
                (* Charging - predict time to full *)
                let timeToFull := ((100 - currentLevel) / (ratePerMs * 60000))%float in
                let fullTime := new_Date (getTime currentTime + timeToFull * 60000)%float in
                ([ {| x := currentTime; y := currentLevel |};
                   {| x := fullTime; y := 100 |} ],
                 [Str "Charging complete: "; Num (Math_round timeToFull); Str " min"])
              else ([], [])
            else if includes [2; 3; 4; 5] currentState then
              (* Mowing, Returning, Paused, Error *)
              if (ratePerMs <? 0)%float then
                (* Discharging - predict time to empty *)
                let timeToEmpty := (currentLevel / (- ratePerMs * 60000))%float in
                let emptyTime := new_Date (getTime currentTime + timeToEmpty * 60000)%float in
                ([ {| x := currentTime; y := currentLevel |};
                   {| x := emptyTime; y := 0 |} ],
                 [Str "Battery empty: "; Num (Math_round timeToEmpty); Str " min"])
              else ([], [])
            else ([], []) in
          if (0 <? length predictionPoints)%nat
          then Some {| data := predictionPoints; label := lbl |}
          else None
      | _, _ => None
      end.

End ChartManager.

(* ===================================================================== *)
(** * StatusManager: status distribution and timeline *)
(* ===================================================================== *)

Module StatusManager.
Import JS.

(** A record of the state history; [timestamp] is [new Date(r.timestamp)]
    (the parsing of the transport's time format is not modelled). *)
Record StateRecord := {
  timestamp : Date;
  state : Z
}.

Record TimeRange := { from : Date; to : Date }.

Record Segment := {
  stateId : Z;
  stateName : option string;
  startTime : Date;
  endTime : Date;
  duration : float
}.

Record StatusItem := {
  item_stateId : Z;
  item_stateName : option string;
  item_duration : float;
  percentage : float;
  color : option string
}.

Definition statusColors : list (Z * string) :=
  [ (0, "#39FF14"); (1, "#228B22"); (2, "#7F8F3D");
    (3, "#FF7979"); (4, "#F43333"); (5, "#B22222") ].

Definition statusNames : list (Z * string) :=
  [ (0, "Station Charging");
    (1, "Charging Completed");
    (2, "Mowing");
    (3, "Returning to Station");
    (4, "Paused");
    (5, "Error") ].

(** ** [stateDurations]: an object used as a map from state id to seconds.
    Its own keys are enumerated with the integer indices first, in
    ascending order, then the other keys in insertion order. *)

Definition is_index (k : Z) : bool := (0 <=? k) && (k <? 4294967295).

Fixpoint obj_add (k : Z) (v : float) (o : list (Z * float)) : list (Z * float) :=
  match o with
  | [] => [(k, v)]
  | (k', v') :: o' =>
      if is_index k && (negb (is_index k') || (k <? k'))
      then (k, v) :: (k', v') :: o'
      else (k', v') :: obj_add k v o'
  end.

Fixpoint obj_replace (k : Z) (v : float) (o : list (Z * float)) : list (Z * float) :=
  match o with
  | [] => []
  | (k', v') :: o' =>
      if k =? k' then (k', v) :: o' else (k', v') :: obj_replace k v o'
  end.

(** [o[k] = v] *)
Definition obj_set (k : Z) (v : float) (o : list (Z * float)) : list (Z * float) :=
  match prop o k with
  | Some _ => obj_replace k v o
  | None => obj_add k v o
  end.

(** [!v] on a possibly undefined number: 0, -0 and NaN are falsy. *)
Definition falsy (v : option float) : bool :=
  match v with
  | None => true
  | Some n => is_zero n || is_nan n
  end.

(** ** Sorting: [Array.prototype.sort] is stable; a comparator result
    that is positive moves the later element first, any other result
    (NaN counts as 0) keeps the order. *)

Section Sort.
Context {A : Type} (compareFn : A -> A -> float).

Fixpoint sort_insert (a : A) (l : list A) : list A :=
  match l with
  | [] => [a]
  | b :: l' =>
      if (0 <? compareFn a b)%float then b :: sort_insert a l'
      else a :: b :: l'
  end.

Definition sort (l : list A) : list A := foldr sort_insert [] l.
End Sort.

(** The loop of [processStatusData] over [sortedHistory]. *)
Fixpoint scan (sortedHistory : list StateRecord) (timeRange : TimeRange)
    (stateDurations : list (Z * float)) (timeline : list Segment)
    : list (Z * float) * list Segment :=
  match sortedHistory with
  | [] => (stateDurations, timeline)
  | current :: rest =>
      let currentTime := timestamp current in
      let stateId := state current in
      (* Determine end time for this state *)
      let endTime :=
        match rest with
        | next :: _ => timestamp next
        | [] => to timeRange (* Last state extends to the end of the time range *)
        end in
      (* Calculate duration in seconds *)
      let duration := (Date_sub endTime currentTime / 1000)%float in
      (* Add to durations *)
      let stateDurations :=
        if falsy (prop stateDurations stateId)
        then obj_set stateId 0 stateDurations
        else stateDurations in
      let stateDurations :=
        obj_set stateId
          (default nan (prop stateDurations stateId) + duration)%float
          stateDurations in
      (* Add to timeline *)
      scan rest timeRange stateDurations
        (timeline ++
         [ {| stateId := stateId;
              stateName := prop statusNames stateId;
              startTime := currentTime;
              endTime := endTime;
              duration := duration |} ])
  end.

(** [processStatusData(history, timeRange)]: the pair of [this.statusData]
    and [this.timeline] it stores. *)
Definition processStatusData (history : list StateRecord) (timeRange : TimeRange)
    : list StatusItem * list Segment :=
  (* Sort by timestamp *)
  let sortedHistory :=
    sort (fun a b => Date_sub (timestamp a) (timestamp b)) history in
  let '(stateDurations, timeline) := scan sortedHistory timeRange [] [] in
  (* Convert to chart data *)
  let statusData :=
    map (fun '(stateId, duration) =>
           {| item_stateId := stateId;
              item_stateName := prop statusNames stateId;
              item_duration := duration;
              percentage :=
                (duration /
                 fold_left (fun a b => (a + b)%float) (map snd stateDurations) 0
                 * 100)%float;
              color := prop statusColors stateId |})
        stateDurations in
  (statusData, timeline).

(** The loop of [groupConsecutiveStates]. *)
Fixpoint group_loop (timeline : list Segment) (grouped : list Segment)
    (currentGroup : Segment) : list Segment :=
  match timeline with
  | [] => grouped ++ [currentGroup]
  | current :: rest =>
      if (stateId current =? stateId currentGroup) &&
         (Math_abs (Date_sub (startTime current) (endTime currentGroup)) <? 60000)%float
      then (* Within 1 minute: extend current group *)
        group_loop rest grouped
          {| stateId := stateId currentGroup;
             stateName := stateName currentGroup;
             startTime := startTime currentGroup;
             endTime := endTime current;
             duration := (duration currentGroup + duration current)%float |}
      else (* Start new group *)
        group_loop rest (grouped ++ [currentGroup]) current
  end.

Definition groupConsecutiveStates (timeline : list Segment) : list Segment :=
  match timeline with
  | [] => []
  | first :: rest => group_loop rest [] first
  end.

End StatusManager.

(* ===================================================================== *)
(** * Integers as binary64 values *)
(* ===================================================================== *)

Module Binary64.

(** The canonical mantissa and exponent of a positive integer below 2^53:
    the integer shifted left until it has 53 bits. *)
Definition int_mantissa (p : positive) : positive :=
  Nat.iter (Z.to_nat (53 - Zpos (digits2_pos p))) xO p.

Definition int_exponent (p : positive) : Z := Zpos (digits2_pos p) - 53.

Definition sf_pos (s : bool) (p : positive) : spec_float :=
  S754_finite s (int_mantissa p) (int_exponent p).

Definition sf_int (n : Z) : spec_float :=
  match n with
  | Z0 => S754_zero false
  | Zpos p => sf_pos false p
  | Zneg p => sf_pos true p
  end.

(** The integers [start], [start + 1], ... ([count] of them). *)
Fixpoint Z_range (start : Z) (count : nat) : list Z :=
  match count with
  | O => []
  | S count' => start :: Z_range (start + 1) count'
  end.

(** The elapsed times, in milliseconds, on which the stuck test with the
    default threshold of 90 seconds is tabulated: 0 to 91 seconds. *)
Definition elapsed_table : list Z := Z_range 0 (Z.to_nat 91001).

(** On [dt] milliseconds the test [stuckTime > 90] of the program agrees
    with [dt > 90000]. *)
Definition stuck_test_agrees (dt : Z) : bool :=
  Bool.eqb (90 <? JS.of_Z dt / 1000)%float (90000 <? dt).

End Binary64.

(* ===================================================================== *)
(** * Observations on a session *)
(* ===================================================================== *)

Module Observe.
Import JS CockpitManager.

(** The lines written to the console, latest first: one per message
    added, with its type and text. *)
Definition console (s : Cockpit) : list (string * text) :=
  omap (fun e => match e with
                 | ConsoleLog type _ content => Some (type, content)
                 | _ => None
                 end) (effects s).

Definition is_stuck_alert (line : string * text) : bool :=
  match line with
  | (type, Str s :: _) =>
      String.eqb type "error" && String.eqb s "Device appears to be stuck ("
  | _ => false
  end.

(** The number of stuck alerts raised so far. *)
Definition stuck_alerts (s : Cockpit) : nat :=
  length (filter (fun l => is_stuck_alert l = true) (console s)).

(** No device is bound, or the bound device has another id than [k]. *)
Definition not_bound (k : Z) (s : Cockpit) : Prop :=
  forall dev, currentDevice s = Some dev -> k <> id dev.

(** [s'] has the device, the known states, the anchors and the settings
    of [s]. *)
Definition same_tracking (s s' : Cockpit) : Prop :=
  currentDevice s' = currentDevice s /\ lastStates s' = lastStates s /\
  stuckPositions s' = stuckPositions s /\ config s' = config s /\
  app s' = app s.

(** Anchors exist only for the bound device, and only once a state of it
    is known. *)
Definition anchors_of_bound_device (s : Cockpit) : Prop :=
  forall k a, stuckPositions s !! k = Some a ->
    (exists dev, currentDevice s = Some dev /\ id dev = k) /\
    is_Some (lastStates s !! k).

(** The device is bound and known to be mowing, and the stuck threshold
    is the default of 90 seconds. *)
Definition mowing (dev : Device) (s : Cockpit) : Prop :=
  currentDevice s = Some dev /\ lastStates s !! id dev = Some 2 /\
  stuckThreshold (config s) = 90%float.

(** The anchor that a GPS sample taken at [n] milliseconds leaves. *)
Definition anchor_of (data : GpsData) (n : Z) : StuckData :=
  {| stuck_latitude := Latitude data; stuck_longitude := Longitude data;
     stuck_timestamp := of_Z n |}.

(** The distance in metres between two GPS samples. *)
Definition apart (M : MathLib) (a b : GpsData) : float :=
  LawnmowerAPI.calculateDistance M (Latitude a) (Longitude a)
    (Latitude b) (Longitude b).

(** The text of the stuck alert after [elapsed] milliseconds. *)
Definition stuck_text (elapsed : Z) : text :=
  [Str "Device appears to be stuck (";
   Num (Math_round (of_Z elapsed / 1000)%float);
   Str "s without movement)"].

(** The clock at [n] milliseconds, with the random source [rnd]. *)
Definition at_time (n : Z) (rnd : nat -> float) : Env :=
  {| now := of_Z n; random := rnd |}.

(** The date [ms] milliseconds after the epoch. *)
Definition date_at (ms : Z) : Date := new_Date (of_Z ms).

(** A battery sample taken [ms] milliseconds after the epoch. *)
Definition sample_at (ms : Z) (lvl : float) : ChartManager.BatterySample :=
  {| ChartManager.timestamp := date_at ms; ChartManager.level := lvl |}.

(** A state record taken [ms] milliseconds after the epoch. *)
Definition record_at (ms : Z) (st : Z) : StatusManager.StateRecord :=
  {| StatusManager.timestamp := date_at ms; StatusManager.state := st |}.

(** The message that [addMessage] builds in state [s]. *)
Definition new_message (E : Env) (txt : text) (type : string)
    (timestamp : option Date) (s : Cockpit) : Message :=
  {| msg_id := (now E + random E (randoms s))%float;
     msg_text := txt;
     msg_type := type;
     msg_timestamp := default (Date_current E) timestamp |}.

End Observe.

(* ===================================================================== *)
(** * Concrete sessions and inputs, for the examples *)
(* ===================================================================== *)

Module Examples.
Import JS CockpitManager.

(** A stand-in for the host's [Math]: the small-angle approximations
    sin x = x, cos x = 1 and atan2 y x = y / x. *)
Definition example_math : MathLib :=
  {| Math_sin := fun x => x;
     Math_cos := fun _ => 1%float;
     Math_atan2 := fun y x => (y / x)%float |}.

(** The clock at [n] milliseconds. *)
Definition env_at (n : Z) : Env := Observe.at_time n (fun _ => 0.5%float).

Definition shell : App :=
  {| currentTab := "cockpit"; mapManager := true; chartManager := true |}.

Definition mower : Device :=
  {| id := 1; name := "Mower"; address := "192.168.1.42:5467" |}.

Definition nothing_loaded : InitialData :=
  {| init_battery := None; init_gps := None; init_state := None |}.

Definition old_message : Message :=
  {| msg_id := 0.5; msg_text := [Str "Battery low: "; Num 5; Str "%"];
     msg_type := "warning"; msg_timestamp := new_Date 0 |}.

(** A session whose log holds 1000 messages. *)
Definition full_log : Cockpit :=
  set_messages (repeat old_message 1000) (new_CockpitManager shell).

(** The mower selected at time 0, nothing known about it yet. *)
Definition selected : Cockpit :=
  setDevice (env_at 0) (Some mower) nothing_loaded (new_CockpitManager shell).

(** The mower has reported the Error state once, at 5 seconds. *)
Definition in_error : Cockpit :=
  handleStateUpdate (env_at 5000) {| state_LawnmowerId := 1; State := 5 |} selected.

(** The mower is selected, then Mowing is reported at 1 s, a position at
    2 s and Paused at 3 s. *)
Definition paused_after_mowing : Cockpit :=
  run example_math
    [ (env_at 0, DeviceSelected (Some mower));
      (env_at 500, InitialDataLoaded mower nothing_loaded);
      (env_at 1000, StateUpdate {| state_LawnmowerId := 1; State := 2 |});
      (env_at 2000, GpsUpdate {| gps_LawnmowerId := 1; Latitude := 47.5;
                                 Longitude := 8.25 |});
      (env_at 3000, StateUpdate {| state_LawnmowerId := 1; State := 4 |}) ]
    (new_CockpitManager shell).

(** The mower is known to be mowing, no position seen yet. *)
Definition mowing_session : Cockpit :=
  handleStateUpdate (env_at 1000) {| state_LawnmowerId := 1; State := 2 |} selected.

(** A motionless mower: the same position, reported five times. *)
Definition standing : GpsData :=
  {| gps_LawnmowerId := 1; Latitude := 47.5; Longitude := 8.25 |}.

(** The mower is known to be charging in the station. *)
Definition charging_session : Cockpit :=
  handleStateUpdate (env_at 1000) {| state_LawnmowerId := 1; State := 0 |} selected.

(** The chart of the mower while it charges, with the given samples. *)
Definition chart_of (samples : list ChartManager.BatterySample) : ChartManager.Chart :=
  {| ChartManager.cockpitManager := Some charging_session;
     ChartManager.currentDevice := Some mower;
     ChartManager.batteryData := samples;
     ChartManager.isLiveMode := true |}.

(** After [paused_after_mowing], with no position reported during the
    pause: Mowing is reported again at 200 s and the same position at
    201 s. *)
Definition resumed_after_pause : Cockpit :=
  run example_math
    [ (env_at 200000, StateUpdate {| state_LawnmowerId := 1; State := 2 |});
      (env_at 201000, GpsUpdate {| gps_LawnmowerId := 1; Latitude := 47.5;
                                   Longitude := 8.25 |}) ]
    paused_after_mowing.

End Examples.

(* ===================================================================== *)
(** * Further observations on a session *)
(* ===================================================================== *)

Module Page.
Import JS CockpitManager.

(** The class that the page shows on [element]: the one set last. *)
Fixpoint class_in (element : string) (effs : list effect) : option string :=
  match effs with
  | [] => None
  | DomClass el c :: effs' =>
      if String.eqb el element then Some c else class_in element effs'
  | _ :: effs' => class_in element effs'
  end.

Definition shown_class (element : string) (s : Cockpit) : option string :=
  class_in element (effects s).

(** The anchor that a GPS sample leaves when handled at the instant of [E]. *)
Definition anchor_at (E : Env) (data : GpsData) : StuckData :=
  {| stuck_latitude := Latitude data; stuck_longitude := Longitude data;
     stuck_timestamp := now E |}.

(** The distance in metres from an anchor to a GPS sample. *)
Definition moved (M : MathLib) (a : StuckData) (data : GpsData) : float :=
  LawnmowerAPI.calculateDistance M (stuck_latitude a) (stuck_longitude a)
    (Latitude data) (Longitude data).

(** The seconds elapsed at the instant of [E] since an anchor was set. *)
Definition elapsed (E : Env) (a : StuckData) : float :=
  ((now E - stuck_timestamp a) / 1000)%float.

(** The line of the stuck alert for [seconds] without movement. *)
Definition stuck_line (seconds : float) : string * text :=
  ("error", [Str "Device appears to be stuck ("; Num (Math_round seconds);
             Str "s without movement)"]).


(** The last known state is Mowing (2) or ReturningToStation (3). *)
Definition on_the_move (dev : Device) (s : Cockpit) : Prop :=
  lastStates s !! id dev = Some 2 \/ lastStates s !! id dev = Some 3.

(** Known states exist only for the bound device. *)
Definition states_of_bound_device (s : Cockpit) : Prop :=
  forall k st, lastStates s !! k = Some st ->
    exists dev, currentDevice s = Some dev /\ id dev = k.

(** Every message of the log has one of the types info, warning and
    error. *)
Definition typed_log (s : Cockpit) : Prop :=
  Forall (fun m => msg_type m = "info" \/ msg_type m = "warning" \/
                   msg_type m = "error") (messages s).

End Page.

(* ===================================================================== *)
(** * CockpitManager: polling *)
(* ===================================================================== *)

Module Polling.
Import JS CockpitManager.

(** What the three requests of one poll have settled with; a request that
    was not fulfilled gives [None]. *)
Record PollData := {
  poll_battery : option float;
  poll_gps : option (float * float);
  poll_state : option Z
}.

(** [this.currentDevice.id], which throws when no device is bound. *)
Definition currentDevice_id (s : Cockpit) : option Z :=
  match currentDevice s with
  | Some dev => Some (id dev)
  | None => None
  end.

(** [pollDeviceData()], from the point where its three requests have
    settled with [p]. Each handler reads the clock on its own. The second
    component tells whether the [catch] logged a failure. *)
Definition pollDeviceData (M : MathLib) (Eb Eg Es : Env) (p : PollData)
    (s : Cockpit) : Cockpit * bool :=
  let battery :=
    match poll_battery p with
    | Some level =>
        match currentDevice_id s with
        | Some i => Some (handleBatteryUpdate Eb
                            {| battery_LawnmowerId := i; BatteryLevel := level |} s)
        | None => None
        end
    | None => Some s
    end in
  match battery with
  | None => (s, true)
  | Some s =>
      let gps :=
        match poll_gps p with
        | Some (latitude, longitude) =>
            match currentDevice_id s with
            | Some i => Some (handleGpsUpdate M Eg
                                {| gps_LawnmowerId := i; Latitude := latitude;
                                   Longitude := longitude |} s)
            | None => None
            end
        | None => Some s
        end in
      match gps with
      | None => (s, true)
      | Some s =>
          let state :=
            match poll_state p with
            | Some st =>
                match currentDevice_id s with
                | Some i => Some (handleStateUpdate Es
                                    {| state_LawnmowerId := i; State := st |} s)
                | None => None
                end
            | None => Some s
            end in
          match state with
          | None => (s, true)
          | Some s => (s, false)
          end
      end
  end.

End Polling.

(* ===================================================================== *)
(** * More sessions and inputs, for the examples *)
(* ===================================================================== *)

Module Scenes.
Import JS CockpitManager Examples.

(** The mowing mower has reported the position [standing] at 2 s. *)
Definition tracking : Cockpit :=
  handleGpsUpdate example_math (env_at 2000) standing mowing_session.

(** A position an eighth of a degree further north. *)
Definition moved_on : GpsData :=
  {| gps_LawnmowerId := 1; Latitude := 47.625; Longitude := 8.25 |}.

Definition pausing : StateData := {| state_LawnmowerId := 1; State := 4 |}.

Definition charged : StateData := {| state_LawnmowerId := 1; State := 1 |}.

(** A poll that delivers a position and the state Mowing. *)
Definition first_poll : Polling.PollData :=
  {| Polling.poll_battery := Some 80%float;
     Polling.poll_gps := Some (47.5, 8.25)%float;
     Polling.poll_state := Some 2 |}.

End Scenes.

(* ===================================================================== *)
(** * ChartManager: the live battery chart *)
(* ===================================================================== *)

Module LiveChart.
Import JS ChartManager.

(** The [data] of a chart.js dataset: points, or values plotted against
    the labels of the chart. *)
Inductive series :=
| Points (points : list Point)
| Values (values : list float).

Record Dataset := {
  ds_label : text;
  ds_data : series
}.

(** [chart.data] of a chart.js instance, with the number of calls of
    [chart.update]. *)
Record ChartJs := {
  labels : list Date;
  datasets : list Dataset;
  redraws : nat
}.

(** The chart manager: the fields read by the predictor, and
    [this.batteryChart]. *)
Record Manager := {
  fields : Chart;
  batteryChart : option ChartJs
}.

Definition set_batteryData (samples : list BatterySample) (c : Chart) : Chart :=
  {| cockpitManager := cockpitManager c; currentDevice := currentDevice c;
     batteryData := samples; isLiveMode := isLiveMode c |}.

(** What a call leaves behind: it returned, or it threw and left the
    manager as it was at that point. *)
Inductive outcome :=
| Returned (m : Manager)
| Thrown (m : Manager).

Definition after (o : outcome) : Manager :=
  match o with
  | Returned m => m
  | Thrown m => m
  end.

(** [setDevice(device)] *)
Definition setDevice (device : option CockpitManager.Device) (m : Manager) : Manager :=
  {| fields := {| cockpitManager := cockpitManager (fields m);
                  currentDevice := device;
                  batteryData := [];
                  isLiveMode := isLiveMode (fields m) |};
     batteryChart := None |}.

(** [renderBatteryChart()]; [canvas] tells whether the page has the
    canvas element. *)
Definition renderBatteryChart (canvas : bool) (m : Manager) : Manager :=
  if negb canvas then m
  else
    (* Prepare data for time series chart *)
    let chartData :=
      map (fun item => {| x := timestamp item; y := level item |})
          (batteryData (fields m)) in
    (* Calculate prediction if in live mode *)
    let '(predictionData, predictionLabel) :=
      if isLiveMode (fields m) && (1 <? length (batteryData (fields m)))%nat
      then match calculateBatteryPrediction (fields m) with
           | Some prediction => (data prediction, label prediction)
           | None => ([], [])
           end
      else ([], []) in
    {| fields := fields m;
       batteryChart :=
         Some {| labels := [];
                 datasets :=
                   {| ds_label := [Str "Battery Level"]; ds_data := Points chartData |}
                   :: (if (0 <? length predictionData)%nat
                       then [ {| ds_label := predictionLabel;
                                 ds_data := Points predictionData |} ]
                       else []);
                 redraws := 0 |} |}.

(** [loadBatteryChart(isLiveMode)], from the point where the history has
    arrived; [timestamp] of an item of [history] is [new Date(item.timestamp)]
    and [level] its [batteryLevel]. *)
Definition loadBatteryChart (live : bool) (canvas : bool)
    (history : list BatterySample) (m : Manager) : Manager :=
  match currentDevice (fields m) with
  | None => m
  | Some _ =>
      let samples :=
        StatusManager.sort
          (fun a b => Date_sub (timestamp a) (timestamp b)) history in
      renderBatteryChart canvas
        {| fields := {| cockpitManager := cockpitManager (fields m);
                        currentDevice := currentDevice (fields m);
                        batteryData := samples;
                        isLiveMode := live |};
           batteryChart := None |}
  end.

(** [item.timestamp >= cutoff] *)
Definition recent (cutoff : Date) (item : BatterySample) : bool :=
  (getTime cutoff <=? getTime (timestamp item))%float.

(** [updateBatteryChart(level, timestamp)] at the instant [now];
    [timestamp] is a date, as the cockpit passes it. *)
Definition updateBatteryChart (now : float) (lvl : float) (ts : Date)
    (m : Manager) : outcome :=
  match batteryChart m with
  | None => Returned m
  | Some chart =>
      if negb (isLiveMode (fields m)) then Returned m
      else
        (* Add new data point *)
        let samples :=
          (batteryData (fields m)
           ++ [ {| timestamp := new_Date (getTime ts); level := lvl |} ])%list in
        let m := {| fields := set_batteryData samples (fields m);
                    batteryChart := Some chart |} in
        match cockpitManager (fields m) with
        | None => Thrown m
        | Some cockpit =>
            (* Keep only recent data for live mode *)
            let cutoff :=
              new_Date (now - CockpitManager.liveRange (CockpitManager.config cockpit)
                              * 1000)%float in
            let samples := filter (fun item => recent cutoff item = true) samples in
            let f := set_batteryData samples (fields m) in
            (* Update chart data *)
            match datasets chart with
            | [] =>
                Thrown {| fields := f;
                          batteryChart :=
                            Some {| labels := map timestamp samples;
                                    datasets := []; redraws := redraws chart |} |}
            | main :: others =>
                let main := {| ds_label := ds_label main;
                               ds_data := Values (map level samples) |} in
                (* Recalculate prediction *)
                let others :=
                  match calculateBatteryPrediction f, others with
                  | Some prediction, _ :: rest =>
                      {| ds_label := label prediction;
                         ds_data := Points (data prediction) |} :: rest
                  | _, _ => others
                  end in
                Returned {| fields := f;
                            batteryChart :=
                              Some {| labels := map timestamp samples;
                                      datasets := main :: others;
                                      redraws := S (redraws chart) |} |}
            end
        end
  end.

(** The live updates of a session, in order; an update that throws leaves
    the manager as it was at that point. *)
Fixpoint updates (calls : list (float * float * Date)) (m : Manager) : Manager :=
  match calls with
  | [] => m
  | (now, lvl, ts) :: calls' => updates calls' (after (updateBatteryChart now lvl ts m))
  end.

(** The prediction line that the chart shows, if it has one. *)
Definition shown_prediction (m : Manager) : option Dataset :=
  match batteryChart m with
  | Some chart => nth_error (datasets chart) 1
  | None => None
  end.

End LiveChart.

(* ===================================================================== *)
(** * CockpitManager: the message list *)
(* ===================================================================== *)

Module MessageList.
Import JS CockpitManager.

(** [renderMessages()] when the active filter button is the one of
    [activeFilter]: the messages put into the list, or [None] when the
    list shows the notice that no message matches (the markup is not
    modelled). *)
Definition renderMessages (activeFilter : string) (s : Cockpit)
    : option (list Message) :=
  let filteredMessages :=
    if negb (String.eqb activeFilter "all")
    then filter (fun msg => msg_type msg = activeFilter) (messages s)
    else messages s in
  if (length filteredMessages =? 0)%nat then None
  else Some (firstn 100 filteredMessages).

End MessageList.

(* ===================================================================== *)
(** * Charts and histories, for the examples *)
(* ===================================================================== *)

Module Cases.
Import JS CockpitManager ChartManager LiveChart Observe Examples.

(** Ten samples, one a minute, the level rising by one each time. *)
Definition ten_samples : list BatterySample :=
  map (fun k => sample_at (60000 * k) (of_Z (50 + k))) [1; 2; 3; 4; 5; 6; 7; 8; 9; 10].

(** The chart manager of the charging mower before a chart is loaded. *)
Definition no_chart : Manager :=
  {| fields := chart_of []; batteryChart := None |}.

(** The live chart loaded with two rising samples: it has a prediction. *)
Definition loaded : Manager :=
  loadBatteryChart true true [sample_at 0 50; sample_at 600000 60] no_chart.

(** The same chart once the cockpit has recorded that the charge is
    completed. *)
Definition charge_completed : Manager :=
  {| fields :=
       {| cockpitManager :=
            Some (handleStateUpdate (env_at 700000)
                    {| state_LawnmowerId := 1; State := 1 |} charging_session);
          currentDevice := Some mower;
          batteryData := batteryData (fields loaded);
          isLiveMode := true |};
     batteryChart := batteryChart loaded |}.

(** A history that arrives out of order. *)
Definition unordered : list (Z * Z) := [(31000, 2); (1000, 2); (46000, 0)].

End Cases.

(* ===================================================================== *)
(** * Facts on binary64 arithmetic: integers below 2^53 are exact *)
(* ===================================================================== *)

Section Binary64Facts.
Import JS Binary64.

Lemma iter_pos_nat {A} (f : A -> A) p x :
  SpecFloat.iter_pos f p x = Nat.iter (Pos.to_nat p) f x.
Proof.
  revert x. induction p as [p IH|p IH|]; intros x; cbn [SpecFloat.iter_pos].
  - rewrite !IH, Pos2Nat.inj_xI, <- Nat.iter_succ_r.
    rewrite <- Nat.iter_add. f_equal. lia.
  - rewrite !IH, Pos2Nat.inj_xO, <- Nat.iter_add. f_equal. lia.
  - rewrite Pos2Nat.inj_1. reflexivity.
Qed.

Lemma pos_iter_nat {A} (f : A -> A) p x :
  Pos.iter f x p = Nat.iter (Pos.to_nat p) f x.
Proof. apply Pos2Nat.inj_iter. Qed.

Lemma digits_iter n p :
  Zpos (digits2_pos (Nat.iter n xO p)) = Zpos (digits2_pos p) + Z.of_nat n.
Proof.
  induction n as [|n IH].
  - simpl. lia.
  - rewrite Nat.iter_succ. cbn [digits2_pos]. lia.
Qed.

Lemma Zpos_iter n p : Zpos (Nat.iter n xO p) = Zpos p * 2 ^ Z.of_nat n.
Proof.
  induction n as [|n IH].
  - simpl. lia.
  - rewrite Nat.iter_succ, (Pos2Z.inj_xO (Nat.iter n xO p)), IH, Nat2Z.inj_succ, Z.pow_succ_r by lia. lia.
Qed.

Lemma digits_range p :
  2 ^ (Zpos (digits2_pos p) - 1) <= Zpos p < 2 ^ Zpos (digits2_pos p).
Proof.
  induction p as [p IH|p IH|]; cbn [digits2_pos].
  - rewrite Pos2Z.inj_succ, (Pos2Z.inj_xI p).
    replace (Z.succ (Zpos (digits2_pos p)) - 1) with (Z.succ (Zpos (digits2_pos p) - 1)) by lia.
    rewrite (Z.pow_succ_r 2 (Zpos (digits2_pos p) - 1)) by lia.
    rewrite (Z.pow_succ_r 2 (Zpos (digits2_pos p))) by lia. lia.
  - rewrite Pos2Z.inj_succ, (Pos2Z.inj_xO p).
    replace (Z.succ (Zpos (digits2_pos p)) - 1) with (Z.succ (Zpos (digits2_pos p) - 1)) by lia.
    rewrite (Z.pow_succ_r 2 (Zpos (digits2_pos p) - 1)) by lia.
    rewrite (Z.pow_succ_r 2 (Zpos (digits2_pos p))) by lia. lia.
  - simpl. lia.
Qed.

Lemma digits_le_53 p : Zpos p < 2 ^ 53 -> Zpos (digits2_pos p) <= 53.
Proof.
  intros H. destruct (Z.le_gt_cases (Zpos (digits2_pos p)) 53) as [|G]; [assumption|].
  pose proof (digits_range p) as [L _].
  assert (2 ^ 53 <= 2 ^ (Zpos (digits2_pos p) - 1)) by (apply Z.pow_le_mono_r; lia).
  lia.
Qed.

Lemma shr_iter q j p :
  Nat.iter q shr_1 {| shr_m := Zpos (Nat.iter (q + j) xO p); shr_r := false; shr_s := false |}
  = {| shr_m := Zpos (Nat.iter j xO p); shr_r := false; shr_s := false |}.
Proof.
  revert j. induction q as [|q IH]; intros j.
  - reflexivity.
  - rewrite Nat.iter_succ.
    replace (S q + j)%nat with (q + S j)%nat by lia.
    rewrite IH. rewrite Nat.iter_succ. reflexivity.
Qed.

Lemma shr_iter_eq q k j p :
  k = (q + j)%nat ->
  Nat.iter q shr_1 {| shr_m := Zpos (Nat.iter k xO p); shr_r := false; shr_s := false |}
  = {| shr_m := Zpos (Nat.iter j xO p); shr_r := false; shr_s := false |}.
Proof. intros ->. apply shr_iter. Qed.

Lemma round_aux_canonical s m e :
  Zpos (digits2_pos m) = 53 -> -52 <= e <= 0 ->
  binary_round_aux prec emax s (Zpos m) e loc_Exact = S754_finite s m e.
Proof.
  intros Hd He.
  assert (Hf : fexp prec emax (Zpos (digits2_pos m) + e) - e = 0).
  { rewrite Hd. unfold fexp, SpecFloat.emin, prec, emax. lia. }
  unfold binary_round_aux, shr_fexp. cbn [Zdigits2 shr_record_of_loc].
  rewrite Hf. cbn [shr shr_m loc_of_shr_record round_nearest_even Zdigits2 shr_record_of_loc].
  rewrite Hf. cbn [shr shr_m].
  replace (e <=? emax - prec) with true; [reflexivity|].
  symmetry. apply Z.leb_le. unfold emax, prec. lia.
Qed.

Lemma binary_round_int s p k :
  Zpos p < 2 ^ 53 ->
  binary_round prec emax s (Nat.iter k xO p) (- Z.of_nat k) = sf_pos s p.
Proof.
  intros Hp. pose proof (digits_le_53 p Hp) as Hd.
  assert (H1 : 1 <= Zpos (digits2_pos p)) by lia.
  set (d := Zpos (digits2_pos p)) in *.
  unfold binary_round.
  rewrite digits_iter. fold d.
  replace (fexp prec emax (d + Z.of_nat k + - Z.of_nat k)) with (d - 53)
    by (unfold fexp, SpecFloat.emin, prec, emax; lia).
  unfold shl_align.
  destruct (d - 53 - - Z.of_nat k) as [|q|q] eqn:Hq.
  - (* already canonical *)
    rewrite round_aux_canonical; [|rewrite digits_iter; fold d; lia|lia].
    unfold sf_pos, int_mantissa, int_exponent. fold d. f_equal; [|lia].
    f_equal. lia.
  - (* shift right by q *)
    unfold binary_round_aux, shr_fexp. cbn [Zdigits2 shr_record_of_loc].
    rewrite digits_iter. fold d.
    replace (fexp prec emax (d + Z.of_nat k + - Z.of_nat k) - - Z.of_nat k) with (Zpos q)
      by (unfold fexp, SpecFloat.emin, prec, emax; lia).
    cbn [shr]. rewrite iter_pos_nat.
    rewrite !(shr_iter_eq (Pos.to_nat q) k (Z.to_nat (53 - d)) p) by lia.
    cbn [shr_m loc_of_shr_record round_nearest_even Zdigits2 shr_record_of_loc].
    rewrite digits_iter. fold d.
    replace (fexp prec emax (d + Z.of_nat (Z.to_nat (53 - d)) + (- Z.of_nat k + Zpos q)) - (- Z.of_nat k + Zpos q)) with 0
      by (unfold fexp, SpecFloat.emin, prec, emax; lia).
    cbn [shr shr_m].
    replace (- Z.of_nat k + Zpos q <=? emax - prec) with true
      by (symmetry; apply Z.leb_le; unfold emax, prec; lia).
    unfold sf_pos, int_mantissa, int_exponent. fold d. f_equal. lia.
  - (* shift left by q *)
    rewrite pos_iter_nat, <- Nat.iter_add.
    rewrite round_aux_canonical; [|rewrite digits_iter; fold d; lia|lia].
    unfold sf_pos, int_mantissa, int_exponent. fold d. f_equal. f_equal. lia.
Qed.

Lemma binary_normalize_int N M e :
  - 2 ^ 53 < N < 2 ^ 53 -> e <= 0 -> M = N * 2 ^ (- e) ->
  binary_normalize prec emax M e false = sf_int N.
Proof.
  intros HN He ->.
  replace e with (- Z.of_nat (Z.to_nat (- e))) at 2 by lia.
  replace (- e) with (Z.of_nat (Z.to_nat (- e))) at 1 by lia.
  generalize (Z.to_nat (- e)). intros k.
  destruct N as [|p|p].
  - reflexivity.
  - rewrite <- Zpos_iter. cbn [binary_normalize sf_int].
    apply binary_round_int. lia.
  - replace (Z.neg p * 2 ^ Z.of_nat k) with (Z.neg (Nat.iter k xO p))
      by (rewrite <- !Pos2Z.opp_pos, Zpos_iter; lia).
    cbn [binary_normalize sf_int].
    apply binary_round_int. lia.
Qed.

Lemma int_mantissa_facts p :
  Zpos p < 2 ^ 53 ->
  Zpos (digits2_pos (int_mantissa p)) = 53 /\ -52 <= int_exponent p <= 0 /\
  Zpos (int_mantissa p) = Zpos p * 2 ^ (- int_exponent p).
Proof.
  intros Hp. pose proof (digits_le_53 p Hp) as Hd.
  unfold int_mantissa, int_exponent.
  rewrite digits_iter, Zpos_iter.
  repeat split; try lia.
  f_equal. f_equal. lia.
Qed.

Lemma sf_int_valid n : - 2 ^ 53 < n < 2 ^ 53 -> valid_binary (sf_int n) = true.
Proof.
  intros Hn.
  assert (V : forall s p, Zpos p < 2 ^ 53 -> valid_binary (sf_pos s p) = true).
  { intros s p Hp.
    destruct (int_mantissa_facts p Hp) as (Hd & He & _).
    unfold sf_pos. cbn [SpecFloat.valid_binary].
    unfold bounded, canonical_mantissa. rewrite Hd.
    apply andb_true_iff. split.
    - apply Z.eqb_eq. unfold fexp, SpecFloat.emin, prec, emax. lia.
    - apply Z.leb_le. unfold prec, emax. lia. }
  destruct n; [reflexivity| |]; apply V; lia.
Qed.

Lemma Prim2SF_of_Z n : - 2 ^ 53 < n < 2 ^ 53 -> Prim2SF (of_Z n) = sf_int n.
Proof.
  intros Hn. unfold of_Z.
  rewrite (binary_normalize_int n n 0) by (cbn; lia).
  apply Prim2SF_SF2Prim, sf_int_valid, Hn.
Qed.

Lemma shl_align_value m e ez :
  ez <= e -> Zpos (fst (shl_align m e ez)) = Zpos m * 2 ^ (e - ez).
Proof.
  intros H. unfold shl_align.
  destruct (ez - e) as [|q|q] eqn:Hq; cbn [fst].
  - replace (e - ez) with 0 by lia. cbn. lia.
  - lia.
  - rewrite pos_iter_nat, Zpos_iter. f_equal. f_equal. lia.
Qed.

Lemma aligned_int p ez :
  Zpos p < 2 ^ 53 -> ez <= int_exponent p ->
  Zpos (fst (shl_align (int_mantissa p) (int_exponent p) ez)) = Zpos p * 2 ^ (- ez).
Proof.
  intros Hp He. destruct (int_mantissa_facts p Hp) as (_ & Hr & Hm).
  rewrite shl_align_value, Hm by assumption.
  rewrite <- Z.mul_assoc, <- Z.pow_add_r by lia.
  f_equal. f_equal. lia.
Qed.

Lemma SFadd_int a b :
  - 2 ^ 53 < a < 2 ^ 53 -> - 2 ^ 53 < b < 2 ^ 53 -> - 2 ^ 53 < a + b < 2 ^ 53 ->
  SF64add (sf_int a) (sf_int b) = sf_int (a + b).
Proof.
  intros Ha Hb Hab. unfold SF64add.
  destruct a as [|pa|pa], b as [|pb|pb]; try reflexivity;
    unfold sf_int at 1 2, sf_pos; cbn [SFadd];
    apply binary_normalize_int; try assumption;
    try (destruct (int_mantissa_facts pa) as (_ & ? & _); [lia|];
         destruct (int_mantissa_facts pb) as (_ & ? & _); [lia|]; lia);
    rewrite !aligned_int by lia; cbn [cond_Zopp];
    rewrite <- ?Pos2Z.opp_pos; lia.
Qed.

Lemma SFsub_int a b :
  - 2 ^ 53 < a < 2 ^ 53 -> - 2 ^ 53 < b < 2 ^ 53 -> - 2 ^ 53 < a - b < 2 ^ 53 ->
  SF64sub (sf_int a) (sf_int b) = sf_int (a - b).
Proof.
  intros Ha Hb Hab. unfold SF64sub.
  destruct a as [|pa|pa], b as [|pb|pb]; try reflexivity;
    unfold sf_int at 1 2, sf_pos; cbn [SFsub];
    apply binary_normalize_int; try assumption;
    try (destruct (int_mantissa_facts pa) as (_ & ? & _); [lia|];
         destruct (int_mantissa_facts pb) as (_ & ? & _); [lia|]; lia);
    rewrite !aligned_int by lia; cbn [cond_Zopp];
    rewrite <- ?Pos2Z.opp_pos; lia.
Qed.

Lemma of_Z_add a b :
  - 2 ^ 53 < a < 2 ^ 53 -> - 2 ^ 53 < b < 2 ^ 53 -> - 2 ^ 53 < a + b < 2 ^ 53 ->
  (of_Z a + of_Z b)%float = of_Z (a + b).
Proof.
  intros Ha Hb Hab. apply Prim2SF_inj.
  rewrite add_spec, !Prim2SF_of_Z by assumption. apply SFadd_int; assumption.
Qed.

Lemma of_Z_sub a b :
  - 2 ^ 53 < a < 2 ^ 53 -> - 2 ^ 53 < b < 2 ^ 53 -> - 2 ^ 53 < a - b < 2 ^ 53 ->
  (of_Z a - of_Z b)%float = of_Z (a - b).
Proof.
  intros Ha Hb Hab. apply Prim2SF_inj.
  rewrite sub_spec, !Prim2SF_of_Z by assumption. apply SFsub_int; assumption.
Qed.

Lemma truncate_of_Z n : - 2 ^ 53 < n < 2 ^ 53 -> truncate (of_Z n) = of_Z n.
Proof.
  intros Hn. unfold truncate. rewrite Prim2SF_of_Z by assumption.
  destruct n as [|p|p]; [reflexivity| |];
    unfold sf_int, sf_pos;
    (destruct (int_mantissa_facts p) as (_ & He & Hm); [lia|]);
    (destruct (0 <=? int_exponent p); [reflexivity|]);
    rewrite Z.shiftr_div_pow2, Hm, Z.div_mul by lia; reflexivity.
Qed.

Lemma SFeqb_int_refl n : SFeqb (sf_int n) (sf_int n) = true.
Proof.
  destruct n; [reflexivity| |]; unfold SFeqb, sf_int, sf_pos; cbn [SFcompare];
    rewrite Z.compare_refl, Pos.compare_cont_refl; reflexivity.
Qed.

Lemma is_finite_of_Z n : - 2 ^ 53 < n < 2 ^ 53 -> is_finite (of_Z n) = true.
Proof.
  intros Hn. unfold is_finite, is_nan, is_infinity.
  rewrite !FloatAxioms.eqb_spec, abs_spec, !Prim2SF_of_Z by assumption.
  rewrite SFeqb_int_refl.
  destruct n; reflexivity.
Qed.

Lemma TimeClip_of_Z n :
  - 8640000000000000 <= n <= 8640000000000000 -> TimeClip (of_Z n) = of_Z n.
Proof.
  intros Hn.
  assert (Hb : - 2 ^ 53 < n < 2 ^ 53) by lia.
  unfold TimeClip. rewrite is_finite_of_Z by assumption. cbn [negb].
  rewrite FloatAxioms.ltb_spec, abs_spec, Prim2SF_of_Z by assumption.
  replace (SFltb _ _) with false; [apply truncate_of_Z; assumption|].
  symmetry.
  change (Prim2SF 8.64e15) with (S754_finite false 8640000000000000 0).
  assert (G : forall p, Zpos p <= 8640000000000000 ->
            SFltb (S754_finite false 8640000000000000 0)
                  (S754_finite false (int_mantissa p) (int_exponent p)) = false).
  { intros p Hp. destruct (int_mantissa_facts p) as (_ & He & Hm); [lia|].
    unfold SFltb. cbn [SFcompare].
    destruct (Z.compare_spec 0 (int_exponent p)) as [E|L|G]; [| lia | reflexivity].
    rewrite <- E in Hm. cbn in Hm.
    rewrite Pos.compare_cont_spec. cbn [Pos.switch_Eq].
    destruct (Pos.compare_spec 8640000000000000 (int_mantissa p)); try reflexivity.
    lia. }
  destruct n as [|p|p]; [reflexivity| |]; apply G; lia.
Qed.

Lemma ltb_zero_of_Z n : - 2 ^ 53 < n < 2 ^ 53 -> (0 <? of_Z n)%float = (0 <? n).
Proof.
  intros Hn. rewrite FloatAxioms.ltb_spec, Prim2SF_of_Z by assumption.
  destruct n; reflexivity.
Qed.

Lemma ltb_of_Z_zero n : - 2 ^ 53 < n < 2 ^ 53 -> (of_Z n <? 0)%float = (n <? 0).
Proof.
  intros Hn. rewrite FloatAxioms.ltb_spec, Prim2SF_of_Z by assumption.
  destruct n; reflexivity.
Qed.

(** Division by zero keeps the sign of the dividend: the quotient is
    +infinity, -infinity or NaN. *)
Lemma ltb_zero_div_zero x : (0 <? x / 0)%float = (0 <? x)%float.
Proof.
  rewrite !FloatAxioms.ltb_spec, div_spec.
  destruct (Prim2SF x) as [s|s| |s m e]; try destruct s; reflexivity.
Qed.

Lemma ltb_div_zero_zero x : (x / 0 <? 0)%float = (x <? 0)%float.
Proof.
  rewrite !FloatAxioms.ltb_spec, div_spec.
  destruct (Prim2SF x) as [s|s| |s m e]; try destruct s; reflexivity.
Qed.

(** A finite number minus itself is +0. *)
Lemma sub_diag x : is_finite x = true -> (x - x)%float = 0%float.
Proof.
  intros Hx. apply Prim2SF_inj. rewrite sub_spec.
  unfold is_finite, is_nan, is_infinity in Hx.
  rewrite !FloatAxioms.eqb_spec, abs_spec in Hx.
  destruct (Prim2SF x) as [s|s| |s m e]; try destruct s; try reflexivity;
    try discriminate Hx;
    unfold SF64sub; cbn [SFsub]; rewrite Z.sub_diag; reflexivity.
Qed.

(** Within half a metre is not beyond one metre. *)
Lemma leb_half_not_beyond_one x :
  (x <=? 0.5)%float = true -> (1 <? x)%float = false.
Proof.
  rewrite FloatAxioms.leb_spec, FloatAxioms.ltb_spec.
  change (Prim2SF 0.5) with (S754_finite false 4503599627370496 (-53)).
  change (Prim2SF 1) with (S754_finite false 4503599627370496 (-52)).
  destruct (Prim2SF x) as [s|s| |s m e]; try destruct s; try reflexivity;
    try discriminate.
  unfold SFleb, SFltb. cbn [SFcompare].
  destruct (Z.compare_spec e (-53)); destruct (Z.compare_spec (-52) e);
    try reflexivity; try discriminate; lia.
Qed.

(** The stuck test with the default threshold, on an elapsed time in
    milliseconds of at most 91 seconds. *)
Lemma stuck_table : forallb stuck_test_agrees elapsed_table = true.
Proof. vm_compute. reflexivity. Qed.

Lemma In_Z_range dt count start :
  start <= dt < start + Z.of_nat count -> In dt (Z_range start count).
Proof.
  revert start. induction count as [|count IH]; intros start H; [lia|].
  cbn [Z_range]. destruct (Z.eq_dec start dt) as [->|Hne].
  - left. reflexivity.
  - right. apply IH. lia.
Qed.

Lemma stuck_test dt :
  0 <= dt <= 91000 -> (90 <? of_Z dt / 1000)%float = (90000 <? dt).
Proof.
  intros Hdt.
  assert (Hin : In dt elapsed_table).
  { apply In_Z_range. lia. }
  pose proof (proj1 (forallb_forall _ _) stuck_table dt Hin) as H.
  unfold stuck_test_agrees in H. apply Bool.eqb_prop in H. exact H.
Qed.

End Binary64Facts.

(* ===================================================================== *)
(** * The state taxonomy *)
(* ===================================================================== *)

Section Taxonomy.
Import JS LawnmowerAPI.

Lemma state_id_cases (i : Z) :
  0 <= i <= 5 -> i = 0 \/ i = 1 \/ i = 2 \/ i = 3 \/ i = 4 \/ i = 5.
Proof. lia. Qed.

Lemma prop_outside {A} (o : list (Z * A)) (k : Z) :
  Forall (fun kv => fst kv <> k) o -> prop o k = None.
Proof.
  induction 1 as [|[k' v] o Hk _ IH]; [reflexivity|].
  cbn [prop]. cbn in Hk. destruct (Z.eqb_spec k k'); [congruence|exact IH].
Qed.

(** C1, as stated, fails: the six states do not have six style classes.
    StationCharging (0) and StationChargingCompleted (1) share
    ['status-charging']. *)
Lemma C1_style_class_shared :
  ~ (forall i j : Z, 0 <= i <= 5 -> 0 <= j <= 5 ->
       getStateClass i = getStateClass j -> i = j).
Proof.
  intros H. specialize (H 0 1 ltac:(lia) ltac:(lia) eq_refl). discriminate H.
Qed.

(** C1, amended: for every state id in 0-5 the display name and the style
    class are non-empty; the six display names are pairwise distinct; two
    different states share a style class only when they are the two
    charging states 0 and 1; for every integer outside 0-5 the name is
    ['Unknown'] and the class is the empty string (both lookups are total
    functions, so nothing is thrown). *)
Theorem C1_state_taxonomy (i j : Z) :
  (0 <= i <= 5 -> getStateName i <> "" /\ getStateClass i <> "") /\
  (0 <= i <= 5 -> 0 <= j <= 5 -> getStateName i = getStateName j -> i = j) /\
  (0 <= i <= 5 -> 0 <= j <= 5 -> getStateClass i = getStateClass j ->
     i = j \/ (i = 0 /\ j = 1) \/ (i = 1 /\ j = 0)) /\
  (~ 0 <= i <= 5 -> getStateName i = "Unknown" /\ getStateClass i = "").
Proof.
  split; [|split; [|split]].
  - intros Hi.
    destruct (state_id_cases i Hi) as [->|[->|[->|[->|[->| ->]]]]];
      split; discriminate.
  - intros Hi Hj.
    destruct (state_id_cases i Hi) as [->|[->|[->|[->|[->| ->]]]]];
      destruct (state_id_cases j Hj) as [->|[->|[->|[->|[->| ->]]]]];
      intros H; try reflexivity; discriminate H.
  - intros Hi Hj.
    destruct (state_id_cases i Hi) as [->|[->|[->|[->|[->| ->]]]]];
      destruct (state_id_cases j Hj) as [->|[->|[->|[->|[->| ->]]]]];
      intros H; try (left; reflexivity); try discriminate H;
      right; [left|right]; split; reflexivity.
  - intros Hi. split.
    + unfold getStateName. rewrite prop_outside; [reflexivity|].
      unfold stateNames. repeat constructor; cbn; lia.
    + unfold getStateClass. rewrite prop_outside; [reflexivity|].
      unfold stateClasses. repeat constructor; cbn; lia.
Qed.

(** The amended C1 at the states Mowing (2) and Paused (4) and at the
    unknown id 7. *)
Lemma C1_state_taxonomy_witness :
  (getStateName 2 <> "" /\ getStateClass 2 <> "") /\
  (getStateName 2 = getStateName 4 -> 2 = 4) /\
  (getStateName 7 = "Unknown" /\ getStateClass 7 = "").
Proof.
  split; [|split].
  - apply (proj1 (C1_state_taxonomy 2 4)). lia.
  - apply (proj1 (proj2 (C1_state_taxonomy 2 4))); lia.
  - apply (proj2 (proj2 (proj2 (C1_state_taxonomy 7 0)))). lia.
Defined.

End Taxonomy.

(* ===================================================================== *)
(** * The message log *)
(* ===================================================================== *)

Section MessageLog.
Import JS CockpitManager Observe Examples.

Lemma limit_is_firstn (ms : list Message) :
  (if 1000 <? Z.of_nat (length ms) then firstn 1000 ms else ms) = firstn 1000 ms.
Proof.
  destruct (Z.ltb_spec 1000 (Z.of_nat (length ms))) as [H|H]; [reflexivity|].
  symmetry. apply firstn_all2. lia.
Qed.

Lemma addMessage_messages E txt type ts s :
  messages (addMessage E txt type ts s)
  = firstn 1000 (new_message E txt type ts s :: messages s).
Proof.
  unfold addMessage.
  destruct (String.eqb _ "messages"); cbn [messages emit set_messages set_randoms];
    apply limit_is_firstn.
Qed.

Lemma addMessage_console E txt type ts s :
  console (addMessage E txt type ts s) = (type, txt) :: console s.
Proof.
  unfold addMessage, console.
  destruct (String.eqb _ "messages"); reflexivity.
Qed.

(** [addMessage] touches the log, the random counter and the page only. *)
Lemma addMessage_frame E txt type ts s :
  let s' := addMessage E txt type ts s in
  currentDevice s' = currentDevice s /\ lastStates s' = lastStates s /\
  stuckPositions s' = stuckPositions s /\ lastPosition s' = lastPosition s /\
  config s' = config s /\ app s' = app s.
Proof.
  unfold addMessage.
  destruct (String.eqb _ "messages"); repeat split; reflexivity.
Qed.

Lemma firstn_length_le {A} (n : nat) (l : list A) : (length (firstn n l) <= n)%nat.
Proof. rewrite length_firstn. lia. Qed.

Lemma addMessage_bounded E txt type ts s :
  (length (messages (addMessage E txt type ts s)) <= 1000)%nat.
Proof. rewrite addMessage_messages. apply firstn_length_le. Qed.

(** Every operation of the session keeps the log within 1000 entries. *)
Lemma step_bounded M E ev s :
  (length (messages s) <= 1000)%nat ->
  (length (messages (step M E ev s)) <= 1000)%nat.
Proof.
  intros Hs. destruct ev as [device|device i|data|data|data|c|tab]; cbn [step].
  - (* setDevice, the fields reset *)
    unfold setDevice_selected, clearCockpitData, updateDeviceHeader.
    destruct device as [dev|]; cbn; lia.
  - (* setDevice, the initial data loaded *)
    unfold setDevice_loaded, loadInitialData, updateLastUpdateTime.
    repeat match goal with
           | |- context [match ?x with _ => _ end] =>
               match type of x with
               | option _ => destruct x
               | bool => destruct x
               end; cbn [messages emit]
           end; apply addMessage_bounded.
  - (* handleBatteryUpdate *)
    unfold handleBatteryUpdate. destruct (rejected _ s); [exact Hs|].
    unfold updateLastUpdateTime, checkBatteryWarnings. cbn [messages emit].
    destruct (_ =? 0)%float; [apply addMessage_bounded|].
    destruct (_ <? _)%float; [apply addMessage_bounded|].
    unfold updateBatteryLevel.
    repeat match goal with
           | |- context [if ?b then _ else _] => destruct b
           end; exact Hs.
  - (* handleGpsUpdate *)
    unfold handleGpsUpdate. destruct (rejected _ s); [exact Hs|].
    unfold updateLastUpdateTime, checkStuckDetection, updateGpsPosition.
    cbn [messages emit currentDevice set_lastPosition].
    repeat match goal with
           | |- context [match ?x with _ => _ end] =>
               match type of x with
               | option _ => destruct x
               | bool => destruct x
               end;
               cbn [messages emit currentDevice set_lastPosition set_stuckPositions
                    lastStates stuckPositions config app]
           end;
      try exact Hs; try apply addMessage_bounded.
  - (* handleStateUpdate *)
    unfold handleStateUpdate. destruct (currentDevice s) as [dev|]; [|exact Hs].
    destruct (negb _); [exact Hs|].
    unfold updateLastUpdateTime, generateStateChangeMessage, updateDeviceState.
    cbn [messages emit set_lastStates].
    repeat match goal with
           | |- context [match ?x with _ => _ end] =>
               match type of x with
               | option _ => destruct x
               | bool => destruct x
               end; cbn [messages emit]
           end;
      try exact Hs; apply addMessage_bounded.
  - exact Hs.
  - exact Hs.
Qed.

Lemma reachable_bounded M s :
  reachable M s -> (length (messages s) <= 1000)%nat.
Proof.
  induction 1 as [a|s E ev _ IH].
  - cbn. lia.
  - apply step_bounded, IH.
Qed.

(** C8: after every insertion via [addMessage] the log holds at most 1000
    entries, with the inserted message first and the earlier ones behind
    it in their order; when the log already held 1000 entries the oldest
    (last) one is evicted and the 1000 most recent are kept; hence the log
    of a reachable session never exceeds 1000 entries. *)
Theorem C8_message_log_bounded M E txt type ts s :
  let m := new_message E txt type ts s in
  let s' := addMessage E txt type ts s in
  (length (messages s') <= 1000)%nat /\
  messages s' = firstn 1000 (m :: messages s) /\
  head (messages s') = Some m /\
  (length (messages s) = 1000%nat -> messages s' = m :: removelast (messages s)) /\
  (forall r, reachable M r -> (length (messages r) <= 1000)%nat).
Proof.
  cbn zeta. rewrite addMessage_messages.
  split; [apply firstn_length_le|].
  split; [reflexivity|].
  split; [reflexivity|].
  split.
  - intros H. change (firstn 1000 (?x :: ?l)) with (x :: firstn 999 l).
    f_equal. rewrite removelast_firstn_len, H. reflexivity.
  - apply reachable_bounded.
Qed.

(** C8 on a log that is full: the insertion keeps 1000 entries. *)
Lemma C8_message_log_bounded_witness :
  length (messages full_log) = 1000%nat /\
  messages (addMessage (env_at 0) [Str "Device resumed operation"] "info" None full_log)
  = new_message (env_at 0) [Str "Device resumed operation"] "info" None full_log
    :: removelast (messages full_log).
Proof.
  split; [reflexivity|].
  apply (C8_message_log_bounded example_math (env_at 0)
           [Str "Device resumed operation"] "info" None full_log).
  reflexivity.
Defined.

End MessageLog.

(* ===================================================================== *)
(** * The ingestion handlers *)
(* ===================================================================== *)

Section Ingestion.
Import JS LawnmowerAPI CockpitManager Observe Examples.

Lemma rejected_not_bound k s : not_bound k s -> rejected k s = true.
Proof.
  unfold not_bound, rejected. intros H.
  destruct (currentDevice s) as [dev|]; [|reflexivity].
  destruct (Z.eqb_spec k (id dev)) as [Heq|]; [|reflexivity].
  exfalso. exact (H dev eq_refl Heq).
Qed.

Lemma rejected_bound k s dev :
  currentDevice s = Some dev -> k = id dev -> rejected k s = false.
Proof.
  unfold rejected. intros -> ->. rewrite Z.eqb_refl. reflexivity.
Qed.

(** C9: each of the three ingestion handlers returns the session as it
    received it when no device is bound or the event carries another
    lawnmower id than the bound device's: the messages, [lastStates],
    [stuckPositions], [lastPosition] and every other field are unchanged,
    and nothing is written to the console, the page or the map. *)
Theorem C9_foreign_events_are_ignored M E
    (battery : BatteryData) (gps : GpsData) (state : StateData) s :
  (not_bound (battery_LawnmowerId battery) s ->
     handleBatteryUpdate E battery s = s) /\
  (not_bound (gps_LawnmowerId gps) s ->
     handleGpsUpdate M E gps s = s) /\
  (not_bound (state_LawnmowerId state) s ->
     handleStateUpdate E state s = s).
Proof.
  split; [|split]; intros H.
  - unfold handleBatteryUpdate. rewrite rejected_not_bound by exact H. reflexivity.
  - unfold handleGpsUpdate. rewrite rejected_not_bound by exact H. reflexivity.
  - unfold handleStateUpdate. apply rejected_not_bound in H. unfold rejected in H.
    destruct (currentDevice s) as [dev|]; [|reflexivity].
    rewrite H. reflexivity.
Qed.

(** C9 on the session bound to mower 1, for events of mower 2. *)
Lemma C9_foreign_events_are_ignored_witness :
  not_bound 2 selected /\
  handleBatteryUpdate (env_at 5000)
    {| battery_LawnmowerId := 2; BatteryLevel := 0 |} selected = selected /\
  handleGpsUpdate example_math (env_at 5000)
    {| gps_LawnmowerId := 2; Latitude := 47.5; Longitude := 8.25 |} selected = selected /\
  handleStateUpdate (env_at 5000)
    {| state_LawnmowerId := 2; State := 5 |} selected = selected.
Proof.
  assert (H : not_bound 2 selected).
  { intros dev Hdev. injection Hdev as <-. discriminate. }
  pose proof (C9_foreign_events_are_ignored example_math (env_at 5000)
                {| battery_LawnmowerId := 2; BatteryLevel := 0 |}
                {| gps_LawnmowerId := 2; Latitude := 47.5; Longitude := 8.25 |}
                {| state_LawnmowerId := 2; State := 5 |} selected) as (Hb & Hg & Hs).
  split; [exact H|].
  split; [exact (Hb H)|].
  split; [exact (Hg H)|exact (Hs H)].
Defined.

Lemma updateLastUpdateTime_messages s :
  messages (updateLastUpdateTime s) = messages s.
Proof. reflexivity. Qed.

Lemma updateLastUpdateTime_console s :
  console (updateLastUpdateTime s) = console s.
Proof. reflexivity. Qed.

(* ---- battery ---- *)

Lemma updateBatteryLevel_frame level ts s :
  let s' := updateBatteryLevel level ts s in
  currentDevice s' = currentDevice s /\ messages s' = messages s /\
  lastStates s' = lastStates s /\ stuckPositions s' = stuckPositions s /\
  lastPosition s' = lastPosition s /\ config s' = config s /\ app s' = app s /\
  randoms s' = randoms s /\ console s' = console s.
Proof.
  unfold updateBatteryLevel, console.
  destruct (level <=? 0)%float; [|destruct (level <? _)%float];
    cbn [app emit]; destruct (_ && _); repeat split; reflexivity.
Qed.

(** C7: for every battery update that the session processes, a level equal
    to 0 appends exactly one message, of type error; any other level below
    [batteryLowThreshold] appends exactly one message, of type warning; any
    other level appends none. So no update appends both a warning and an
    error. *)
Theorem C7_battery_warning_or_error E data s dev :
  currentDevice s = Some dev ->
  battery_LawnmowerId data = id dev ->
  let level := BatteryLevel data in
  let s' := handleBatteryUpdate E data s in
  let empty := [Str "Battery empty - device shutting down"] in
  let low := [Str "Battery low: "; Num (Math_round level); Str "%"] in
  ((level =? 0)%float = true ->
     messages s' = firstn 1000 (new_message E empty "error" None s :: messages s) /\
     console s' = ("error", empty) :: console s) /\
  ((level =? 0)%float = false ->
   (level <? batteryLowThreshold (config s))%float = true ->
     messages s' = firstn 1000 (new_message E low "warning" None s :: messages s) /\
     console s' = ("warning", low) :: console s) /\
  ((level =? 0)%float = false ->
   (level <? batteryLowThreshold (config s))%float = false ->
     messages s' = messages s /\ console s' = console s).
Proof.
  intros Hdev Hid. cbn zeta.
  unfold handleBatteryUpdate. rewrite (rejected_bound _ _ _ Hdev Hid).
  destruct (updateBatteryLevel_frame (BatteryLevel data) (Date_current E) s)
    as (_ & Hm & _ & _ & _ & Hc & _ & Hr & Hl).
  rewrite updateLastUpdateTime_messages, updateLastUpdateTime_console.
  unfold checkBatteryWarnings. rewrite Hc.
  split; [|split].
  - intros ->. rewrite addMessage_messages, addMessage_console, Hm, Hl.
    unfold new_message. rewrite Hr. split; reflexivity.
  - intros -> ->. rewrite addMessage_messages, addMessage_console, Hm, Hl.
    unfold new_message. rewrite Hr. split; reflexivity.
  - intros -> ->. rewrite Hm, Hl. split; reflexivity.
Qed.

(** C7 at the levels 0 and 5 with the default threshold 10. *)
Lemma C7_battery_warning_or_error_witness :
  console (handleBatteryUpdate (env_at 5000)
             {| battery_LawnmowerId := 1; BatteryLevel := 0 |} selected)
  = ("error", [Str "Battery empty - device shutting down"]) :: console selected /\
  console (handleBatteryUpdate (env_at 5000)
             {| battery_LawnmowerId := 1; BatteryLevel := 5 |} selected)
  = ("warning", [Str "Battery low: "; Num 5; Str "%"]) :: console selected.
Proof.
  split.
  - apply (C7_battery_warning_or_error (env_at 5000)
             {| battery_LawnmowerId := 1; BatteryLevel := 0 |} selected mower);
      reflexivity.
  - apply (C7_battery_warning_or_error (env_at 5000)
             {| battery_LawnmowerId := 1; BatteryLevel := 5 |} selected mower);
      reflexivity.
Defined.

(* ---- state ---- *)

Lemma updateDeviceState_frame E stateId ts s :
  let s' := updateDeviceState E stateId ts s in
  currentDevice s' = currentDevice s /\ lastStates s' = lastStates s /\
  stuckPositions s' = stuckPositions s /\ lastPosition s' = lastPosition s /\
  config s' = config s /\ app s' = app s.
Proof.
  unfold updateDeviceState. destruct (stateId =? 5).
  - destruct (addMessage_frame E [Str "Device entered error state"] "error" None
                (emit (DomClass "deviceStatus" (getStateClass stateId))
                   (emit (DomText "deviceStatus" [Str (getStateName stateId)]) s)))
      as (H1 & H2 & H3 & H4 & H5 & H6).
    cbn zeta. rewrite H1, H2, H3, H4, H5, H6. repeat split; reflexivity.
  - repeat split; reflexivity.
Qed.

Lemma updateDeviceState_error E ts s :
  let s' := updateDeviceState E 5 ts s in
  let entered := [Str "Device entered error state"] in
  messages s' = firstn 1000 (new_message E entered "error" None s :: messages s) /\
  console s' = ("error", entered) :: console s.
Proof.
  unfold updateDeviceState. cbn [Z.eqb Pos.eqb]. cbn zeta.
  rewrite addMessage_messages, addMessage_console. split; reflexivity.
Qed.

Lemma generateStateChangeMessage_to_error E previous s :
  let s' := generateStateChangeMessage E previous 5 s in
  let changed := [Str "State changed: "; Str (getStateName previous);
                  Str " → "; Str (getStateName 5)] in
  messages s' = firstn 1000 (new_message E changed "info" None s :: messages s) /\
  console s' = ("info", changed) :: console s.
Proof.
  unfold generateStateChangeMessage. cbn [Z.eqb Pos.eqb]. rewrite andb_false_r.
  cbn zeta. rewrite addMessage_messages, addMessage_console. split; reflexivity.
Qed.

(** C10: every state update with state id Error (5) that the session
    processes appends the error message ['Device entered error state'],
    whatever the previous state was: on the first observation and when the
    previous state was already Error it is the only message appended; after
    any other previous state the info message of the transition is
    appended on top of it. *)
Theorem C10_error_state_is_always_reported E data s dev :
  currentDevice s = Some dev ->
  state_LawnmowerId data = id dev ->
  State data = 5 ->
  let s' := handleStateUpdate E data s in
  let entered := [Str "Device entered error state"] in
  let err := new_message E entered "error" None s in
  In err (messages s') /\
  In ("error", entered) (console s') /\
  (lastStates s !! id dev = None \/ lastStates s !! id dev = Some 5 ->
     messages s' = firstn 1000 (err :: messages s) /\
     console s' = ("error", entered) :: console s) /\
  (forall previous, lastStates s !! id dev = Some previous -> previous <> 5 ->
     exists changed,
       msg_type changed = "info" /\
       messages s' = firstn 1000 (changed :: firstn 1000 (err :: messages s)) /\
       console s' = ("info", msg_text changed) :: ("error", entered) :: console s).
Proof.
  intros Hdev Hid Hst. cbn zeta.
  unfold handleStateUpdate. rewrite Hdev, Hid, Z.eqb_refl, Hst. cbn [negb].
  destruct (updateDeviceState_error E (Date_current E) s) as (Hm & Hc).
  set (s1 := updateDeviceState E 5 (Date_current E) s) in *.
  rewrite updateLastUpdateTime_messages, updateLastUpdateTime_console.
  change (messages (set_lastStates ?m ?x)) with (messages x).
  change (console (set_lastStates ?m ?x)) with (console x).
  destruct (lastStates s !! id dev) as [previous|] eqn:Hprev.
  - destruct (Z.eqb_spec previous 5) as [->|Hne]; cbn [negb].
    + rewrite Hm, Hc. change (firstn 1000 (?x :: ?l)) with (x :: firstn 999 l).
      split; [left; reflexivity|]. split; [left; reflexivity|].
      split; [intros _; split; reflexivity|].
      intros previous [= <-] Hne. congruence.
    + destruct (generateStateChangeMessage_to_error E previous s1) as (Hm2 & Hc2).
      rewrite Hm2, Hc2, Hm, Hc.
      change (firstn 1000 (?x :: ?l)) with (x :: firstn 999 l).
      change (firstn 999 (?x :: ?l)) with (x :: firstn 998 l).
      split; [right; left; reflexivity|]. split; [right; left; reflexivity|].
      split; [intros [H|H]; congruence|].
      intros previous' [= <-] _.
      eexists. split; [|split; reflexivity]. reflexivity.
  - rewrite Hm, Hc. change (firstn 1000 (?x :: ?l)) with (x :: firstn 999 l).
    split; [left; reflexivity|]. split; [left; reflexivity|].
    split; [intros _; split; reflexivity|].
    intros previous H. discriminate H.
Qed.

(** C10 on the first observation of a device and on a repeated Error
    report. *)
Lemma C10_error_state_is_always_reported_witness :
  In ("error", [Str "Device entered error state"])
     (console (handleStateUpdate (env_at 5000)
                 {| state_LawnmowerId := 1; State := 5 |} selected)) /\
  console (handleStateUpdate (env_at 9000)
             {| state_LawnmowerId := 1; State := 5 |} in_error)
  = ("error", [Str "Device entered error state"]) :: console in_error.
Proof.
  split.
  - apply (C10_error_state_is_always_reported (env_at 5000)
             {| state_LawnmowerId := 1; State := 5 |} selected mower);
      reflexivity.
  - apply (C10_error_state_is_always_reported (env_at 9000)
             {| state_LawnmowerId := 1; State := 5 |} in_error mower);
      try reflexivity.
    right. reflexivity.
Defined.

End Ingestion.

(* ===================================================================== *)
(** * The stuck-tracking anchor *)
(* ===================================================================== *)

Section Anchor.
Import JS LawnmowerAPI CockpitManager Observe Examples.

Lemma same_tracking_refl s : same_tracking s s.
Proof. repeat split; reflexivity. Qed.

Lemma same_tracking_trans s1 s2 s3 :
  same_tracking s1 s2 -> same_tracking s2 s3 -> same_tracking s1 s3.
Proof.
  intros (a1 & a2 & a3 & a4 & a5) (b1 & b2 & b3 & b4 & b5).
  repeat split; congruence.
Qed.

Lemma same_tracking_emit e s : same_tracking s (emit e s).
Proof. repeat split; reflexivity. Qed.

Lemma same_tracking_addMessage E txt type ts s :
  same_tracking s (addMessage E txt type ts s).
Proof.
  destruct (addMessage_frame E txt type ts s) as (H1 & H2 & H3 & _ & H5 & H6).
  repeat split; assumption.
Qed.

Lemma same_tracking_updateBatteryLevel level ts s :
  same_tracking s (updateBatteryLevel level ts s).
Proof.
  destruct (updateBatteryLevel_frame level ts s)
    as (H1 & _ & H2 & H3 & _ & H5 & H6 & _).
  repeat split; assumption.
Qed.

Lemma same_tracking_updateDeviceState E stateId ts s :
  same_tracking s (updateDeviceState E stateId ts s).
Proof.
  destruct (updateDeviceState_frame E stateId ts s) as (H1 & H2 & H3 & _ & H5 & H6).
  repeat split; assumption.
Qed.

Lemma same_tracking_updateGpsPosition lat lon ts s :
  same_tracking s (updateGpsPosition lat lon ts s).
Proof.
  unfold updateGpsPosition. destruct (_ && _); repeat split; reflexivity.
Qed.

Lemma same_tracking_checkBatteryWarnings E level s :
  same_tracking s (checkBatteryWarnings E level s).
Proof.
  unfold checkBatteryWarnings.
  destruct (level =? 0)%float; [apply same_tracking_addMessage|].
  destruct (level <? _)%float; [apply same_tracking_addMessage|].
  apply same_tracking_refl.
Qed.

Lemma same_tracking_generateStateChangeMessage E previous new s :
  same_tracking s (generateStateChangeMessage E previous new s).
Proof.
  unfold generateStateChangeMessage.
  destruct (_ && _).
  - eapply same_tracking_trans; apply same_tracking_addMessage.
  - apply same_tracking_addMessage.
Qed.

Lemma same_tracking_handleBatteryUpdate E data s :
  same_tracking s (handleBatteryUpdate E data s).
Proof.
  unfold handleBatteryUpdate. destruct (rejected _ s); [apply same_tracking_refl|].
  eapply same_tracking_trans; [apply same_tracking_updateBatteryLevel|].
  eapply same_tracking_trans; [apply same_tracking_checkBatteryWarnings|].
  apply same_tracking_emit.
Qed.

(** A state update records the state and leaves the anchors alone. *)
Lemma handleStateUpdate_tracking E data s :
  let s' := handleStateUpdate E data s in
  currentDevice s' = currentDevice s /\ stuckPositions s' = stuckPositions s /\
  (forall k, is_Some (lastStates s !! k) -> is_Some (lastStates s' !! k)).
Proof.
  unfold handleStateUpdate.
  destruct (currentDevice s) as [dev|] eqn:Hdev; [|repeat split; auto].
  destruct (negb _); [repeat split; auto|].
  set (s1 := updateDeviceState E (State data) (Date_current E) s).
  pose proof (same_tracking_updateDeviceState E (State data) (Date_current E) s)
    as T1. fold s1 in T1.
  set (s2 := match lastStates s !! id dev with
             | Some previous =>
                 if negb (previous =? State data)
                 then generateStateChangeMessage E previous (State data) s1
                 else s1
             | None => s1
             end).
  assert (T2 : same_tracking s s2).
  { unfold s2. destruct (lastStates s !! id dev) as [previous|]; [|exact T1].
    destruct (negb _); [|exact T1].
    eapply same_tracking_trans; [exact T1|].
    apply same_tracking_generateStateChangeMessage. }
  destruct T2 as (H1 & H2 & H3 & _).
  cbn zeta. unfold updateLastUpdateTime.
  cbn [currentDevice stuckPositions lastStates emit set_lastStates].
  rewrite H1, H2, H3. repeat split; [assumption|].
  intros k Hk. destruct (decide (k = id dev)) as [->|Hne].
  - rewrite lookup_insert_eq. eauto.
  - rewrite lookup_insert_ne by congruence. exact Hk.
Qed.

(** After a GPS update of the bound device the anchor is there exactly
    when the last known state is Mowing (2) or ReturningToStation (3). *)
Lemma handleGpsUpdate_anchor M E data s dev :
  currentDevice s = Some dev ->
  gps_LawnmowerId data = id dev ->
  let s' := handleGpsUpdate M E data s in
  currentDevice s' = Some dev /\ lastStates s' = lastStates s /\
  (is_Some (stuckPositions s' !! id dev) <->
   lastStates s !! id dev = Some 2 \/ lastStates s !! id dev = Some 3) /\
  (forall k, k <> id dev -> stuckPositions s' !! k = stuckPositions s !! k).
Proof.
  intros Hdev Hid. unfold handleGpsUpdate.
  rewrite (rejected_bound _ _ _ Hdev Hid).
  set (s1 := updateGpsPosition (Latitude data) (Longitude data) (Date_current E) s).
  destruct (same_tracking_updateGpsPosition (Latitude data) (Longitude data)
              (Date_current E) s) as (H1 & H2 & H3 & H4 & H5). fold s1 in H1, H2, H3, H4, H5.
  cbn zeta. unfold updateLastUpdateTime, checkStuckDetection.
  rewrite H1, Hdev, H2.
  destruct (bool_decide _) eqn:Hstate.
  - (* not eligible: the anchor is dropped *)
    apply bool_decide_eq_true in Hstate as (Hn2 & Hn3).
    cbn [currentDevice stuckPositions lastStates emit set_stuckPositions].
    rewrite ?H1, ?H2, ?H3, ?Hdev. split; [reflexivity|]. split; [reflexivity|]. split.
    + rewrite lookup_delete_eq. split.
      * intros [? H]. discriminate H.
      * intros [H|H]; contradiction.
    + intros k Hk. rewrite lookup_delete_ne by congruence. reflexivity.
  - (* eligible: the anchor is kept or set *)
    apply bool_decide_eq_false in Hstate.
    assert (Heligible : lastStates s !! id dev = Some 2 \/ lastStates s !! id dev = Some 3).
    { destruct (decide (lastStates s !! id dev = Some 2)) as [|N2]; [left; assumption|].
      destruct (decide (lastStates s !! id dev = Some 3)) as [|N3]; [right; assumption|].
      exfalso. apply Hstate. split; assumption. }
    rewrite H3.
    destruct (stuckPositions s !! id dev) as [stuckData|] eqn:Hanchor.
    + destruct (1 <? _)%float.
      * cbn [currentDevice stuckPositions lastStates emit set_stuckPositions].
        rewrite ?H1, ?H2, ?H3, ?Hdev. repeat split; auto.
        -- rewrite lookup_insert_eq. eauto.
        -- intros k Hk. rewrite lookup_insert_ne by congruence. reflexivity.
      * destruct (_ <? _)%float.
        -- set (s2 := addMessage E _ "error" None s1).
           destruct (same_tracking_addMessage E
                       [Str "Device appears to be stuck (";
                        Num (Math_round ((now E - stuck_timestamp stuckData) / 1000));
                        Str "s without movement)"] "error" None s1)
             as (G1 & G2 & G3 & G4 & G5). fold s2 in G1, G2, G3, G4, G5.
           destruct (mapManager (app s2));
             cbn [currentDevice stuckPositions lastStates emit set_stuckPositions];
             rewrite ?G1, ?G2, ?G3, ?H1, ?H2, ?H3, ?Hdev; repeat split; auto;
             try (rewrite lookup_insert_eq; eauto);
             intros k Hk; rewrite lookup_insert_ne by congruence; reflexivity.
        -- cbn [currentDevice stuckPositions lastStates emit].
           rewrite ?H1, ?H2, ?H3, ?Hdev, ?Hanchor. repeat split; eauto.
    + cbn [currentDevice stuckPositions lastStates emit set_stuckPositions].
      rewrite ?H1, ?H2, ?H3, ?Hdev. repeat split; auto.
      * rewrite lookup_insert_eq. eauto.
      * intros k Hk. rewrite lookup_insert_ne by congruence. reflexivity.
Qed.

Lemma same_tracking_updateDeviceHeader s :
  same_tracking s (updateDeviceHeader s).
Proof.
  unfold updateDeviceHeader. destruct (currentDevice s); [|apply same_tracking_refl].
  eapply same_tracking_trans; apply same_tracking_emit.
Qed.

Lemma same_tracking_loadInitialData E i s :
  same_tracking s (loadInitialData E i s).
Proof.
  unfold loadInitialData.
  set (s1 := match init_battery i with Some (level, ts) => _ | None => s end).
  assert (T1 : same_tracking s s1).
  { unfold s1. destruct (init_battery i) as [[level ts]|];
      [apply same_tracking_updateBatteryLevel|apply same_tracking_refl]. }
  set (s2 := match init_state i with Some (st, ts) => _ | None => s1 end).
  assert (T2 : same_tracking s1 s2).
  { unfold s2. destruct (init_state i) as [[st ts]|];
      [apply same_tracking_updateDeviceState|apply same_tracking_refl]. }
  set (s3 := match init_gps i with Some (lat, lon, ts) => _ | None => s2 end).
  assert (T3 : same_tracking s2 s3).
  { unfold s3. destruct (init_gps i) as [[[lat lon] ts]|];
      [apply same_tracking_updateGpsPosition|apply same_tracking_refl]. }
  cbn zeta.
  eapply same_tracking_trans; [exact T1|].
  eapply same_tracking_trans; [exact T2|].
  eapply same_tracking_trans; [exact T3|].
  destruct (currentDevice s3).
  - eapply same_tracking_trans; [apply same_tracking_addMessage|].
    apply same_tracking_emit.
  - apply same_tracking_addMessage.
Qed.

Lemma same_tracking_setDevice_loaded E device i s :
  same_tracking s (setDevice_loaded E device i s).
Proof.
  unfold setDevice_loaded. cbn zeta.
  pose proof (same_tracking_loadInitialData E i s) as T.
  destruct (mapManager _); [|exact T].
  eapply same_tracking_trans; [exact T|apply same_tracking_emit].
Qed.

Lemma setDevice_selected_no_anchor device s :
  stuckPositions (setDevice_selected device s) = ∅.
Proof.
  unfold setDevice_selected, clearCockpitData, updateDeviceHeader.
  destruct device as [dev|]; reflexivity.
Qed.

Lemma step_anchors M E ev s :
  anchors_of_bound_device s -> anchors_of_bound_device (step M E ev s).
Proof.
  intros Inv. destruct ev as [device|device i|data|data|data|c|tab]; cbn [step].
  - intros k a. rewrite setDevice_selected_no_anchor, lookup_empty. discriminate.
  - destruct (same_tracking_setDevice_loaded E device i s) as (H1 & H2 & H3 & _).
    intros k a. rewrite H1, H2, H3. apply Inv.
  - destruct (same_tracking_handleBatteryUpdate E data s) as (H1 & H2 & H3 & _).
    intros k a. rewrite H1, H2, H3. apply Inv.
  - unfold anchors_of_bound_device.
    destruct (currentDevice s) as [dev|] eqn:Hdev.
    + destruct (Z.eq_dec (gps_LawnmowerId data) (id dev)) as [Hid|Hid].
      * destruct (handleGpsUpdate_anchor M E data s dev Hdev Hid)
          as (H1 & H2 & H3 & H4).
        intros k a Hk. rewrite H1, H2.
        destruct (decide (k = id dev)) as [->|Hne].
        -- split; [eauto|].
           destruct (proj1 H3 (ex_intro _ a Hk)) as [H|H]; rewrite H; eauto.
        -- rewrite H4 in Hk by assumption. rewrite <- Hdev. exact (Inv k a Hk).
      * unfold handleGpsUpdate, rejected. rewrite Hdev.
        destruct (Z.eqb_spec (gps_LawnmowerId data) (id dev)); [contradiction|].
        cbn [negb]. exact Inv.
    + unfold handleGpsUpdate, rejected. rewrite Hdev. exact Inv.
  - destruct (handleStateUpdate_tracking E data s) as (H1 & H2 & H3).
    intros k a. rewrite H1, H2. intros Hk.
    destruct (Inv k a Hk) as (Hb & Hs). split; [exact Hb|]. apply H3, Hs.
  - exact Inv.
  - exact Inv.
Qed.

Lemma reachable_anchors M s : reachable M s -> anchors_of_bound_device s.
Proof.
  induction 1 as [a|s E ev _ IH].
  - intros k a'. cbn. rewrite lookup_empty. discriminate.
  - apply step_anchors, IH.
Qed.

Lemma reachable_run M evs s : reachable M s -> reachable M (run M evs s).
Proof.
  revert s. induction evs as [|[E ev] evs IH]; intros s H; [exact H|].
  cbn [run]. apply IH, reachable_step, H.
Qed.

(** C3, as stated, fails: Mowing is reported, a position is recorded as the
    anchor, then Paused (4) is reported. The state update does not touch
    [stuckPositions], so the session now has the anchor while the last
    known state is Paused. *)
Lemma C3_anchor_outlives_state_update :
  ~ (forall s dev,
       reachable example_math s -> currentDevice s = Some dev ->
       is_Some (stuckPositions s !! id dev) ->
       lastStates s !! id dev = Some 2 \/ lastStates s !! id dev = Some 3).
Proof.
  intros H.
  assert (R : reachable example_math paused_after_mowing)
    by apply reachable_run, reachable_new.
  assert (A : is_Some (stuckPositions paused_after_mowing !! id mower))
    by (eexists; vm_compute; reflexivity).
  destruct (H paused_after_mowing mower R eq_refl A) as [G|G];
    vm_compute in G; discriminate G.
Qed.

(** C3, amended: the anchor follows the GPS updates, not the state
    updates. Immediately after a GPS update of the bound device an anchor
    exists for it exactly when the last known state is Mowing (2) or
    ReturningToStation (3); a state update never changes [stuckPositions],
    so an anchor set while mowing is still there right after a state
    update to any other state; and in every reachable session an anchor
    exists only for the bound device and only once a state of it is
    known. *)
Theorem C3_anchor_follows_gps_updates M :
  (forall s, reachable M s -> anchors_of_bound_device s) /\
  (forall E data s dev,
     currentDevice s = Some dev -> gps_LawnmowerId data = id dev ->
     let s' := handleGpsUpdate M E data s in
     is_Some (stuckPositions s' !! id dev) <->
     lastStates s' !! id dev = Some 2 \/ lastStates s' !! id dev = Some 3) /\
  (forall E data s,
     stuckPositions (handleStateUpdate E data s) = stuckPositions s).
Proof.
  split; [apply reachable_anchors|]. split.
  - intros E data s dev Hdev Hid.
    destruct (handleGpsUpdate_anchor M E data s dev Hdev Hid) as (_ & H2 & H3 & _).
    cbn zeta. rewrite H2. exact H3.
  - intros E data s. apply handleStateUpdate_tracking.
Qed.

(** The amended C3 on the session that was paused after mowing: the next
    GPS update drops the anchor. *)
Lemma C3_anchor_follows_gps_updates_witness :
  currentDevice paused_after_mowing = Some mower /\
  ~ is_Some (stuckPositions
               (handleGpsUpdate example_math (env_at 4000)
                  {| gps_LawnmowerId := 1; Latitude := 47.5; Longitude := 8.25 |}
                  paused_after_mowing) !! 1).
Proof.
  split; [reflexivity|].
  intros A.
  apply (proj1 (proj2 (C3_anchor_follows_gps_updates example_math))
           (env_at 4000)
           {| gps_LawnmowerId := 1; Latitude := 47.5; Longitude := 8.25 |}
           paused_after_mowing mower eq_refl eq_refl) in A.
  destruct A as [G|G]; vm_compute in G; discriminate G.
Defined.

(** What the surviving anchor does: when no position arrives during the
    pause, the first position after the mower resumes is compared with the
    anchor of 2 s, and a stuck alert of 199 seconds is raised at once. *)
Lemma anchor_kept_over_pause_alerts_on_resume :
  stuck_alerts paused_after_mowing = 0%nat /\
  console resumed_after_pause
  = ("error", stuck_text 199000)
    :: ("info", [Str "Device resumed operation"])
    :: ("info", [Str "State changed: "; Str "Paused"; Str " → "; Str "Mowing"])
    :: console paused_after_mowing.
Proof. split; vm_compute; reflexivity. Qed.

End Anchor.

(* ===================================================================== *)
(** * Stuck detection *)
(* ===================================================================== *)

Section Stuck.
Import JS LawnmowerAPI CockpitManager Observe Examples.

Lemma stuck_alerts_console s s' :
  console s' = console s -> stuck_alerts s' = stuck_alerts s.
Proof. unfold stuck_alerts. intros ->. reflexivity. Qed.

Lemma stuck_alerts_alert s s' elapsed :
  console s' = ("error", stuck_text elapsed) :: console s ->
  stuck_alerts s' = S (stuck_alerts s).
Proof. unfold stuck_alerts. intros ->. reflexivity. Qed.

(** One GPS update of a mowing device at [n] milliseconds. *)
Lemma gps_step M rnd data s dev n :
  mowing dev s -> gps_LawnmowerId data = id dev -> 0 <= n < 2 ^ 53 ->
  let s' := handleGpsUpdate M (at_time n rnd) data s in
  mowing dev s' /\
  match stuckPositions s !! id dev with
  | None =>
      stuckPositions s' !! id dev = Some (anchor_of data n) /\
      console s' = console s
  | Some a =>
      forall t, stuck_timestamp a = of_Z t -> 0 <= t <= n -> n - t <= 91000 ->
        (1 <? calculateDistance M (stuck_latitude a) (stuck_longitude a)
                (Latitude data) (Longitude data))%float = false ->
        if 90000 <? n - t
        then stuckPositions s' !! id dev = Some (anchor_of data n) /\
             console s' = ("error", stuck_text (n - t)) :: console s
        else stuckPositions s' !! id dev = Some a /\ console s' = console s
  end.
Proof.
  intros (Hdev & Hstate & Hthr) Hid Hn. unfold handleGpsUpdate.
  rewrite (rejected_bound _ _ _ Hdev Hid).
  set (s1 := updateGpsPosition (Latitude data) (Longitude data)
               (Date_current (at_time n rnd)) s).
  assert (Hc1 : console s1 = console s).
  { unfold s1, updateGpsPosition, console. destruct (_ && _); reflexivity. }
  destruct (same_tracking_updateGpsPosition (Latitude data) (Longitude data)
              (Date_current (at_time n rnd)) s) as (H1 & H2 & H3 & H4 & H5).
  fold s1 in H1, H2, H3, H4, H5.
  cbn zeta. rewrite updateLastUpdateTime_console.
  unfold updateLastUpdateTime, mowing.
  cbn [currentDevice lastStates config stuckPositions emit].
  unfold checkStuckDetection. rewrite H1, Hdev, H2, Hstate, H3, H4, Hthr.
  rewrite bool_decide_eq_false_2 by (intros [N _]; apply N; reflexivity).
  destruct (stuckPositions s !! id dev) as [a|] eqn:Hanchor.
  - assert (G : forall t, stuck_timestamp a = of_Z t -> 0 <= t <= n -> n - t <= 91000 ->
              (90 <? (now (at_time n rnd) - stuck_timestamp a) / 1000)%float
              = (90000 <? n - t)).
    { intros t Ht Htn Hspan. cbn [now at_time]. rewrite Ht.
      rewrite of_Z_sub by lia. apply stuck_test. lia. }
    destruct (1 <? calculateDistance M (stuck_latitude a) (stuck_longitude a)
                     (Latitude data) (Longitude data))%float eqn:Hfar.
    + cbn [currentDevice lastStates config stuckPositions set_stuckPositions].
      rewrite H1, H2, H4, Hdev, Hstate, Hthr. split; [repeat split|].
      intros t _ _ _ Hclose. discriminate Hclose.
    + destruct (90 <? (now (at_time n rnd) - stuck_timestamp a) / 1000)%float eqn:Hlate.
      * set (txt := [Str "Device appears to be stuck ("; _; _]).
        set (s2 := addMessage (at_time n rnd) txt "error" None s1).
        destruct (same_tracking_addMessage (at_time n rnd) txt "error" None s1)
          as (G1 & G2 & G3 & G4 & G5). fold s2 in G1, G2, G3, G4, G5.
        assert (Hc2 : console s2 = ("error", txt) :: console s).
        { unfold s2. rewrite addMessage_console, Hc1. reflexivity. }
        assert (Hc3 : console (if mapManager (app s2)
                               then emit (MapMarkStuck (Latitude data) (Longitude data)) s2
                               else s2) = ("error", txt) :: console s).
        { destruct (mapManager (app s2)); exact Hc2. }
        assert (Hk : same_tracking s1
                       (if mapManager (app s2)
                        then emit (MapMarkStuck (Latitude data) (Longitude data)) s2
                        else s2)).
        { destruct (mapManager (app s2)); repeat split; assumption. }
        destruct Hk as (K1 & K2 & K3 & K4 & K5).
        cbn [currentDevice lastStates config stuckPositions set_stuckPositions].
        rewrite K1, K2, K4, H1, H2, H4, Hdev, Hstate, Hthr.
        split; [repeat split|].
        intros t Ht Htn Hspan _. specialize (G t Ht Htn Hspan).
        rewrite ?Hlate in G. rewrite <- G.
        rewrite lookup_insert_eq. split; [reflexivity|].
        change (console (set_stuckPositions ?m ?x)) with (console x).
        rewrite Hc3. unfold txt, stuck_text. cbn [now at_time]. rewrite Ht.
        rewrite of_Z_sub by lia. reflexivity.
      * rewrite H1, H2, H4, Hdev, Hstate, Hthr. split; [repeat split|].
        intros t Ht Htn Hspan _. specialize (G t Ht Htn Hspan).
        rewrite ?Hlate in G. rewrite <- G.
        rewrite H3, Hanchor, Hc1. split; reflexivity.
  - cbn [currentDevice lastStates config stuckPositions set_stuckPositions].
    rewrite H1, H2, H4, Hdev, Hstate, Hthr. split; [repeat split|].
    rewrite lookup_insert_eq. split; [reflexivity|].
    change (console (set_stuckPositions ?m ?x)) with (console x). exact Hc1.
Qed.

Lemma gps_first M rnd data s dev n :
  mowing dev s -> stuckPositions s !! id dev = None ->
  gps_LawnmowerId data = id dev -> 0 <= n < 2 ^ 53 ->
  let s' := handleGpsUpdate M (at_time n rnd) data s in
  mowing dev s' /\ stuckPositions s' !! id dev = Some (anchor_of data n) /\
  stuck_alerts s' = stuck_alerts s.
Proof.
  intros Hm Ha Hid Hn.
  destruct (gps_step M rnd data s dev n Hm Hid Hn) as (Hm' & H).
  rewrite Ha in H. destruct H as (H1 & H2).
  split; [exact Hm'|]. split; [exact H1|]. apply stuck_alerts_console, H2.
Qed.

Lemma gps_quiet M rnd data s dev n a t :
  mowing dev s -> stuckPositions s !! id dev = Some (anchor_of a t) ->
  gps_LawnmowerId data = id dev -> (apart M a data <=? 0.5)%float = true ->
  0 <= t <= n -> n - t <= 90000 -> n < 2 ^ 53 ->
  let s' := handleGpsUpdate M (at_time n rnd) data s in
  mowing dev s' /\ stuckPositions s' !! id dev = Some (anchor_of a t) /\
  stuck_alerts s' = stuck_alerts s.
Proof.
  intros Hm Ha Hid Hclose Ht Hspan Hn.
  destruct (gps_step M rnd data s dev n Hm Hid ltac:(lia)) as (Hm' & H).
  rewrite Ha in H.
  specialize (H t eq_refl Ht ltac:(lia) (leb_half_not_beyond_one _ Hclose)).
  destruct (Z.ltb_spec 90000 (n - t)) as [L|_]; [lia|].
  destruct H as (H1 & H2).
  split; [exact Hm'|]. split; [exact H1|]. apply stuck_alerts_console, H2.
Qed.

Lemma gps_alert M rnd data s dev n a t :
  mowing dev s -> stuckPositions s !! id dev = Some (anchor_of a t) ->
  gps_LawnmowerId data = id dev -> (apart M a data <=? 0.5)%float = true ->
  0 <= t <= n -> 90000 < n - t <= 91000 -> n < 2 ^ 53 ->
  let s' := handleGpsUpdate M (at_time n rnd) data s in
  mowing dev s' /\ stuckPositions s' !! id dev = Some (anchor_of data n) /\
  stuck_alerts s' = S (stuck_alerts s).
Proof.
  intros Hm Ha Hid Hclose Ht Hspan Hn.
  destruct (gps_step M rnd data s dev n Hm Hid ltac:(lia)) as (Hm' & H).
  rewrite Ha in H.
  specialize (H t eq_refl Ht ltac:(lia) (leb_half_not_beyond_one _ Hclose)).
  destruct (Z.ltb_spec 90000 (n - t)) as [_|L]; [|lia].
  destruct H as (H1 & H2).
  split; [exact Hm'|]. split; [exact H1|].
  eapply stuck_alerts_alert, H2.
Qed.

(** C4: a device that is mowing, with the default threshold of 90 seconds
    and no anchor yet, receives five GPS samples that lie within 0.5 m of
    each other, at non-decreasing times of which the last is 91 seconds
    after the first. Over the five updates exactly one stuck alert is
    raised, and the anchor ends on the sample that raised it (a sample
    more than 90 seconds after the first). *)
Theorem C4_one_alert_per_standstill M rnd s dev d1 d2 d3 d4 d5 n1 n2 n3 n4 n5 :
  mowing dev s ->
  stuckPositions s !! id dev = None ->
  (forall d, In d [d1; d2; d3; d4; d5] -> gps_LawnmowerId d = id dev) ->
  (forall a b, In a [d1; d2; d3; d4; d5] -> In b [d1; d2; d3; d4; d5] ->
     (apart M a b <=? 0.5)%float = true) ->
  0 <= n1 -> n1 <= n2 -> n2 <= n3 -> n3 <= n4 -> n4 <= n5 ->
  n5 = n1 + 91000 -> n5 < 2 ^ 53 ->
  let s' := run M [ (at_time n1 rnd, GpsUpdate d1);
                    (at_time n2 rnd, GpsUpdate d2);
                    (at_time n3 rnd, GpsUpdate d3);
                    (at_time n4 rnd, GpsUpdate d4);
                    (at_time n5 rnd, GpsUpdate d5) ] s in
  stuck_alerts s' = S (stuck_alerts s) /\
  exists n d,
    In (n, d) [(n1, d1); (n2, d2); (n3, d3); (n4, d4); (n5, d5)] /\
    n1 + 90000 < n /\
    stuckPositions s' !! id dev = Some (anchor_of d n).
Proof.
  intros Hm Ha Hid Hclose H1 H12 H23 H34 H45 H5 Hb.
  assert (I1 : In d1 [d1; d2; d3; d4; d5]) by (simpl; tauto).
  assert (I2 : In d2 [d1; d2; d3; d4; d5]) by (simpl; tauto).
  assert (I3 : In d3 [d1; d2; d3; d4; d5]) by (simpl; tauto).
  assert (I4 : In d4 [d1; d2; d3; d4; d5]) by (simpl; tauto).
  assert (I5 : In d5 [d1; d2; d3; d4; d5]) by (simpl; tauto).
  cbn [run step]. cbn zeta.
  destruct (gps_first M rnd d1 s dev n1 Hm Ha (Hid _ I1) ltac:(lia))
    as (M1 & A1 & C1).
  set (s1 := handleGpsUpdate M (at_time n1 rnd) d1 s) in *.
  destruct (Z.le_gt_cases (n2 - n1) 90000) as [Q2|L2].
  - destruct (gps_quiet M rnd d2 s1 dev n2 d1 n1 M1 A1 (Hid _ I2) (Hclose _ _ I1 I2)
                ltac:(lia) ltac:(lia) ltac:(lia)) as (M2 & A2 & C2).
    set (s2 := handleGpsUpdate M (at_time n2 rnd) d2 s1) in *.
    destruct (Z.le_gt_cases (n3 - n1) 90000) as [Q3|L3].
    + destruct (gps_quiet M rnd d3 s2 dev n3 d1 n1 M2 A2 (Hid _ I3) (Hclose _ _ I1 I3)
                  ltac:(lia) ltac:(lia) ltac:(lia)) as (M3 & A3 & C3).
      set (s3 := handleGpsUpdate M (at_time n3 rnd) d3 s2) in *.
      destruct (Z.le_gt_cases (n4 - n1) 90000) as [Q4|L4].
      * destruct (gps_quiet M rnd d4 s3 dev n4 d1 n1 M3 A3 (Hid _ I4) (Hclose _ _ I1 I4)
                    ltac:(lia) ltac:(lia) ltac:(lia)) as (M4 & A4 & C4).
        set (s4 := handleGpsUpdate M (at_time n4 rnd) d4 s3) in *.
        destruct (gps_alert M rnd d5 s4 dev n5 d1 n1 M4 A4 (Hid _ I5) (Hclose _ _ I1 I5)
                    ltac:(lia) ltac:(lia) ltac:(lia)) as (M5 & A5 & C5).
        split; [congruence|].
        exists n5, d5. split; [simpl; tauto|]. split; [lia|exact A5].
      * destruct (gps_alert M rnd d4 s3 dev n4 d1 n1 M3 A3 (Hid _ I4) (Hclose _ _ I1 I4)
                    ltac:(lia) ltac:(lia) ltac:(lia)) as (M4 & A4 & C4).
        set (s4 := handleGpsUpdate M (at_time n4 rnd) d4 s3) in *.
        destruct (gps_quiet M rnd d5 s4 dev n5 d4 n4 M4 A4 (Hid _ I5) (Hclose _ _ I4 I5)
                    ltac:(lia) ltac:(lia) ltac:(lia)) as (M5 & A5 & C5).
        split; [congruence|].
        exists n4, d4. split; [simpl; tauto|]. split; [lia|exact A5].
    + destruct (gps_alert M rnd d3 s2 dev n3 d1 n1 M2 A2 (Hid _ I3) (Hclose _ _ I1 I3)
                  ltac:(lia) ltac:(lia) ltac:(lia)) as (M3 & A3 & C3).
      set (s3 := handleGpsUpdate M (at_time n3 rnd) d3 s2) in *.
      destruct (gps_quiet M rnd d4 s3 dev n4 d3 n3 M3 A3 (Hid _ I4) (Hclose _ _ I3 I4)
                  ltac:(lia) ltac:(lia) ltac:(lia)) as (M4 & A4 & C4).
      set (s4 := handleGpsUpdate M (at_time n4 rnd) d4 s3) in *.
      destruct (gps_quiet M rnd d5 s4 dev n5 d3 n3 M4 A4 (Hid _ I5) (Hclose _ _ I3 I5)
                  ltac:(lia) ltac:(lia) ltac:(lia)) as (M5 & A5 & C5).
      split; [congruence|].
      exists n3, d3. split; [simpl; tauto|]. split; [lia|exact A5].
  - destruct (gps_alert M rnd d2 s1 dev n2 d1 n1 M1 A1 (Hid _ I2) (Hclose _ _ I1 I2)
                ltac:(lia) ltac:(lia) ltac:(lia)) as (M2 & A2 & C2).
    set (s2 := handleGpsUpdate M (at_time n2 rnd) d2 s1) in *.
    destruct (gps_quiet M rnd d3 s2 dev n3 d2 n2 M2 A2 (Hid _ I3) (Hclose _ _ I2 I3)
                ltac:(lia) ltac:(lia) ltac:(lia)) as (M3 & A3 & C3).
    set (s3 := handleGpsUpdate M (at_time n3 rnd) d3 s2) in *.
    destruct (gps_quiet M rnd d4 s3 dev n4 d2 n2 M3 A3 (Hid _ I4) (Hclose _ _ I2 I4)
                ltac:(lia) ltac:(lia) ltac:(lia)) as (M4 & A4 & C4).
    set (s4 := handleGpsUpdate M (at_time n4 rnd) d4 s3) in *.
    destruct (gps_quiet M rnd d5 s4 dev n5 d2 n2 M4 A4 (Hid _ I5) (Hclose _ _ I2 I5)
                ltac:(lia) ltac:(lia) ltac:(lia)) as (M5 & A5 & C5).
    split; [congruence|].
    exists n2, d2. split; [simpl; tauto|]. split; [lia|exact A5].
Qed.

(** C4 on a mower that stands at one position, reported at 2, 32, 62, 92
    and 93 seconds: one alert. *)
Lemma C4_one_alert_per_standstill_witness :
  stuck_alerts
    (run example_math
       [ (env_at 2000, GpsUpdate standing); (env_at 32000, GpsUpdate standing);
         (env_at 62000, GpsUpdate standing); (env_at 92000, GpsUpdate standing);
         (env_at 93000, GpsUpdate standing) ] mowing_session)
  = S (stuck_alerts mowing_session).
Proof.
  apply (C4_one_alert_per_standstill example_math (fun _ => 0.5%float)
           mowing_session mower standing standing standing standing standing
           2000 32000 62000 92000 93000).
  - repeat split; vm_compute; reflexivity.
  - vm_compute. reflexivity.
  - intros d [<-|[<-|[<-|[<-|[<-|[]]]]]]; reflexivity.
  - intros a b [<-|[<-|[<-|[<-|[<-|[]]]]]] [<-|[<-|[<-|[<-|[<-|[]]]]]];
      vm_compute; reflexivity.
  - lia.
  - lia.
  - lia.
  - lia.
  - lia.
  - lia.
  - lia.
Defined.

End Stuck.

(* ===================================================================== *)
(** * The battery trend predictor *)
(* ===================================================================== *)

Section Predictor.
Import JS CockpitManager ChartManager Observe Examples.

Lemma new_Date_of_Z n :
  - 8640000000000000 <= n <= 8640000000000000 ->
  new_Date (of_Z n) = mkDate (of_Z n).
Proof. intros H. unfold new_Date. rewrite TimeClip_of_Z by exact H. reflexivity. Qed.

Lemma slice_last_length {A} (n : nat) (l : list A) :
  length (slice_last n l) = Nat.min n (length l).
Proof. unfold slice_last. rewrite length_skipn. lia. Qed.

(** The prediction, once the guards on the number of samples are passed. *)
Lemma prediction_of_window c first latest :
  (2 <= length (batteryData c))%nat ->
  head (slice_last 10 (batteryData c)) = Some first ->
  last (slice_last 10 (batteryData c)) = Some latest ->
  calculateBatteryPrediction c =
    let currentState := getCurrentDeviceState c in
    let timeSpan := Date_sub (timestamp latest) (timestamp first) in
    let levelChange := (level latest - level first)%float in
    let ratePerMs := (levelChange / timeSpan)%float in
    let currentLevel := level latest in
    let currentTime := timestamp latest in
    if bool_decide (currentState = Some 0) then
      if (0 <? ratePerMs)%float then
        let timeToFull := ((100 - currentLevel) / (ratePerMs * 60000))%float in
        Some {| data := [ {| x := currentTime; y := currentLevel |};
                          {| x := new_Date (getTime currentTime + timeToFull * 60000)%float;
                             y := 100 |} ];
                label := [Str "Charging complete: "; Num (Math_round timeToFull);
                          Str " min"] |}
      else None
    else if includes [2; 3; 4; 5] currentState then
      if (ratePerMs <? 0)%float then
        let timeToEmpty := (currentLevel / (- ratePerMs * 60000))%float in
        Some {| data := [ {| x := currentTime; y := currentLevel |};
                          {| x := new_Date (getTime currentTime + timeToEmpty * 60000)%float;
                             y := 0 |} ];
                label := [Str "Battery empty: "; Num (Math_round timeToEmpty);
                          Str " min"] |}
      else None
    else None.
Proof.
  intros Hlen Hfirst Hlast. unfold calculateBatteryPrediction.
  destruct (Nat.ltb_spec (length (batteryData c)) 2) as [L|_]; [lia|].
  destruct (Nat.ltb_spec (length (slice_last 10 (batteryData c))) 2) as [L|_].
  { rewrite slice_last_length in L. lia. }
  rewrite Hfirst, Hlast. cbn zeta.
  destruct (bool_decide _).
  - destruct (0 <? _)%float; reflexivity.
  - destruct (includes _ _); [|reflexivity].
    destruct (_ <? 0)%float; reflexivity.
Qed.

Lemma eqb_zero_not_ltb x :
  (x =? 0)%float = true -> (0 <? x)%float = false /\ (x <? 0)%float = false.
Proof.
  rewrite FloatAxioms.eqb_spec, !FloatAxioms.ltb_spec.
  change (Prim2SF 0) with (S754_zero false).
  destruct (Prim2SF x) as [s|s| |s m e]; try destruct s; try discriminate; split; reflexivity.
Qed.

Lemma includes_discharging (st : option Z) :
  includes [2; 3; 4; 5] st = true <->
  st = Some 2 \/ st = Some 3 \/ st = Some 4 \/ st = Some 5.
Proof.
  destruct st as [n|]; cbn [includes existsb].
  - rewrite !orb_true_iff, !Z.eqb_eq. split.
    + intros [->|[->|[->|[->|H]]]]; [tauto..|discriminate].
    + intros [[= ->]|[[= ->]|[[= ->]|[= ->]]]]; tauto.
  - split; [discriminate|]. intros [H|[H|[H|H]]]; discriminate.
Qed.

(** C2, amended: on a window of at least 2 samples whose first and last
    timestamps are the same valid date the time span is 0 and the rate is
    the level change divided by zero: NaN when the levels are equal,
    otherwise +infinity or -infinity. So the predictor returns None
    exactly when neither the state is StationCharging (0) with a rising
    level nor the state is one of 2, 3, 4, 5 with a falling level; in
    particular it returns None, for every state, when the first and last
    levels are equal. With a rising level while charging, or a falling
    level in the states 2-5, a prediction is returned. *)
Theorem C2_zero_span_prediction c first latest :
  (2 <= length (batteryData c))%nat ->
  head (slice_last 10 (batteryData c)) = Some first ->
  last (slice_last 10 (batteryData c)) = Some latest ->
  timestamp first = timestamp latest ->
  is_finite (getTime (timestamp latest)) = true ->
  let change := (level latest - level first)%float in
  let state := getCurrentDeviceState c in
  let rising_while_charging := state = Some 0 /\ (0 <? change)%float = true in
  let falling_while_running :=
    (state = Some 2 \/ state = Some 3 \/ state = Some 4 \/ state = Some 5) /\
    (change <? 0)%float = true in
  (calculateBatteryPrediction c = None <->
   ~ (rising_while_charging \/ falling_while_running)) /\
  ((change =? 0)%float = true -> calculateBatteryPrediction c = None).
Proof.
  intros Hlen Hfirst Hlast Hsame Hvalid. cbn zeta.
  rewrite (prediction_of_window c first latest Hlen Hfirst Hlast). cbn zeta.
  unfold Date_sub. rewrite Hsame, sub_diag by exact Hvalid.
  rewrite ltb_zero_div_zero, ltb_div_zero_zero.
  set (change := (level latest - level first)%float).
  set (state := getCurrentDeviceState c).
  pose proof (includes_discharging state) as Hinc.
  assert (Main :
    (if bool_decide (state = Some 0)
     then if (0 <? change)%float then Some tt else None
     else if includes [2; 3; 4; 5] state
          then if (change <? 0)%float then Some tt else None
          else None) = None <->
    ~ ((state = Some 0 /\ (0 <? change)%float = true) \/
       ((state = Some 2 \/ state = Some 3 \/ state = Some 4 \/ state = Some 5) /\
        (change <? 0)%float = true))).
  { destruct (bool_decide_reflect (state = Some 0)) as [H0|H0].
    - destruct (0 <? change)%float.
      + split; [discriminate|]. intros N. exfalso. apply N. left. split; auto.
      + split; [|reflexivity]. intros _ [[_ H]|[[H|[H|[H|H]]] _]]; congruence.
    - destruct (includes [2; 3; 4; 5] state) eqn:Hi.
      + destruct (change <? 0)%float.
        * split; [discriminate|]. intros N. exfalso. apply N. right. split; [|reflexivity].
          apply Hinc. reflexivity.
        * split; [|reflexivity]. intros _ [[H _]|[_ H]]; [contradiction|discriminate].
      + split; [|reflexivity]. intros _ [[H _]|[H _]]; [contradiction|].
        apply Hinc in H. discriminate H. }
  split.
  - rewrite <- Main.
    destruct (bool_decide _); [destruct (0 <? change)%float|
      destruct (includes _ _); [destruct (change <? 0)%float|]];
      split; intros H; try reflexivity; discriminate H.
  - intros Hz. destruct (eqb_zero_not_ltb change Hz) as (-> & ->).
    destruct (bool_decide _); [reflexivity|]. destruct (includes _ _); reflexivity.
Qed.

(** C6: for the two samples (t, 50%) and (t + 10 min, 60%) and the state
    StationCharging the predictor returns the two points (t + 10 min, 60)
    and (t + 10 min + 40 min, 100), labelled with 40 minutes. *)
Theorem C6_time_to_full c t :
  - 8640000000000000 <= t -> t + 3000000 <= 8640000000000000 ->
  batteryData c = [sample_at t 50; sample_at (t + 600000) 60] ->
  getCurrentDeviceState c = Some 0 ->
  calculateBatteryPrediction c =
    Some {| data := [ {| x := date_at (t + 600000); y := 60 |};
                      {| x := date_at (t + 600000 + 2400000); y := 100 |} ];
            label := [Str "Charging complete: "; Num 40; Str " min"] |}.
Proof.
  intros Hlo Hhi Hdata Hstate.
  rewrite (prediction_of_window c (sample_at t 50) (sample_at (t + 600000) 60));
    [| rewrite Hdata; cbn; lia | rewrite Hdata; reflexivity | rewrite Hdata; reflexivity].
  rewrite Hstate. cbn zeta.
  rewrite bool_decide_eq_true_2 by reflexivity.
  unfold sample_at, date_at, Date_sub. cbn [timestamp level].
  rewrite !new_Date_of_Z by lia. cbn [getTime].
  rewrite of_Z_sub by lia.
  replace (t + 600000 - t) with 600000 by lia.
  replace (0 <? (60 - 50) / of_Z 600000)%float with true
    by (vm_compute; reflexivity).
  replace (Math_round ((100 - 60) / ((60 - 50) / of_Z 600000 * 60000)))%float
    with 40%float by (vm_compute; reflexivity).
  replace ((100 - 60) / ((60 - 50) / of_Z 600000 * 60000) * 60000)%float
    with (of_Z 2400000) by (vm_compute; reflexivity).
  rewrite of_Z_add by lia. rewrite new_Date_of_Z by lia.
  reflexivity.
Qed.

(** C6 at t = 0. *)
Lemma C6_time_to_full_witness :
  calculateBatteryPrediction (chart_of [sample_at 0 50; sample_at 600000 60]) =
    Some {| data := [ {| x := date_at 600000; y := 60 |};
                      {| x := date_at 3000000; y := 100 |} ];
            label := [Str "Charging complete: "; Num 40; Str " min"] |}.
Proof.
  apply (C6_time_to_full (chart_of [sample_at 0 50; sample_at 600000 60]) 0);
    [lia | lia | reflexivity | reflexivity].
Defined.

(** Two samples with the same timestamp, 50% then 60%, while charging:
    the rate is +infinity, the time to full is 0 minutes. *)
Lemma zero_span_prediction :
  calculateBatteryPrediction (chart_of [sample_at 1000 50; sample_at 1000 60]) =
    Some {| data := [ {| x := date_at 1000; y := 60 |};
                      {| x := date_at 1000; y := 100 |} ];
            label := [Str "Charging complete: "; Num 0; Str " min"] |}.
Proof. vm_compute. reflexivity. Qed.

(** C2, as stated, fails: a window of zero time span does not always give
    None. *)
Lemma C2_zero_span_still_predicts :
  ~ (forall c first latest,
       (2 <= length (batteryData c))%nat ->
       head (slice_last 10 (batteryData c)) = Some first ->
       last (slice_last 10 (batteryData c)) = Some latest ->
       timestamp first = timestamp latest ->
       calculateBatteryPrediction c = None).
Proof.
  intros H.
  specialize (H (chart_of [sample_at 1000 50; sample_at 1000 60])
                (sample_at 1000 50) (sample_at 1000 60)
                ltac:(cbn; lia) eq_refl eq_refl eq_refl).
  rewrite zero_span_prediction in H. discriminate H.
Qed.

(** The amended C2 on two samples with the same timestamp and level. *)
Lemma C2_zero_span_prediction_witness :
  calculateBatteryPrediction (chart_of [sample_at 1000 50; sample_at 1000 50]) = None.
Proof.
  apply (C2_zero_span_prediction (chart_of [sample_at 1000 50; sample_at 1000 50])
           (sample_at 1000 50) (sample_at 1000 50));
    [cbn; lia | reflexivity | reflexivity | reflexivity | reflexivity | reflexivity].
Defined.

End Predictor.

(* ===================================================================== *)
(** * The status aggregator *)
(* ===================================================================== *)

Section Aggregator.
Import JS StatusManager Observe.

(** The aggregation of three records, two of state Mowing and one of a
    charging state, from the differences of their dates. *)
Lemma aggregate_three (D0 D1 D2 D3 from : Date) (charging : Z) :
  charging = 0 \/ charging = 1 ->
  (getTime D1 - getTime D2)%float = (-15000)%float ->
  (getTime D0 - getTime D1)%float = (-30000)%float ->
  (getTime D1 - getTime D0)%float = 30000%float ->
  (getTime D2 - getTime D1)%float = 15000%float ->
  (getTime D3 - getTime D2)%float = 15000%float ->
  (getTime D1 - getTime D1)%float = 0%float ->
  let history := [ {| timestamp := D0; state := 2 |};
                   {| timestamp := D1; state := 2 |};
                   {| timestamp := D2; state := charging |} ] in
  let result := processStatusData history {| from := from; to := D3 |} in
  groupConsecutiveStates (snd result) =
    [ {| stateId := 2; stateName := Some "Mowing";
         startTime := D0; endTime := D2; duration := 45 |};
      {| stateId := charging; stateName := prop statusNames charging;
         startTime := D2; endTime := D3; duration := 15 |} ] /\
  fst result =
    [ {| item_stateId := charging; item_stateName := prop statusNames charging;
         item_duration := 15; percentage := 25;
         color := prop statusColors charging |};
      {| item_stateId := 2; item_stateName := Some "Mowing";
         item_duration := 45; percentage := 75;
         color := Some "#7F8F3D" |} ].
Proof.
  intros Hc H12 H01 H10 H21 H32 H11. cbn zeta.
  unfold processStatusData, sort, Date_sub.
  cbn [foldr sort_insert timestamp state].
  rewrite H12. change (0 <? -15000)%float with false.
  cbn [sort_insert timestamp state].
  rewrite H01. change (0 <? -30000)%float with false.
  cbn [scan timestamp state to]. unfold Date_sub. cbn [timestamp state to].
  rewrite H10, H21, H32.
  destruct Hc as [-> | ->]; cbn; unfold Date_sub; cbn; rewrite H11; cbn;
    split; reflexivity.
Qed.

(** C5: for the history (t0, Mowing), (t0 + 30 s, Mowing), (t0 + 45 s,
    Charging) and the window end t0 + 60 s, the merged timeline has exactly
    two segments, Mowing for 45 seconds from t0 and then Charging for 15
    seconds, and the distribution gives Mowing 75% and Charging 25%
    (Charging being StationCharging or StationChargingCompleted). *)
Theorem C5_status_aggregation t0 charging from :
  - 8640000000000000 <= t0 -> t0 + 60000 <= 8640000000000000 ->
  charging = 0 \/ charging = 1 ->
  let history := [ record_at t0 2; record_at (t0 + 30000) 2;
                   record_at (t0 + 45000) charging ] in
  let result :=
    processStatusData history {| from := from; to := date_at (t0 + 60000) |} in
  groupConsecutiveStates (snd result) =
    [ {| stateId := 2; stateName := Some "Mowing";
         startTime := date_at t0; endTime := date_at (t0 + 45000);
         duration := 45 |};
      {| stateId := charging; stateName := prop statusNames charging;
         startTime := date_at (t0 + 45000); endTime := date_at (t0 + 60000);
         duration := 15 |} ] /\
  fst result =
    [ {| item_stateId := charging; item_stateName := prop statusNames charging;
         item_duration := 15; percentage := 25;
         color := prop statusColors charging |};
      {| item_stateId := 2; item_stateName := Some "Mowing";
         item_duration := 45; percentage := 75;
         color := Some "#7F8F3D" |} ].
Proof.
  intros Hlo Hhi Hc. cbn zeta. unfold record_at, date_at.
  rewrite !new_Date_of_Z by lia.
  apply aggregate_three; [exact Hc|..]; cbn [getTime];
    rewrite of_Z_sub by lia;
    match goal with
    | |- of_Z ?n = _ => ring_simplify n
    end; vm_compute; reflexivity.
Qed.

(** C5 at t0 = 1 s, the mower charging (state 0) at the end. *)
Lemma C5_status_aggregation_witness :
  let result :=
    processStatusData [record_at 1000 2; record_at 31000 2; record_at 46000 0]
      {| from := date_at 0; to := date_at 61000 |} in
  map (fun g => (stateId g, duration g)) (groupConsecutiveStates (snd result))
    = [(2, 45%float); (0, 15%float)] /\
  map (fun i => (item_stateId i, percentage i)) (fst result)
    = [(0, 25%float); (2, 75%float)].
Proof.
  destruct (C5_status_aggregation 1000 0 (date_at 0)
              ltac:(lia) ltac:(lia) ltac:(left; reflexivity)) as (Hg & Hd).
  cbn zeta. split.
  - change (1000 + 30000) with 31000 in Hg. change (1000 + 45000) with 46000 in Hg.
    change (1000 + 60000) with 61000 in Hg. rewrite Hg. reflexivity.
  - change (1000 + 30000) with 31000 in Hd. change (1000 + 45000) with 46000 in Hd.
    change (1000 + 60000) with 61000 in Hd. rewrite Hd. reflexivity.
Defined.

End Aggregator.

(* ===================================================================== *)
(** * More on stuck detection *)
(* ===================================================================== *)

Section StuckCases.
Import JS LawnmowerAPI CockpitManager Observe Page.

Lemma updateGpsPosition_log lat lon ts s :
  console (updateGpsPosition lat lon ts s) = console s /\
  messages (updateGpsPosition lat lon ts s) = messages s.
Proof.
  unfold updateGpsPosition, console. destruct (_ && _); split; reflexivity.
Qed.

(** What [handleGpsUpdate] does to the anchor and to the console, for a
    sample of the bound device. *)
Lemma gps_update_cases M E data s dev :
  currentDevice s = Some dev -> gps_LawnmowerId data = id dev ->
  let s' := handleGpsUpdate M E data s in
    if bool_decide (on_the_move dev s) then
      match stuckPositions s !! id dev with
      | None =>
          stuckPositions s' = <[id dev := anchor_at E data]> (stuckPositions s) /\
          console s' = console s
      | Some a =>
          if (1 <? moved M a data)%float then
            stuckPositions s' = <[id dev := anchor_at E data]> (stuckPositions s) /\
            console s' = console s
          else if (stuckThreshold (config s) <? elapsed E a)%float then
            stuckPositions s' = <[id dev := anchor_at E data]> (stuckPositions s) /\
            console s' = stuck_line (elapsed E a) :: console s
          else
            stuckPositions s' = stuckPositions s /\ console s' = console s
      end
    else
      stuckPositions s' = delete (id dev) (stuckPositions s) /\
      console s' = console s.
Proof.
  intros Hdev Hid. unfold handleGpsUpdate.
  rewrite (rejected_bound _ _ _ Hdev Hid).
  set (s1 := updateGpsPosition (Latitude data) (Longitude data) (Date_current E) s).
  destruct (updateGpsPosition_log (Latitude data) (Longitude data) (Date_current E) s)
    as (Hc1 & _). fold s1 in Hc1.
  destruct (same_tracking_updateGpsPosition (Latitude data) (Longitude data)
              (Date_current E) s) as (H1 & H2 & H3 & H4 & H5).
  fold s1 in H1, H2, H3, H4, H5.
  cbn zeta. rewrite updateLastUpdateTime_console.
  unfold updateLastUpdateTime. cbn [stuckPositions emit].
  unfold checkStuckDetection. rewrite ?H1, ?Hdev, ?H2, ?H3, ?H4.
  unfold on_the_move.
  destruct (bool_decide_reflect (lastStates s !! id dev ≠ Some 2 ∧
                                 lastStates s !! id dev ≠ Some 3)) as [N|N].
  - rewrite bool_decide_eq_false_2 by (intros [G|G]; destruct N; contradiction).
    cbn [stuckPositions set_stuckPositions]. rewrite ?H3. split; [reflexivity|].
    exact Hc1.
  - rewrite bool_decide_eq_true_2.
    2:{ destruct (decide (lastStates s !! id dev = Some 2)); [left; assumption|].
        destruct (decide (lastStates s !! id dev = Some 3)); [right; assumption|].
        exfalso. apply N. split; assumption. }
    destruct (stuckPositions s !! id dev) as [a|].
    + unfold moved, elapsed.
      destruct (1 <? calculateDistance M _ _ _ _)%float.
      * cbn [stuckPositions set_stuckPositions]. rewrite ?H3.
        split; [reflexivity|exact Hc1].
      * destruct (stuckThreshold (config s) <? _)%float.
        -- set (txt := [Str "Device appears to be stuck ("; _; _]).
           set (s2 := addMessage E txt "error" None s1).
           destruct (same_tracking_addMessage E txt "error" None s1)
             as (G1 & G2 & G3 & G4 & G5). fold s2 in G1, G2, G3, G4, G5.
           assert (Hc2 : console s2 = ("error", txt) :: console s).
           { unfold s2. rewrite addMessage_console, Hc1. reflexivity. }
           destruct (mapManager (app s2));
             cbn [stuckPositions set_stuckPositions emit]; rewrite ?G3, ?H3;
             (split; [reflexivity|]); exact Hc2.
        -- rewrite ?H3. split; [reflexivity|exact Hc1].
    + cbn [stuckPositions set_stuckPositions]. rewrite ?H3.
      split; [reflexivity|exact Hc1].
Qed.

(** X1: a sample more than one metre from the anchor restarts the
    tracking, however long the device had stood before: the anchor moves
    to the sample, stamped with the current time, and no alert is
    raised. *)
Theorem movement_restarts_tracking M E data s dev a :
  currentDevice s = Some dev -> gps_LawnmowerId data = id dev ->
  on_the_move dev s ->
  stuckPositions s !! id dev = Some a ->
  (1 <? moved M a data)%float = true ->
  let s' := handleGpsUpdate M E data s in
  stuckPositions s' !! id dev = Some (anchor_at E data) /\
  console s' = console s /\
  stuck_alerts s' = stuck_alerts s.
Proof.
  intros Hdev Hid Hmove Ha Hfar.
  pose proof (gps_update_cases M E data s dev Hdev Hid) as H. cbn zeta in H.
  rewrite bool_decide_eq_true_2, Ha, Hfar in H by exact Hmove.
  destruct H as (H1 & H2). cbn zeta. rewrite H1, lookup_insert_eq.
  split; [reflexivity|]. split; [exact H2|]. apply stuck_alerts_console, H2.
Qed.

(** X2: a GPS update raises at most one alert, and raises it only when the
    sample is of the bound device, the last known state is Mowing or
    ReturningToStation, an anchor exists, the sample is not more than one
    metre from it and more seconds than the configured threshold have
    passed since it was set; the anchor then moves to the sample. In every
    other case nothing is written to the console. *)
Theorem alert_only_when_stuck M E data s :
  let s' := handleGpsUpdate M E data s in
  console s' = console s \/
  exists dev a,
    currentDevice s = Some dev /\ gps_LawnmowerId data = id dev /\
    on_the_move dev s /\
    stuckPositions s !! id dev = Some a /\
    (1 <? moved M a data)%float = false /\
    (stuckThreshold (config s) <? elapsed E a)%float = true /\
    console s' = stuck_line (elapsed E a) :: console s /\
    stuckPositions s' !! id dev = Some (anchor_at E data).
Proof.
  cbn zeta.
  destruct (currentDevice s) as [dev|] eqn:Hdev.
  2:{ left. unfold handleGpsUpdate, rejected. rewrite Hdev. reflexivity. }
  destruct (Z.eq_dec (gps_LawnmowerId data) (id dev)) as [Hid|Hid].
  2:{ left. unfold handleGpsUpdate, rejected. rewrite Hdev.
      destruct (Z.eqb_spec (gps_LawnmowerId data) (id dev)); [contradiction|].
      reflexivity. }
  pose proof (gps_update_cases M E data s dev Hdev Hid) as H. cbn zeta in H.
  destruct (bool_decide_reflect (on_the_move dev s)) as [Hmove|_];
    [|left; apply H].
  destruct (stuckPositions s !! id dev) as [a|] eqn:Ha; [|left; apply H].
  destruct (1 <? moved M a data)%float eqn:Hfar; [left; apply H|].
  destruct (stuckThreshold (config s) <? elapsed E a)%float eqn:Hlate;
    [|left; apply H].
  right. exists dev, a. destruct H as (H1 & H2).
  repeat split; try assumption. rewrite H1, lookup_insert_eq. reflexivity.
Qed.

End StuckCases.

(* ===================================================================== *)
(** * More on state updates and device selection *)
(* ===================================================================== *)

Section StateCases.
Import JS LawnmowerAPI CockpitManager Observe Page.

Lemma updateDeviceState_quiet E stateId ts s :
  stateId <> 5 ->
  console (updateDeviceState E stateId ts s) = console s /\
  messages (updateDeviceState E stateId ts s) = messages s /\
  randoms (updateDeviceState E stateId ts s) = randoms s.
Proof.
  intros H. unfold updateDeviceState.
  destruct (Z.eqb_spec stateId 5); [contradiction|]. repeat split; reflexivity.
Qed.

Lemma generateStateChangeMessage_console E previous new s :
  console (generateStateChangeMessage E previous new s)
  = ((if (previous =? 4) && (new =? 2)
      then [("info", [Str "Device resumed operation"])] else [])
     ++ ("info", [Str "State changed: "; Str (getStateName previous);
                  Str " → "; Str (getStateName new)]) :: console s)%list.
Proof.
  unfold generateStateChangeMessage.
  destruct ((previous =? 4) && (new =? 2)); cbn zeta;
    rewrite ?addMessage_console; reflexivity.
Qed.

(** X3: the transition messages of a state update (for a new state other
    than Error). The first state seen for the device, and a state equal to
    the known one, add no message. A changed state adds the line 'State
    changed: old -> new' with the display names of both states, and a
    change from Paused (4) to Mowing (2) adds 'Device resumed operation'
    after it. *)
Theorem transition_messages E data s dev :
  currentDevice s = Some dev ->
  state_LawnmowerId data = id dev ->
  State data <> 5 ->
  let s' := handleStateUpdate E data s in
  let new := State data in
  (lastStates s !! id dev = None \/ lastStates s !! id dev = Some new ->
     console s' = console s /\ messages s' = messages s) /\
  (forall old, lastStates s !! id dev = Some old -> old <> new ->
     console s'
     = ((if (old =? 4) && (new =? 2)
         then [("info", [Str "Device resumed operation"])] else [])
        ++ ("info", [Str "State changed: "; Str (getStateName old);
                     Str " → "; Str (getStateName new)]) :: console s)%list).
Proof.
  intros Hdev Hid Hst. cbn zeta.
  unfold handleStateUpdate. rewrite Hdev, Hid, Z.eqb_refl. cbn [negb].
  destruct (updateDeviceState_quiet E (State data) (Date_current E) s Hst)
    as (Hc & Hm & _).
  set (s1 := updateDeviceState E (State data) (Date_current E) s) in *.
  rewrite updateLastUpdateTime_messages, updateLastUpdateTime_console.
  change (messages (set_lastStates ?m ?x)) with (messages x).
  change (console (set_lastStates ?m ?x)) with (console x).
  destruct (lastStates s !! id dev) as [previous|].
  - destruct (Z.eqb_spec previous (State data)) as [->|Hne]; cbn [negb].
    + split; [intros _; split; assumption|].
      intros old [= <-] N. contradiction.
    + split; [intros [H|[= H]]; [discriminate|contradiction]|].
      intros old [= <-] _. rewrite generateStateChangeMessage_console, Hc.
      reflexivity.
  - split; [intros _; split; assumption|]. intros old H. discriminate H.
Qed.

Lemma prediction_needs_state c :
  ChartManager.getCurrentDeviceState c <> Some 0 ->
  ChartManager.includes [2; 3; 4; 5] (ChartManager.getCurrentDeviceState c) = false ->
  ChartManager.calculateBatteryPrediction c = None.
Proof.
  intros H0 Hi. unfold ChartManager.calculateBatteryPrediction.
  destruct (_ <? 2)%nat; [reflexivity|]. cbn zeta.
  destruct (_ <? 2)%nat; [reflexivity|].
  destruct (head _); [|reflexivity]. destruct (last _); [|reflexivity].
  rewrite bool_decide_eq_false_2 by exact H0. rewrite Hi. reflexivity.
Qed.

(** X4: the chart reads the state that the cockpit recorded last. After a
    state update of the bound device the chart's current state is the new
    state; when that state is neither StationCharging (0) nor one of 2-5
    (so for StationChargingCompleted and for unknown ids) the predictor
    gives no prediction, whatever the samples. *)
Theorem chart_follows_state_updates E data s dev samples live :
  currentDevice s = Some dev ->
  state_LawnmowerId data = id dev ->
  let s' := handleStateUpdate E data s in
  let c := {| ChartManager.cockpitManager := Some s';
              ChartManager.currentDevice := Some dev;
              ChartManager.batteryData := samples;
              ChartManager.isLiveMode := live |} in
  ChartManager.getCurrentDeviceState c = Some (State data) /\
  (State data <> 0 -> ~ 2 <= State data <= 5 ->
   ChartManager.calculateBatteryPrediction c = None).
Proof.
  intros Hdev Hid. cbn zeta.
  assert (G : lastStates (handleStateUpdate E data s) !! id dev = Some (State data)).
  { unfold handleStateUpdate. rewrite Hdev, Hid, Z.eqb_refl. cbn [negb].
    unfold updateLastUpdateTime. cbn [lastStates emit set_lastStates].
    apply lookup_insert_eq. }
  split; [exact G|].
  intros N0 N25. apply prediction_needs_state;
    unfold ChartManager.getCurrentDeviceState;
    cbn [ChartManager.cockpitManager ChartManager.currentDevice];
    rewrite G.
  - congruence.
  - cbn [ChartManager.includes existsb].
    destruct (Z.eqb_spec (State data) 2), (Z.eqb_spec (State data) 3),
      (Z.eqb_spec (State data) 4), (Z.eqb_spec (State data) 5);
      try reflexivity; lia.
Qed.

End StateCases.

(* ===================================================================== *)
(** * Device selection, known states, battery display and polling *)
(* ===================================================================== *)

Section SelectionCases.
Import JS LawnmowerAPI CockpitManager Observe Page Polling.


Lemma handleStateUpdate_states E data s :
  let s' := handleStateUpdate E data s in
  lastStates s' = lastStates s \/
  exists dev, currentDevice s = Some dev /\
    lastStates s' = <[id dev := State data]> (lastStates s).
Proof.
  cbn zeta. unfold handleStateUpdate.
  destruct (currentDevice s) as [dev|]; [|left; reflexivity].
  destruct (negb _); [left; reflexivity|].
  right. exists dev. split; [reflexivity|].
  unfold updateLastUpdateTime. cbn [lastStates emit set_lastStates]. f_equal.
  destruct (same_tracking_updateDeviceState E (State data) (Date_current E) s)
    as (_ & H & _).
  destruct (lastStates s !! id dev) as [previous|]; [|exact H].
  destruct (negb _); [|exact H].
  destruct (same_tracking_generateStateChangeMessage E previous (State data)
              (updateDeviceState E (State data) (Date_current E) s))
    as (_ & G & _).
  congruence.
Qed.

Lemma step_states M E ev s :
  states_of_bound_device s -> states_of_bound_device (step M E ev s).
Proof.
  intros I. destruct ev as [device|device i|data|data|data|c|tab]; cbn [step].
  - intros k st H. exfalso.
    assert (G : lastStates (setDevice_selected device s) = ∅).
    { unfold setDevice_selected. destruct device; [|reflexivity].
      unfold updateDeviceHeader. cbn [currentDevice set_currentDevice
        set_messages set_lastStates set_stuckPositions]. reflexivity. }
    rewrite G, lookup_empty in H. discriminate H.
  - destruct (same_tracking_setDevice_loaded E device i s) as (H1 & H2 & _).
    intros k st. rewrite H1, H2. apply I.
  - destruct (same_tracking_handleBatteryUpdate E data s) as (H1 & H2 & _).
    intros k st. rewrite H1, H2. apply I.
  - unfold handleGpsUpdate. destruct (rejected _ s) eqn:R; [exact I|].
    unfold rejected in R. destruct (currentDevice s) as [dev|] eqn:Hdev;
      [|discriminate R].
    apply negb_false_iff, Z.eqb_eq in R.
    destruct (handleGpsUpdate_anchor M E data s dev Hdev R) as (H1 & H2 & _).
    unfold handleGpsUpdate in H1, H2.
    rewrite (rejected_bound _ _ _ Hdev R) in H1, H2.
    intros k st. rewrite H1, H2. intros H. destruct (I k st H) as (d & Hd & Hk).
    exists d. split; [congruence|exact Hk].
  - destruct (handleStateUpdate_tracking E data s) as (H1 & _).
    destruct (handleStateUpdate_states E data s) as [H2|(dev & Hdev & H2)];
      intros k st; rewrite H1, H2.
    + apply I.
    + destruct (decide (k = id dev)) as [->|N].
      * intros _. exists dev. split; [exact Hdev|reflexivity].
      * rewrite lookup_insert_ne by congruence. apply I.
  - exact I.
  - exact I.
Qed.

(** X5: what a session can know. In every reachable session a state is
    known only for the bound device; so with no device bound the session
    knows no state and holds no anchor, and a state update for a device
    with no known state is never announced as a change. *)
Theorem reachable_states M s :
  reachable M s ->
  states_of_bound_device s /\
  (currentDevice s = None -> lastStates s = ∅ /\ stuckPositions s = ∅) /\
  (forall dev k, currentDevice s = Some dev -> k <> id dev ->
     lastStates s !! k = None /\ stuckPositions s !! k = None).
Proof.
  intros R.
  assert (I : states_of_bound_device s).
  { induction R as [a|s E ev R IH].
    - intros k st H. cbn in H. rewrite lookup_empty in H. discriminate H.
    - apply step_states, IH. }
  pose proof (reachable_anchors M s R) as A.
  split; [exact I|]. split.
  - intros N. split; apply map_empty; intros k.
    + destruct (lastStates s !! k) as [st|] eqn:H; [|reflexivity].
      destruct (I k st H) as (d & Hd & _). congruence.
    + destruct (stuckPositions s !! k) as [a|] eqn:H; [|reflexivity].
      destruct (A k a H) as ((d & Hd & _) & _). congruence.
  - intros dev k Hdev N. split.
    + destruct (lastStates s !! k) as [st|] eqn:H; [|reflexivity].
      destruct (I k st H) as (d & Hd & Hk). congruence.
    + destruct (stuckPositions s !! k) as [a|] eqn:H; [|reflexivity].
      destruct (A k a H) as ((d & Hd & Hk) & _). congruence.
Qed.



End SelectionCases.

(* ===================================================================== *)
(** * The battery display, deselection and polling *)
(* ===================================================================== *)

Section FloatOrder.

Lemma ltb_leb x y : (x <? y)%float = true -> (x <=? y)%float = true.
Proof.
  rewrite FloatAxioms.ltb_spec, FloatAxioms.leb_spec. unfold SFltb, SFleb.
  destruct (SFcompare _ _) as [[]|]; congruence.
Qed.

Lemma ltb_not_eqb x y : (x <? y)%float = true -> (x =? y)%float = false.
Proof.
  rewrite FloatAxioms.ltb_spec, FloatAxioms.eqb_spec. unfold SFltb, SFeqb.
  destruct (SFcompare _ _) as [[]|]; congruence.
Qed.

Lemma SFcompare_refl x : x <> S754_nan -> SFcompare x x = Some Eq.
Proof.
  destruct x as [[]|[]| |[] m e]; intros H; cbn; try reflexivity;
    try congruence; rewrite Z.compare_refl, Pos.compare_cont_refl; reflexivity.
Qed.

Lemma is_nan_Prim2SF x : is_nan x = true -> Prim2SF x = S754_nan.
Proof.
  unfold is_nan. rewrite FloatAxioms.eqb_spec. unfold SFeqb. intros H.
  destruct (Prim2SF x) eqn:P; try reflexivity;
    rewrite SFcompare_refl in H by discriminate; discriminate H.
Qed.

Lemma nan_compares x y :
  is_nan x = true ->
  (x <=? y)%float = false /\ (x <? y)%float = false /\ (x =? y)%float = false.
Proof.
  intros H. apply is_nan_Prim2SF in H.
  rewrite FloatAxioms.leb_spec, FloatAxioms.ltb_spec, FloatAxioms.eqb_spec, H.
  repeat split.
Qed.

End FloatOrder.

Section DisplayCases.
Import JS LawnmowerAPI CockpitManager Observe Page Polling.

Lemma shown_class_emit element e s :
  (forall el c, e <> DomClass el c) ->
  shown_class element (emit e s) = shown_class element s.
Proof.
  intros H. unfold shown_class. cbn [effects emit class_in].
  destruct e; try reflexivity. exfalso. eapply H. reflexivity.
Qed.

Lemma shown_class_addMessage E element txt type ts s :
  shown_class element (addMessage E txt type ts s) = shown_class element s.
Proof.
  unfold addMessage. cbn zeta.
  rewrite shown_class_emit by discriminate.
  destruct (String.eqb _ "messages");
    rewrite ?shown_class_emit by discriminate; reflexivity.
Qed.

Lemma shown_class_checkBatteryWarnings E element level s :
  shown_class element (checkBatteryWarnings E level s) = shown_class element s.
Proof.
  unfold checkBatteryWarnings.
  destruct (_ =? _)%float; [apply shown_class_addMessage|].
  destruct (_ <? _)%float; [apply shown_class_addMessage|reflexivity].
Qed.

Lemma shown_class_updateBatteryLevel level ts s :
  shown_class "batteryLevel" (updateBatteryLevel level ts s)
  = Some (if (level <=? 0)%float then "battery-critical"
          else if (level <? batteryLowThreshold (config s))%float
               then "battery-low" else "battery-normal").
Proof.
  unfold updateBatteryLevel. cbn zeta.
  assert (G : forall s0 : Cockpit,
    shown_class "batteryLevel"
      (if String.eqb (currentTab (app s0)) "battery" && chartManager (app s0)
       then emit (ChartUpdateBattery level ts) s0 else s0)
    = shown_class "batteryLevel" s0).
  { intros s0. destruct (_ && _); [|reflexivity].
    apply shown_class_emit. discriminate. }
  rewrite G.
  destruct (level <=? 0)%float; [reflexivity|].
  cbn [config emit]. destruct (level <? _)%float; reflexivity.
Qed.

(** X7: the colour of the battery display. After a battery update of the
    bound device the element 'batteryLevel' has the class battery-critical
    for a level at or below 0, battery-low for a level below the low
    threshold, and battery-normal otherwise; the messages added afterwards
    do not change it. A negative level is shown as critical but reported
    only by the 'Battery low' warning, and a level that is not a number is
    shown as normal and reported by no message. *)
Theorem battery_display E data s dev :
  currentDevice s = Some dev ->
  battery_LawnmowerId data = id dev ->
  let level := BatteryLevel data in
  let s' := handleBatteryUpdate E data s in
  shown_class "batteryLevel" s'
  = Some (if (level <=? 0)%float then "battery-critical"
          else if (level <? batteryLowThreshold (config s))%float
               then "battery-low" else "battery-normal") /\
  ((level <? 0)%float = true ->
   (level <? batteryLowThreshold (config s))%float = true ->
     shown_class "batteryLevel" s' = Some "battery-critical" /\
     console s'
     = ("warning", [Str "Battery low: "; Num (Math_round level); Str "%"])
       :: console s) /\
  (is_nan level = true ->
     shown_class "batteryLevel" s' = Some "battery-normal" /\
     console s' = console s /\ messages s' = messages s).
Proof.
  intros Hdev Hid. cbn zeta.
  assert (C : shown_class "batteryLevel" (handleBatteryUpdate E data s)
    = Some (if (BatteryLevel data <=? 0)%float then "battery-critical"
            else if (BatteryLevel data <? batteryLowThreshold (config s))%float
                 then "battery-low" else "battery-normal")).
  { unfold handleBatteryUpdate. rewrite (rejected_bound _ _ _ Hdev Hid).
    unfold updateLastUpdateTime. rewrite shown_class_emit by discriminate.
    rewrite shown_class_checkBatteryWarnings.
    apply shown_class_updateBatteryLevel. }
  unfold handleBatteryUpdate in *. rewrite (rejected_bound _ _ _ Hdev Hid) in *.
  destruct (updateBatteryLevel_frame (BatteryLevel data) (Date_current E) s)
    as (_ & Hm & _ & _ & _ & Hc & _ & Hr & Hl).
  rewrite updateLastUpdateTime_messages, updateLastUpdateTime_console.
  unfold checkBatteryWarnings in *. rewrite Hc in *.
  split; [exact C|]. split.
  - intros Hneg Hlow. rewrite C, (ltb_leb _ _ Hneg).
    split; [reflexivity|].
    rewrite (ltb_not_eqb _ _ Hneg), Hlow, addMessage_console, Hl. reflexivity.
  - intros Hnan.
    destruct (nan_compares (BatteryLevel data) 0 Hnan) as (N1 & _ & N3).
    destruct (nan_compares (BatteryLevel data) (batteryLowThreshold (config s)) Hnan)
      as (_ & N2 & _).
    rewrite C, N1, N2, N3. repeat split; assumption.
Qed.

Lemma unbound_ignores M E s battery gps state :
  currentDevice s = None ->
  handleBatteryUpdate E battery s = s /\
  handleGpsUpdate M E gps s = s /\
  handleStateUpdate E state s = s.
Proof.
  intros H.
  unfold handleBatteryUpdate, handleGpsUpdate, handleStateUpdate, rejected.
  rewrite H. repeat split.
Qed.

(** X8: deselecting the device. [setDevice(null)] unbinds the device and
    empties the log, the known states and the anchors, but it resets no
    style class: every element keeps the class it had, so the battery
    display keeps its last colour. Every measurement that arrives
    afterwards is ignored. *)
Theorem deselection E i s :
  let s' := setDevice E None i s in
  currentDevice s' = None /\ messages s' = [] /\
  lastStates s' = ∅ /\ stuckPositions s' = ∅ /\
  (forall element, shown_class element s' = shown_class element s) /\
  console s' = console s /\
  (forall M E' battery gps state,
     handleBatteryUpdate E' battery s' = s' /\
     handleGpsUpdate M E' gps s' = s' /\
     handleStateUpdate E' state s' = s').
Proof.
  cbn zeta.
  split; [reflexivity|]. split; [reflexivity|]. split; [reflexivity|].
  split; [reflexivity|]. split; [intros element; reflexivity|].
  split; [reflexivity|].
  intros M E' battery gps state. apply unbound_ignores. reflexivity.
Qed.

Lemma pollDeviceData_bound M Eb Eg Es p s dev :
  currentDevice s = Some dev ->
  let s1 := match poll_battery p with
            | Some level =>
                handleBatteryUpdate Eb
                  {| battery_LawnmowerId := id dev; BatteryLevel := level |} s
            | None => s
            end in
  let s2 := match poll_gps p with
            | Some (latitude, longitude) =>
                handleGpsUpdate M Eg
                  {| gps_LawnmowerId := id dev; Latitude := latitude;
                     Longitude := longitude |} s1
            | None => s1
            end in
  let s3 := match poll_state p with
            | Some st =>
                handleStateUpdate Es
                  {| state_LawnmowerId := id dev; State := st |} s2
            | None => s2
            end in
  pollDeviceData M Eb Eg Es p s = (s3, false) /\
  currentDevice s1 = Some dev /\ currentDevice s2 = Some dev.
Proof.
  intros Hdev. cbn zeta.
  set (s1 := match poll_battery p with Some level => _ | None => s end).
  assert (H1 : same_tracking s s1).
  { subst s1. destruct (poll_battery p);
      [apply same_tracking_handleBatteryUpdate|apply same_tracking_refl]. }
  assert (D1 : currentDevice s1 = Some dev).
  { destruct H1 as (H & _). congruence. }
  set (s2 := match poll_gps p with Some (latitude, longitude) => _ | None => s1 end).
  assert (D2 : currentDevice s2 = Some dev).
  { subst s2. destruct (poll_gps p) as [[lat lon]|]; [|exact D1].
    apply (handleGpsUpdate_anchor M Eg
             {| gps_LawnmowerId := id dev; Latitude := lat; Longitude := lon |}
             s1 dev D1 eq_refl). }
  split; [|split; assumption].
  unfold pollDeviceData, currentDevice_id. rewrite Hdev.
  assert (B : match poll_battery p with
              | Some level =>
                  Some (handleBatteryUpdate Eb
                          {| battery_LawnmowerId := id dev; BatteryLevel := level |} s)
              | None => Some s
              end = Some s1).
  { subst s1. destruct (poll_battery p); reflexivity. }
  rewrite B. cbn zeta. rewrite D1.
  assert (G : match poll_gps p with
              | Some (latitude, longitude) =>
                  Some (handleGpsUpdate M Eg
                          {| gps_LawnmowerId := id dev; Latitude := latitude;
                             Longitude := longitude |} s1)
              | None => Some s1
              end = Some s2).
  { subst s2. destruct (poll_gps p) as [[lat lon]|]; reflexivity. }
  rewrite G. rewrite D2.
  destruct (poll_state p); reflexivity.
Qed.

(** X9: one poll handles the position before the state. When a poll of
    the bound device delivers a position, the anchor it leaves depends on
    the state known before the poll, not on the state that the same poll
    delivers: an anchor exists afterwards exactly when the device was
    known to be mowing or returning before. The poll logs no failure, and
    the state it delivers is the one known afterwards. *)
Theorem poll_checks_position_first M Eb Eg Es p s dev latitude longitude :
  currentDevice s = Some dev ->
  poll_gps p = Some (latitude, longitude) ->
  let s' := fst (pollDeviceData M Eb Eg Es p s) in
  snd (pollDeviceData M Eb Eg Es p s) = false /\
  (is_Some (stuckPositions s' !! id dev) <-> on_the_move dev s) /\
  lastStates s' !! id dev
  = match poll_state p with
    | Some st => Some st
    | None => lastStates s !! id dev
    end.
Proof.
  intros Hdev Hgps. cbn zeta.
  destruct (pollDeviceData_bound M Eb Eg Es p s dev Hdev) as (P & D1 & D2).
  cbn zeta in P, D1, D2. rewrite P. cbn [fst snd]. clear P.
  rewrite Hgps in *.
  set (s1 := match poll_battery p with Some level => _ | None => s end) in *.
  assert (H1 : same_tracking s s1).
  { subst s1. destruct (poll_battery p);
      [apply same_tracking_handleBatteryUpdate|apply same_tracking_refl]. }
  destruct H1 as (_ & L1 & _).
  destruct (handleGpsUpdate_anchor M Eg
              {| gps_LawnmowerId := id dev; Latitude := latitude;
                 Longitude := longitude |} s1 dev D1 eq_refl)
    as (_ & L2 & A2 & _).
  set (s2 := handleGpsUpdate M Eg _ s1) in *.
  split; [reflexivity|].
  destruct (poll_state p) as [st|].
  - destruct (handleStateUpdate_tracking Es
                {| state_LawnmowerId := id dev; State := st |} s2) as (_ & A3 & _).
    split.
    + rewrite A3, A2, L1. reflexivity.
    + unfold handleStateUpdate. rewrite D2. cbn [state_LawnmowerId State].
      rewrite Z.eqb_refl. cbn [negb]. unfold updateLastUpdateTime.
      cbn [lastStates emit set_lastStates]. apply lookup_insert_eq.
  - split.
    + rewrite A2, L1. reflexivity.
    + rewrite L2, L1. reflexivity.
Qed.

End DisplayCases.

Section CockpitExamples.
Import JS LawnmowerAPI CockpitManager Observe Page Polling Examples Scenes.

(** X1 on the tracked mower: a position an eighth of a degree further
    north, reported at 100 s, moves the anchor there without an alert. *)
Lemma movement_restarts_tracking_witness :
  stuckPositions tracking !! 1 = Some (anchor_at (env_at 2000) standing) /\
  stuckPositions (handleGpsUpdate example_math (env_at 100000) moved_on tracking) !! 1
  = Some (anchor_at (env_at 100000) moved_on) /\
  stuck_alerts (handleGpsUpdate example_math (env_at 100000) moved_on tracking)
  = stuck_alerts tracking.
Proof.
  split; [reflexivity|].
  assert (H := movement_restarts_tracking example_math (env_at 100000) moved_on
                 tracking mower (anchor_at (env_at 2000) standing)
                 eq_refl eq_refl (or_introl eq_refl) eq_refl eq_refl).
  cbn zeta in H. destruct H as (H1 & _ & H3). split; [exact H1|exact H3].
Defined.

(** X3 on the mowing mower: the report of Paused adds one line. *)
Lemma transition_messages_witness :
  console (handleStateUpdate (env_at 3000) pausing mowing_session)
  = ("info", [Str "State changed: "; Str "Mowing"; Str " → "; Str "Paused"])
    :: console mowing_session.
Proof.
  apply (proj2 (transition_messages (env_at 3000) pausing mowing_session mower
                  eq_refl eq_refl ltac:(discriminate)) 2 eq_refl ltac:(discriminate)).
Defined.

(** X4 on the charging mower: once the charge is reported as completed,
    two rising samples give no prediction. *)
Lemma chart_follows_state_updates_witness :
  ChartManager.calculateBatteryPrediction
    {| ChartManager.cockpitManager :=
         Some (handleStateUpdate (env_at 3000) charged charging_session);
       ChartManager.currentDevice := Some mower;
       ChartManager.batteryData := [sample_at 0 50; sample_at 600000 60];
       ChartManager.isLiveMode := true |} = None.
Proof.
  apply (proj2 (chart_follows_state_updates (env_at 3000) charged charging_session
                  mower [sample_at 0 50; sample_at 600000 60] true
                  eq_refl eq_refl)); cbn; lia.
Defined.

(** X5 on the session that was paused after mowing: nothing is known about
    the device 2. *)
Lemma reachable_states_witness :
  lastStates paused_after_mowing !! 2 = None /\
  stuckPositions paused_after_mowing !! 2 = None.
Proof.
  apply (proj2 (proj2 (reachable_states example_math paused_after_mowing
                         (reachable_run example_math _ _
                            (reachable_new example_math shell))))
           mower 2 eq_refl ltac:(discriminate)).
Defined.

(** X7 on the selected mower: the level -5 is shown as critical and
    reported as low. *)
Lemma battery_display_witness :
  shown_class "batteryLevel"
    (handleBatteryUpdate (env_at 5000)
       {| battery_LawnmowerId := 1; BatteryLevel := -5 |} selected)
  = Some "battery-critical" /\
  console (handleBatteryUpdate (env_at 5000)
             {| battery_LawnmowerId := 1; BatteryLevel := -5 |} selected)
  = ("warning", [Str "Battery low: "; Num (-5); Str "%"]) :: console selected.
Proof.
  apply (proj1 (proj2 (battery_display (env_at 5000)
                         {| battery_LawnmowerId := 1; BatteryLevel := -5 |}
                         selected mower eq_refl eq_refl)) eq_refl eq_refl).
Defined.

(** X9 on the selected mower: the first poll delivers a position and the
    state Mowing, and leaves no anchor. *)
Lemma poll_checks_position_first_witness :
  ~ is_Some (stuckPositions
               (fst (pollDeviceData example_math (env_at 5000) (env_at 5000)
                       (env_at 5000) first_poll selected)) !! 1) /\
  lastStates (fst (pollDeviceData example_math (env_at 5000) (env_at 5000)
                     (env_at 5000) first_poll selected)) !! 1 = Some 2.
Proof.
  destruct (poll_checks_position_first example_math (env_at 5000) (env_at 5000)
              (env_at 5000) first_poll selected mower 47.5%float 8.25%float
              eq_refl eq_refl) as (_ & H & L).
  split; [|exact L].
  intros A. apply H in A. destruct A as [A|A]; vm_compute in A; discriminate A.
Defined.

End CockpitExamples.

(* ===================================================================== *)
(** * The predictor and the live chart *)
(* ===================================================================== *)

Section PredictorCases.
Import JS ChartManager LiveChart.
Local Open Scope list_scope.

Lemma slice_last_app {A} (n : nat) (older recent : list A) :
  length recent = n -> slice_last n (older ++ recent) = recent.
Proof.
  intros H. unfold slice_last. rewrite length_app, H.
  replace (length older + n - n)%nat with (length older + 0)%nat by lia.
  rewrite skipn_app, Nat.add_0_r, skipn_all.
  replace (length older - length older)%nat with 0%nat by lia. reflexivity.
Qed.

Lemma slice_last_short {A} (n : nat) (l : list A) :
  (length l <= n)%nat -> slice_last n l = l.
Proof.
  intros H. unfold slice_last.
  replace (length l - n)%nat with 0%nat by lia. reflexivity.
Qed.

Lemma last_skipn {A} (n : nat) (l : list A) x :
  last (skipn n l) = Some x -> last l = Some x.
Proof.
  intros H. rewrite <- (firstn_skipn n l), last_app, H. reflexivity.
Qed.

(** X10: the predictor looks at the last ten samples only. Whatever
    samples precede the last ten, the prediction is the one computed from
    the last ten alone. *)
Theorem prediction_window c older recent :
  batteryData c = older ++ recent ->
  length recent = 10%nat ->
  calculateBatteryPrediction c
  = calculateBatteryPrediction (set_batteryData recent c).
Proof.
  intros H L. unfold calculateBatteryPrediction.
  change (getCurrentDeviceState (set_batteryData recent c))
    with (getCurrentDeviceState c).
  cbn [batteryData set_batteryData]. rewrite H.
  rewrite (slice_last_app 10 older recent L).
  rewrite (slice_last_short 10 recent) by lia.
  rewrite length_app, L.
  replace (length older + 10 <? 2)%nat with false
    by (symmetry; apply Nat.ltb_ge; lia).
  reflexivity.
Qed.

(** X11: the shape of a prediction. Whenever the predictor returns one,
    it is a line of two points that starts at the latest sample (its time
    and level); it ends at the level 100 when the current state is
    StationCharging, which is also assumed when the application has no
    cockpit manager, and at the level 0 when the state is one of 2-5. With
    a cockpit manager but no known state there is no prediction. *)
Theorem prediction_shape c p :
  calculateBatteryPrediction c = Some p ->
  exists latest finish,
    last (batteryData c) = Some latest /\
    data p = [ {| x := timestamp latest; y := level latest |}; finish ] /\
    ((getCurrentDeviceState c = Some 0 /\ y finish = 100%float /\
      exists minutes, label p = [Str "Charging complete: "; Num minutes; Str " min"])
     \/
     ((exists st, getCurrentDeviceState c = Some st /\ 2 <= st <= 5) /\
      y finish = 0%float /\
      exists minutes, label p = [Str "Battery empty: "; Num minutes; Str " min"])).
Proof.
  unfold calculateBatteryPrediction.
  destruct (length (batteryData c) <? 2)%nat eqn:L2; [discriminate|].
  cbn zeta.
  destruct (length (slice_last 10 (batteryData c)) <? 2)%nat; [discriminate|].
  destruct (head _) as [first|]; [|discriminate].
  destruct (last (slice_last 10 (batteryData c))) as [latest|] eqn:Hl; [|discriminate].
  assert (Hlast : last (batteryData c) = Some latest).
  { exact (last_skipn _ _ _ Hl). }
  destruct (bool_decide (getCurrentDeviceState c = Some 0)) eqn:B.
  - apply bool_decide_eq_true in B.
    destruct (0 <? _)%float; [|discriminate]. cbn. intros [= <-].
    eexists _, _. split; [exact Hlast|]. split; [reflexivity|].
    left. split; [exact B|]. split; [reflexivity|]. eexists. reflexivity.
  - destruct (includes [2; 3; 4; 5] (getCurrentDeviceState c)) eqn:I;
      [|discriminate].
    destruct (_ <? 0)%float; [|discriminate]. cbn. intros [= <-].
    eexists _, _. split; [exact Hlast|]. split; [reflexivity|].
    right. split; [|split; [reflexivity|eexists; reflexivity]].
    destruct (getCurrentDeviceState c) as [st|]; [|discriminate I].
    exists st. split; [reflexivity|]. cbn in I.
    destruct (Z.eqb_spec st 2), (Z.eqb_spec st 3), (Z.eqb_spec st 4),
      (Z.eqb_spec st 5); try lia; discriminate I.
Qed.

End PredictorCases.

Section LiveChartCases.
Import JS ChartManager LiveChart.
Local Open Scope list_scope.

Lemma sort_insert_length {A} (cmp : A -> A -> float) a l :
  length (StatusManager.sort_insert cmp a l) = S (length l).
Proof.
  induction l as [|b l IH]; cbn; [reflexivity|].
  destruct (0 <? cmp a b)%float; cbn; rewrite ?IH; reflexivity.
Qed.

Lemma sort_length {A} (cmp : A -> A -> float) l :
  length (StatusManager.sort cmp l) = length l.
Proof.
  induction l as [|a l IH]; cbn; [reflexivity|].
  unfold StatusManager.sort in IH. rewrite sort_insert_length, IH. reflexivity.
Qed.

Lemma updateBatteryChart_datasets now lvl ts m :
  match batteryChart m with
  | None => batteryChart (after (updateBatteryChart now lvl ts m)) = None
  | Some chart =>
      exists chart', batteryChart (after (updateBatteryChart now lvl ts m)) = Some chart' /\
        length (datasets chart') = length (datasets chart)
  end.
Proof.
  unfold updateBatteryChart.
  destruct (batteryChart m) as [chart|] eqn:C; [|cbn; exact C].
  destruct (negb _); [cbn; eauto|].
  cbn [fields cockpitManager set_batteryData].
  destruct (cockpitManager (fields m)) as [cockpit|]; [|cbn; eauto].
  destruct (datasets chart) as [|main others] eqn:D; [cbn; eexists; split; [reflexivity|]; cbn; reflexivity|].
  cbn [after batteryChart]. eexists. split; [reflexivity|].
  cbn [datasets length]. f_equal.
  destruct (calculateBatteryPrediction _); [|reflexivity].
  destruct others; reflexivity.
Qed.

Lemma shown_prediction_none m :
  shown_prediction m = None <->
  match batteryChart m with
  | None => True
  | Some chart => (length (datasets chart) <= 1)%nat
  end.
Proof.
  unfold shown_prediction. destruct (batteryChart m) as [chart|]; [|tauto].
  destruct (datasets chart) as [|a [|b l]]; cbn; split; intros H;
    try reflexivity; try lia; discriminate H.
Qed.

Lemma updates_keep_no_prediction calls m :
  shown_prediction m = None -> shown_prediction (updates calls m) = None.
Proof.
  revert m. induction calls as [|[[now lvl] ts] calls IH]; intros m H; [exact H|].
  cbn [updates]. apply IH.
  apply shown_prediction_none. apply shown_prediction_none in H.
  pose proof (updateBatteryChart_datasets now lvl ts m) as G.
  destruct (batteryChart m) as [chart|].
  - destruct G as (chart' & -> & L). lia.
  - rewrite G. exact I.
Qed.

(** X12: live updates never add the prediction line. A chart that was
    loaded with fewer than two samples has no prediction line, and no
    sequence of live updates gives it one, whatever samples arrive and
    whatever the predictor returns for them: an update only refreshes a
    line that the chart already has. *)
Theorem prediction_line_never_added live canvas history m dev calls :
  currentDevice (fields m) = Some dev ->
  (length history < 2)%nat ->
  shown_prediction (updates calls (loadBatteryChart live canvas history m)) = None.
Proof.
  intros Hdev Hlen. apply updates_keep_no_prediction.
  unfold loadBatteryChart. rewrite Hdev. unfold renderBatteryChart.
  destruct (negb canvas); [reflexivity|].
  cbn [fields batteryData isLiveMode].
  rewrite sort_length.
  replace (1 <? length history)%nat with false
    by (symmetry; apply Nat.ltb_ge; lia).
  rewrite andb_false_r. reflexivity.
Qed.

(** X13: a prediction that no longer holds stays on the chart. When the
    chart has a prediction line and a live update arrives while the
    current state is neither StationCharging nor one of 2-5 (the charge
    is completed, say), the samples shown are refreshed but the
    prediction line keeps its old points and label. *)
Theorem stale_prediction_kept now lvl ts m chart cockpit main line rest :
  batteryChart m = Some chart ->
  isLiveMode (fields m) = true ->
  cockpitManager (fields m) = Some cockpit ->
  datasets chart = main :: line :: rest ->
  getCurrentDeviceState (fields m) <> Some 0 ->
  includes [2; 3; 4; 5] (getCurrentDeviceState (fields m)) = false ->
  exists m' chart',
    updateBatteryChart now lvl ts m = Returned m' /\
    batteryChart m' = Some chart' /\
    shown_prediction m' = Some line /\
    labels chart' = map timestamp (batteryData (fields m')) /\
    head (datasets chart')
    = Some {| ds_label := ds_label main;
              ds_data := Values (map level (batteryData (fields m'))) |} /\
    redraws chart' = S (redraws chart).
Proof.
  intros C L K D S0 S25. unfold updateBatteryChart. rewrite C, L. cbn [negb].
  cbn [fields cockpitManager set_batteryData]. rewrite K, D.
  rewrite prediction_needs_state.
  - eexists _, _. split; [reflexivity|]. cbn. repeat split.
  - exact S0.
  - exact S25.
Qed.

(** X14: the window of the live chart. A live update that runs (chart
    present, live mode, cockpit manager present, at least one dataset)
    appends the new sample and keeps, in their order, exactly the samples
    that are not older than the clock minus the live range; labels and
    values then mirror the samples, and the chart is redrawn once. With no
    chart, or outside live mode, the update changes nothing; with no
    cockpit manager it throws after appending the sample. *)
Theorem live_window now lvl ts m :
  let sample := {| timestamp := new_Date (getTime ts); level := lvl |} in
  match batteryChart m, isLiveMode (fields m), cockpitManager (fields m) with
  | None, _, _ | Some _, false, _ => updateBatteryChart now lvl ts m = Returned m
  | Some chart, true, None =>
      updateBatteryChart now lvl ts m
      = Thrown {| fields := set_batteryData
                              (batteryData (fields m) ++ [sample])%list (fields m);
                  batteryChart := Some chart |}
  | Some chart, true, Some cockpit =>
      let cutoff :=
        new_Date (now - CockpitManager.liveRange (CockpitManager.config cockpit)
                        * 1000)%float in
      let m' := after (updateBatteryChart now lvl ts m) in
      (forall item, In item (batteryData (fields m')) <->
                    In item (batteryData (fields m) ++ [sample])%list /\
                    recent cutoff item = true) /\
      batteryData (fields m') `sublist_of` (batteryData (fields m) ++ [sample])%list /\
      exists chart', batteryChart m' = Some chart' /\
        labels chart' = map timestamp (batteryData (fields m')) /\
        (datasets chart <> [] ->
         updateBatteryChart now lvl ts m = Returned m' /\
         redraws chart' = S (redraws chart) /\
         exists main, head (datasets chart') = Some main /\
           ds_data main = Values (map level (batteryData (fields m'))))
  end.
Proof.
  cbn zeta. unfold updateBatteryChart.
  destruct (batteryChart m) as [chart|]; [|reflexivity].
  destruct (isLiveMode (fields m)); [|reflexivity]. cbn [negb].
  cbn [fields cockpitManager set_batteryData].
  destruct (cockpitManager (fields m)) as [cockpit|]; [|reflexivity].
  set (cutoff := new_Date _).
  set (samples := batteryData (fields m) ++ _).
  assert (F : forall item, In item (filter (fun i => recent cutoff i = true) samples)
                           <-> In item samples /\ recent cutoff item = true).
  { intros item. rewrite <- !list_elem_of_In, list_elem_of_filter. tauto. }
  assert (S : filter (fun i => recent cutoff i = true) samples `sublist_of` samples)
    by apply sublist_filter.
  destruct (datasets chart) as [|main others];
    cbn [after fields batteryData set_batteryData batteryChart];
    (split; [exact F|]); (split; [exact S|]);
    eexists; (split; [reflexivity|]); cbn [labels]; (split; [reflexivity|]);
    intros N; [contradiction|].
  split; [reflexivity|]. cbn [redraws datasets head]. split; [reflexivity|].
  eexists. split; reflexivity.
Qed.

End LiveChartCases.

(* ===================================================================== *)
(** * The status history: timeline, distribution and grouping *)
(* ===================================================================== *)

Section StatusCases.
Import JS StatusManager.
Local Open Scope list_scope.

Lemma sort_insert_perm {A} (cmp : A -> A -> float) a l :
  Permutation (sort_insert cmp a l) (a :: l).
Proof.
  induction l as [|b l IH]; cbn; [reflexivity|].
  destruct (0 <? cmp a b)%float; [|reflexivity].
  rewrite IH. apply perm_swap.
Qed.

Lemma sort_perm {A} (cmp : A -> A -> float) l : Permutation (sort cmp l) l.
Proof.
  induction l as [|a l IH]; cbn; [reflexivity|].
  unfold sort in IH. rewrite sort_insert_perm, IH. reflexivity.
Qed.

(** The segment that the loop of [processStatusData] adds for a record. *)
Lemma scan_timeline l range d tl :
  snd (scan l range d tl) = tl ++ snd (scan l range [] []).
Proof.
  revert d tl. induction l as [|current rest IH]; intros d tl; cbn [scan].
  - cbn. rewrite app_nil_r. reflexivity.
  - cbv zeta. rewrite IH. symmetry. rewrite IH. cbn [app].
    rewrite <- app_assoc. reflexivity.
Qed.

Lemma scan_cons current rest range :
  snd (scan (current :: rest) range [] [])
  = {| stateId := state current;
       stateName := prop statusNames (state current);
       startTime := timestamp current;
       endTime := match rest with
                  | next :: _ => timestamp next
                  | [] => to range
                  end;
       duration := (Date_sub (match rest with
                              | next :: _ => timestamp next
                              | [] => to range
                              end) (timestamp current) / 1000)%float |}
    :: snd (scan rest range [] []).
Proof.
  cbn [scan]. cbv zeta. rewrite scan_timeline. reflexivity.
Qed.

Lemma processStatusData_timeline history range :
  snd (processStatusData history range)
  = snd (scan (sort (fun a b => Date_sub (timestamp a) (timestamp b)) history)
           range [] []).
Proof.
  unfold processStatusData. destruct (scan _ range [] []). reflexivity.
Qed.

Lemma scan_shape l range :
  let timeline := snd (scan l range [] []) in
  map startTime timeline = map timestamp l /\
  map stateId timeline = map state l /\
  map endTime timeline
  = match map timestamp l with
    | [] => []
    | _ :: later => later ++ [to range]
    end /\
  Forall (fun g => duration g = (Date_sub (endTime g) (startTime g) / 1000)%float /\
                   stateName g = prop statusNames (stateId g)) timeline.
Proof.
  cbn zeta. induction l as [|current rest IH].
  - cbn. repeat split. constructor.
  - rewrite scan_cons. destruct IH as (H1 & H2 & H3 & H4).
    cbn [map]. rewrite H1, H2, H3. repeat split.
    + destruct rest; reflexivity.
    + constructor; [split; reflexivity|exact H4].
Qed.

(** X15: the shape of the timeline. [processStatusData] turns the history,
    sorted by time, into one segment per record: a segment starts at its
    record's time with its record's state, ends where the next segment
    starts, and the last one ends at the end of the time range; its
    duration is the difference of its two ends in seconds. The sorted
    history is a rearrangement of the history. *)
Theorem timeline_shape history range :
  let sorted := sort (fun a b => Date_sub (timestamp a) (timestamp b)) history in
  let timeline := snd (processStatusData history range) in
  Permutation sorted history /\
  map startTime timeline = map timestamp sorted /\
  map stateId timeline = map state sorted /\
  map endTime timeline
  = match map timestamp sorted with
    | [] => []
    | _ :: later => later ++ [to range]
    end /\
  Forall (fun g => duration g = (Date_sub (endTime g) (startTime g) / 1000)%float /\
                   stateName g = prop statusNames (stateId g)) timeline.
Proof.
  cbn zeta. split; [apply sort_perm|].
  rewrite processStatusData_timeline. apply scan_shape.
Qed.

Lemma compare_records a b sa sb :
  0 <= a <= 8640000000000000 -> 0 <= b <= 8640000000000000 ->
  (0 <? Date_sub (timestamp (Observe.record_at a sa))
                 (timestamp (Observe.record_at b sb)))%float = (b <? a).
Proof.
  intros Ha Hb. unfold Observe.record_at, Observe.date_at. cbn [timestamp].
  rewrite !new_Date_of_Z by lia. unfold Date_sub. cbn [getTime].
  rewrite of_Z_sub by lia. rewrite ltb_zero_of_Z by lia.
  destruct (Z.ltb_spec 0 (a - b)), (Z.ltb_spec b a); try reflexivity; lia.
Qed.

Lemma sort_insert_by_time r ordered :
  0 <= fst r <= 8640000000000000 ->
  Forall (fun r => 0 <= fst r <= 8640000000000000) ordered ->
  StronglySorted (fun a b => fst a <= fst b) ordered ->
  exists ordered',
    sort_insert (fun a b => Date_sub (timestamp a) (timestamp b))
      (Observe.record_at (fst r) (snd r))
      (map (fun r => Observe.record_at (fst r) (snd r)) ordered)
    = map (fun r => Observe.record_at (fst r) (snd r)) ordered' /\
    Permutation ordered' (r :: ordered) /\
    StronglySorted (fun a b => fst a <= fst b) ordered'.
Proof.
  intros Hr. induction ordered as [|b l IH]; intros Hl Hs.
  - exists [r]. cbn. repeat split; repeat constructor.
  - apply Forall_cons in Hl as (Hb & Hl).
    apply StronglySorted_inv in Hs as (Hs & Hbl).
    cbn [map sort_insert]. rewrite compare_records by assumption.
    destruct (Z.ltb_spec (fst b) (fst r)) as [Lt|Ge].
    + destruct (IH Hl Hs) as (l' & E & P & S).
      exists (b :: l'). cbn [map]. rewrite E. split; [reflexivity|]. split.
      * rewrite P. apply perm_swap.
      * constructor; [exact S|].
        rewrite P. constructor; [lia|exact Hbl].
    + exists (r :: b :: l). split; [reflexivity|]. split; [reflexivity|].
      constructor; [constructor; assumption|].
      constructor; [exact Ge|].
      eapply Forall_impl; [exact Hbl|]. cbn. intros; lia.
Qed.

(** X16: the history is put in the order of time. For records stamped
    with whole milliseconds since the epoch (valid dates), the sort of
    [processStatusData] yields the same records in ascending order of
    their times, so that no segment of the timeline ends before it
    starts. *)
Theorem history_sorted_by_time (records : list (Z * Z)) :
  Forall (fun r => 0 <= fst r <= 8640000000000000) records ->
  exists ordered,
    sort (fun a b => Date_sub (timestamp a) (timestamp b))
      (map (fun r => Observe.record_at (fst r) (snd r)) records)
    = map (fun r => Observe.record_at (fst r) (snd r)) ordered /\
    Permutation ordered records /\
    StronglySorted (fun a b => fst a <= fst b) ordered.
Proof.
  induction records as [|r l IH]; intros H.
  - exists []. repeat split; constructor.
  - apply Forall_cons in H as (Hr & Hl).
    destruct (IH Hl) as (ordered & E & P & S).
    cbn [map sort foldr]. unfold sort in E. rewrite E.
    destruct (sort_insert_by_time r ordered Hr) as (ordered' & E' & P' & S').
    + rewrite P. exact Hl.
    + exact S.
    + exists ordered'. split; [exact E'|]. split; [|exact S'].
      rewrite P', P. reflexivity.
Qed.

End StatusCases.

Section DistributionCases.
Import JS StatusManager.
Local Open Scope list_scope.








End DistributionCases.

Section GroupingCases.
Import JS StatusManager.
Local Open Scope list_scope.

Lemma group_loop_grouped rest grouped currentGroup :
  group_loop rest grouped currentGroup
  = grouped ++ group_loop rest [] currentGroup.
Proof.
  revert grouped currentGroup.
  induction rest as [|current rest IH]; intros grouped cg; cbn [group_loop].
  - reflexivity.
  - destruct (_ && _).
    + apply IH.
    + rewrite IH. symmetry. rewrite IH. cbn [app].
      rewrite <- app_assoc. reflexivity.
Qed.

Lemma group_loop_head rest currentGroup :
  exists g groups,
    group_loop rest [] currentGroup = g :: groups /\
    stateId g = stateId currentGroup /\ stateName g = stateName currentGroup /\
    startTime g = startTime currentGroup /\
    (length groups <= length rest)%nat.
Proof.
  revert currentGroup. induction rest as [|current rest IH]; intros cg;
    cbn [group_loop].
  - exists cg, []. cbn. repeat split; lia.
  - destruct (_ && _).
    + destruct (IH {| stateId := stateId cg; stateName := stateName cg;
                      startTime := startTime cg; endTime := endTime current;
                      duration := (duration cg + duration current)%float |})
        as (g & groups & E & H1 & H2 & H3 & H4).
      exists g, groups. rewrite E. cbn in *. repeat split; try assumption. lia.
    + rewrite group_loop_grouped.
      destruct (IH current) as (g & groups & E & _ & _ & _ & H4).
      exists cg, (g :: groups). rewrite E. cbn. repeat split. lia.
Qed.

Lemma group_loop_last rest currentGroup :
  endTime <$> last (group_loop rest [] currentGroup)
  = endTime <$> last (currentGroup :: rest).
Proof.
  revert currentGroup. induction rest as [|current rest IH]; intros cg;
    cbn [group_loop].
  - reflexivity.
  - destruct (_ && _).
    + rewrite IH. rewrite !last_cons. destruct (last rest); reflexivity.
    + rewrite group_loop_grouped. cbn [app].
      destruct (group_loop_head rest current) as (g & groups & E & _).
      rewrite last_cons. pose proof (IH current) as G. rewrite E in *.
      rewrite last_cons in *.
      rewrite (last_cons cg). rewrite (last_cons current) in *.
      destruct (last groups), (last rest); cbn in *; congruence.
Qed.

Lemma group_loop_separate rest currentGroup :
  Sorted (fun g1 g2 =>
            (stateId g2 =? stateId g1) &&
            (Math_abs (Date_sub (startTime g2) (endTime g1)) <? 60000)%float
            = false)
    (group_loop rest [] currentGroup).
Proof.
  revert currentGroup. induction rest as [|current rest IH]; intros cg;
    cbn [group_loop].
  - repeat constructor.
  - destruct (_ && _) eqn:C.
    + apply IH.
    + rewrite group_loop_grouped. cbn [app].
      destruct (group_loop_head rest current) as (g & groups & E & H1 & _ & H3 & _).
      constructor; [apply IH|]. rewrite E. constructor. rewrite H1, H3. exact C.
Qed.

(** X18: what grouping guarantees on any timeline. Two groups that follow
    each other could not have been merged: they differ in the state, or
    the second starts a minute or more from the end of the first (or one
    of the two dates is invalid). Grouping yields no more groups than
    segments and none only for the empty timeline; the first group keeps
    the state, name and start of the first segment and the last group
    ends where the last segment ends. *)
Theorem groups_are_separate timeline :
  let groups := groupConsecutiveStates timeline in
  Sorted (fun g1 g2 =>
            (stateId g2 =? stateId g1) &&
            (Math_abs (Date_sub (startTime g2) (endTime g1)) <? 60000)%float
            = false) groups /\
  (length groups <= length timeline)%nat /\
  (groups = [] <-> timeline = []) /\
  (fun g => (stateId g, stateName g, startTime g)) <$> head groups
  = (fun g => (stateId g, stateName g, startTime g)) <$> head timeline /\
  endTime <$> last groups = endTime <$> last timeline.
Proof.
  cbn zeta. destruct timeline as [|first rest]; cbn [groupConsecutiveStates].
  - repeat split; constructor.
  - split; [apply group_loop_separate|].
    destruct (group_loop_head rest first) as (g & groups & E & H1 & H2 & H3 & H4).
    split; [rewrite E; cbn; lia|]. split; [rewrite E; split; discriminate|].
    split; [rewrite E; cbn; rewrite H1, H2, H3; reflexivity|].
    apply group_loop_last.
Qed.

Lemma abs_zero_within : (Math_abs 0 <? 60000)%float = true.
Proof. reflexivity. Qed.

Lemma group_loop_chain rest currentGroup :
  Sorted (fun a b => endTime a = startTime b) (currentGroup :: rest) ->
  Forall (fun g => is_finite (getTime (startTime g)) = true) rest ->
  Sorted (fun g1 g2 => stateId g1 <> stateId g2 /\ endTime g1 = startTime g2)
    (group_loop rest [] currentGroup).
Proof.
  revert currentGroup. induction rest as [|current rest IH]; intros cg S F;
    cbn [group_loop].
  - repeat constructor.
  - apply Sorted_inv in S as (S & Hd). apply HdRel_inv in Hd.
    apply Forall_cons in F as (Fc & F).
    assert (G : (Math_abs (Date_sub (startTime current) (endTime cg)) <? 60000)%float
                = true).
    { rewrite Hd. unfold Date_sub. rewrite sub_diag by exact Fc.
      apply abs_zero_within. }
    rewrite G, andb_true_r.
    destruct (Z.eqb_spec (stateId current) (stateId cg)) as [Eq|Ne].
    + apply IH; [|exact F].
      apply Sorted_inv in S as (S & Hd'). constructor; [exact S|].
      destruct rest; constructor. apply HdRel_inv in Hd'. exact Hd'.
    + rewrite group_loop_grouped. cbn [app].
      destruct (group_loop_head rest current) as (g & groups & E & H1 & _ & H3 & _).
      constructor; [apply IH; assumption|]. rewrite E. constructor.
      rewrite H1, H3. split; [congruence|exact Hd].
Qed.

Lemma scan_chain l range :
  Forall (fun r => is_finite (getTime (timestamp r)) = true) l ->
  Sorted (fun a b => endTime a = startTime b) (snd (scan l range [] [])) /\
  Forall (fun g => is_finite (getTime (startTime g)) = true)
    (snd (scan l range [] [])).
Proof.
  induction l as [|current rest IH]; intros F.
  - cbn. split; constructor.
  - apply Forall_cons in F as (Fc & F). destruct (IH F) as (S & G).
    rewrite scan_cons. split.
    + constructor; [exact S|].
      destruct rest as [|next rest']; [constructor|].
      rewrite scan_cons. constructor. reflexivity.
    + constructor; [exact Fc|exact G].
Qed.

(** X19: the grouped timeline of a history. When every record of the
    history has a valid date, the groups that [renderTimeline] shows
    change state at every step: two groups that follow each other have
    different states, and the second starts exactly where the first ends.
    The last group ends at the end of the time range. *)
Theorem grouped_history history range :
  Forall (fun r => is_finite (getTime (timestamp r)) = true) history ->
  let groups := groupConsecutiveStates (snd (processStatusData history range)) in
  Sorted (fun g1 g2 => stateId g1 <> stateId g2 /\ endTime g1 = startTime g2)
    groups /\
  (history <> [] -> endTime <$> last groups = Some (to range)) /\
  length (snd (processStatusData history range)) = length history.
Proof.
  intros F. cbn zeta. rewrite processStatusData_timeline.
  set (sorted := sort _ history).
  assert (P : Permutation sorted history) by apply sort_perm.
  assert (Fs : Forall (fun r => is_finite (getTime (timestamp r)) = true) sorted).
  { eapply Permutation_Forall; [apply Permutation_sym, P|exact F]. }
  destruct (scan_chain sorted range Fs) as (S & G).
  destruct (scan_shape sorted range) as (H1 & _ & H3 & _).
  set (timeline := snd (scan sorted range [] [])) in *.
  split; [|split].
  - destruct timeline as [|first rest]; [constructor|].
    cbn [groupConsecutiveStates]. apply Forall_cons in G as (_ & G).
    apply group_loop_chain; assumption.
  - intros N.
    destruct (groups_are_separate timeline) as (_ & _ & _ & _ & L).
    cbn zeta in L. rewrite L.
    assert (E : endTime <$> last timeline = last (map endTime timeline)).
    { clear. induction timeline as [|a [|b l] IH]; try reflexivity.
      rewrite last_cons_cons. cbn [map]. rewrite last_cons_cons. exact IH. }
    rewrite E, H3.
    destruct sorted as [|r rs] eqn:Es.
    + exfalso. apply N. apply Permutation_nil. exact P.
    + cbn [map]. rewrite last_snoc. reflexivity.
  - rewrite <- (length_map startTime), H1, length_map.
    apply Permutation_length, P.
Qed.

End GroupingCases.

(* ===================================================================== *)
(** * Standing still, and the message list *)
(* ===================================================================== *)

Section StandstillCases.
Import JS LawnmowerAPI CockpitManager Observe Page.

Lemma zero_plus_finite_times_zero q :
  is_finite q = true -> (0 + q * 0 * 0)%float = 0%float.
Proof.
  intros Hq. apply Prim2SF_inj. rewrite add_spec, !mul_spec.
  unfold is_finite, is_nan, is_infinity in Hq.
  rewrite !FloatAxioms.eqb_spec, abs_spec in Hq.
  destruct (Prim2SF q) as [s|s| |s m e]; try destruct s; try reflexivity;
    discriminate Hq.
Qed.

Lemma zero_angle x :
  is_finite x = true -> ((x - x) * Math_PI / 180 / 2)%float = 0%float.
Proof. intros H. rewrite sub_diag by exact H. reflexivity. Qed.

Lemma calculateDistance_same M lat lon :
  Math_sin M 0 = 0%float -> Math_atan2 M 0 1 = 0%float ->
  is_finite lat = true -> is_finite lon = true ->
  is_finite (Math_cos M (lat * Math_PI / 180) *
             Math_cos M (lat * Math_PI / 180))%float = true ->
  calculateDistance M lat lon lat lon = 0%float.
Proof.
  intros Hsin Hatan Hlat Hlon Hcos. unfold calculateDistance. cbv zeta.
  rewrite (zero_angle lat Hlat), (zero_angle lon Hlon), Hsin.
  change (0 * 0)%float with 0%float.
  rewrite (zero_plus_finite_times_zero _ Hcos).
  change (Math_sqrt 0) with 0%float.
  change (Math_sqrt (1 - 0)) with 1%float.
  rewrite Hatan. reflexivity.
Qed.

(** X20: a device that stands still. When a host [Math] has sin 0 = 0 and
    atan2(0, 1) = 0 and gives the cosine of the latitude a finite square,
    the distance from a valid position to itself is exactly 0. So when
    the bound device is mowing or returning and reports the very position
    of its anchor, the update never counts as movement: it raises the
    stuck alert and restarts the anchor when more than the threshold has
    elapsed since the anchor was set, and changes neither the anchor nor
    the console otherwise. *)
Theorem standstill_is_noticed M E data s dev a :
  Math_sin M 0 = 0%float -> Math_atan2 M 0 1 = 0%float ->
  is_finite (Latitude data) = true -> is_finite (Longitude data) = true ->
  is_finite (Math_cos M (Latitude data * Math_PI / 180) *
             Math_cos M (Latitude data * Math_PI / 180))%float = true ->
  currentDevice s = Some dev ->
  gps_LawnmowerId data = id dev ->
  on_the_move dev s ->
  stuckPositions s !! id dev = Some a ->
  stuck_latitude a = Latitude data -> stuck_longitude a = Longitude data ->
  let s' := handleGpsUpdate M E data s in
  moved M a data = 0%float /\
  if (stuckThreshold (config s) <? elapsed E a)%float
  then stuckPositions s' !! id dev = Some (anchor_at E data) /\
       console s' = stuck_line (elapsed E a) :: console s
  else stuckPositions s' = stuckPositions s /\ console s' = console s.
Proof.
  intros Hsin Hatan Hlat Hlon Hcos Hdev Hid Hmove Ha Hla Hlo. cbn zeta.
  assert (D : moved M a data = 0%float).
  { unfold moved. rewrite Hla, Hlo. apply calculateDistance_same; assumption. }
  split; [exact D|].
  pose proof (gps_update_cases M E data s dev Hdev Hid) as C. cbn zeta in C.
  rewrite bool_decide_eq_true_2 in C by exact Hmove.
  rewrite Ha, D in C. change (1 <? 0)%float with false in C.
  destruct (_ <? elapsed E a)%float.
  - destruct C as (C1 & C2). rewrite C1, C2. split; [|reflexivity].
    apply lookup_insert_eq.
  - exact C.
Qed.

End StandstillCases.

Section MessageListCases.
Import JS CockpitManager Observe MessageList.
Local Open Scope list_scope.

Lemma firstn_In {A} n (l : list A) x : In x (firstn n l) -> In x l.
Proof.
  revert l. induction n as [|n IH]; intros [|a l]; cbn; try tauto.
  intros [H|H]; [left; exact H|right; apply IH, H].
Qed.

Lemma firstn_filter_In {A} (P : A -> Prop) `{!forall x, Decision (P x)} n l x :
  In x (firstn n (filter P l)) -> In x l /\ P x.
Proof.
  intros I. apply firstn_In in I.
  rewrite <- list_elem_of_In in I. apply list_elem_of_filter in I.
  rewrite <- list_elem_of_In. tauto.
Qed.

(** X21: what the message list shows. With the filter [activeFilter]
    active, the list shows at most 100 messages, all of them in the log
    and, unless the filter is 'all', all of the filter's type. A message
    just added is at the top of the list when the filter is 'all' or its
    type; under another filter the list stays as it was, as long as the
    log was not full. *)
Theorem message_list E txt type ts s activeFilter :
  let s' := addMessage E txt type ts s in
  let m := new_message E txt type ts s in
  (forall shown, renderMessages activeFilter s' = Some shown ->
     (length shown <= 100)%nat /\
     forall msg, In msg shown ->
       In msg (messages s') /\ (activeFilter <> "all" -> msg_type msg = activeFilter)) /\
  (activeFilter = "all" \/ activeFilter = type ->
     exists older, renderMessages activeFilter s' = Some (m :: older)) /\
  (activeFilter <> "all" -> activeFilter <> type ->
   (length (messages s) < 1000)%nat ->
     renderMessages activeFilter s' = renderMessages activeFilter s).
Proof.
  cbn zeta. split; [|split].
  - intros shown H. unfold renderMessages in H.
    destruct (String.eqb_spec activeFilter "all") as [->|N]; cbn [negb] in H.
    + destruct (_ =? 0)%nat; [discriminate|]. injection H as <-.
      split; [apply firstn_length_le|].
      intros msg I. split; [eapply firstn_In, I|]. congruence.
    + destruct (_ =? 0)%nat; [discriminate|]. injection H as <-.
      split; [apply firstn_length_le|].
      intros msg I. apply firstn_filter_In in I. tauto.
  - intros H. unfold renderMessages. rewrite addMessage_messages.
    fold (new_message E txt type ts s).
    set (m := new_message E txt type ts s).
    assert (F : firstn 1000 (m :: messages s) = m :: firstn 999 (messages s))
      by reflexivity.
    rewrite F.
    destruct (String.eqb_spec activeFilter "all") as [->|N]; cbn [negb].
    + cbn. eexists. reflexivity.
    + destruct H as [H|H]; [contradiction|].
      rewrite filter_cons_True by (subst; reflexivity).
      cbn. eexists. reflexivity.
  - intros N1 N2 L. unfold renderMessages. rewrite addMessage_messages.
    destruct (String.eqb_spec activeFilter "all") as [H|_]; [contradiction|].
    cbn [negb].
    assert (F : firstn 1000 (new_message E txt type ts s :: messages s)
                = new_message E txt type ts s :: messages s).
    { apply firstn_all2. cbn. lia. }
    rewrite F, filter_cons_False; [reflexivity|].
    cbn. congruence.
Qed.

End MessageListCases.

Section ChartExamples.
Import JS CockpitManager ChartManager LiveChart Observe Page.
Import Examples Scenes Cases.
Local Open Scope list_scope.

(** X10 on eleven samples: the oldest one does not count. *)
Lemma prediction_window_witness :
  calculateBatteryPrediction (chart_of (sample_at 0 90 :: ten_samples))
  = calculateBatteryPrediction (chart_of ten_samples).
Proof.
  apply (prediction_window (chart_of (sample_at 0 90 :: ten_samples))
           [sample_at 0 90] ten_samples eq_refl eq_refl).
Defined.

(** X11 on the charging mower with the samples 50 and 60: the line runs
    from the latest sample to the level 100. *)
Lemma prediction_shape_witness :
  exists finish,
    y finish = 100%float /\
    [ {| x := date_at 600000; y := 60 |}; {| x := date_at 3000000; y := 100 |} ]
    = [ {| x := date_at 600000; y := 60 |}; finish ].
Proof.
  destruct (prediction_shape (chart_of [sample_at 0 50; sample_at 600000 60])
              {| data := [ {| x := date_at 600000; y := 60 |};
                           {| x := date_at 3000000; y := 100 |} ];
                 label := [Str "Charging complete: "; Num 40; Str " min"] |}
              eq_refl)
    as (latest & finish & L & D & [(_ & Y & _)|((st & S & R) & _)]).
  - injection L as <-. exists finish. split; [exact Y|exact D].
  - vm_compute in S. injection S as <-. lia.
Defined.

(** X12 on a chart loaded with one sample: two rising samples arrive, and
    no prediction is shown. *)
Lemma prediction_line_never_added_witness :
  shown_prediction
    (updates [ (of_Z 600000, 60%float, date_at 600000);
               (of_Z 660000, 61%float, date_at 660000) ]
       (loadBatteryChart true true [sample_at 540000 50] no_chart))
  = None.
Proof.
  apply (prediction_line_never_added true true [sample_at 540000 50] no_chart mower
           [ (of_Z 600000, 60%float, date_at 600000);
             (of_Z 660000, 61%float, date_at 660000) ] eq_refl).
  cbn. lia.
Defined.

(** X13 on the loaded chart, after the charge is completed. *)
Lemma stale_prediction_kept_witness :
  shown_prediction
    (after (updateBatteryChart (of_Z 800000) 100 (date_at 800000) charge_completed))
  = Some {| ds_label := [Str "Charging complete: "; Num 40; Str " min"];
            ds_data := Points [ {| x := date_at 600000; y := 60 |};
                                {| x := date_at 3000000; y := 100 |} ] |}.
Proof.
  destruct (stale_prediction_kept (of_Z 800000) 100 (date_at 800000) charge_completed
              {| labels := [];
                 datasets :=
                   [ {| ds_label := [Str "Battery Level"];
                        ds_data := Points [ {| x := date_at 0; y := 50 |};
                                            {| x := date_at 600000; y := 60 |} ] |};
                     {| ds_label := [Str "Charging complete: "; Num 40; Str " min"];
                        ds_data := Points [ {| x := date_at 600000; y := 60 |};
                                            {| x := date_at 3000000; y := 100 |} ] |} ];
                 redraws := 0 |}
              (handleStateUpdate (env_at 700000)
                 {| state_LawnmowerId := 1; State := 1 |} charging_session)
              _ _ [] eq_refl eq_refl eq_refl eq_refl
              ltac:(discriminate) eq_refl)
    as (m' & chart' & E & _ & S & _).
  rewrite E. exact S.
Defined.

End ChartExamples.

Section StatusExamples.
Import JS CockpitManager StatusManager Observe Page.
Import Examples Scenes Cases.
Local Open Scope list_scope.

(** X16 on a history that arrives out of order. *)
Lemma history_sorted_by_time_witness :
  exists ordered,
    sort (fun a b => Date_sub (timestamp a) (timestamp b))
      (map (fun r => record_at (fst r) (snd r)) unordered)
    = map (fun r => record_at (fst r) (snd r)) ordered /\
    Permutation ordered unordered /\
    StronglySorted (fun a b => fst a <= fst b) ordered.
Proof.
  apply (history_sorted_by_time unordered).
  repeat constructor; cbn; lia.
Defined.

(** X19 on the same history: the two mowing records make one group. *)
Lemma grouped_history_witness :
  length (groupConsecutiveStates
            (snd (processStatusData
                    (map (fun r => record_at (fst r) (snd r)) unordered)
                    {| from := date_at 0; to := date_at 61000 |}))) = 2%nat /\
  Sorted (fun g1 g2 => stateId g1 <> stateId g2 /\ endTime g1 = startTime g2)
    (groupConsecutiveStates
       (snd (processStatusData
               (map (fun r => record_at (fst r) (snd r)) unordered)
               {| from := date_at 0; to := date_at 61000 |}))).
Proof.
  split; [reflexivity|].
  apply (grouped_history (map (fun r => record_at (fst r) (snd r)) unordered)
           {| from := date_at 0; to := date_at 61000 |}).
  repeat constructor.
Defined.

(** X20 on the tracked mower: the same position again after 98 seconds
    raises the alert. *)
Lemma standstill_is_noticed_witness :
  moved example_math (anchor_at (env_at 2000) standing) standing = 0%float /\
  console (handleGpsUpdate example_math (env_at 100000) standing tracking)
  = stuck_line 98 :: console tracking.
Proof.
  destruct (standstill_is_noticed example_math (env_at 100000) standing tracking
              mower (anchor_at (env_at 2000) standing)
              eq_refl eq_refl eq_refl eq_refl eq_refl eq_refl eq_refl
              (or_introl eq_refl) eq_refl eq_refl eq_refl) as (D & A).
  split; [exact D|]. exact (proj2 A).
Defined.

End StatusExamples.

(* ===================================================================== *)
(** * Across the components *)
(* ===================================================================== *)

Section AcrossCases.
Import JS LawnmowerAPI CockpitManager ChartManager LiveChart Polling.

(** X22: the two tables of state names. The status view and the cockpit
    name the states 0-5 alike except for state 1, which the status view
    calls 'Charging Completed' and the cockpit 'Station Charging
    Completed'. Every state 0-5 has a colour. For any other id the
    status view has neither a name nor a colour (both are undefined),
    where the cockpit shows 'Unknown'. *)
Theorem name_tables (i : Z) :
  (0 <= i <= 5 -> i <> 1 ->
     prop StatusManager.statusNames i = Some (getStateName i)) /\
  (prop StatusManager.statusNames 1 = Some "Charging Completed" /\
   getStateName 1 = "Station Charging Completed") /\
  (0 <= i <= 5 -> is_Some (prop StatusManager.statusColors i)) /\
  (~ 0 <= i <= 5 ->
     prop StatusManager.statusNames i = None /\
     prop StatusManager.statusColors i = None /\
     getStateName i = "Unknown").
Proof.
  split; [|split; [|split]].
  - intros Hi N.
    destruct (state_id_cases i Hi) as [->|[->|[->|[->|[->| ->]]]]];
      try reflexivity. contradiction.
  - split; reflexivity.
  - intros Hi.
    destruct (state_id_cases i Hi) as [->|[->|[->|[->|[->| ->]]]]];
      eexists; reflexivity.
  - intros Hi. repeat split.
    + apply prop_outside. unfold StatusManager.statusNames.
      repeat constructor; cbn; lia.
    + apply prop_outside. unfold StatusManager.statusColors.
      repeat constructor; cbn; lia.
    + unfold getStateName. rewrite prop_outside; [reflexivity|].
      unfold stateNames. repeat constructor; cbn; lia.
Qed.

(** X23: samples that arrive before the chart is loaded are dropped.
    After the chart manager is given a device it has no chart and no
    samples, and every live update until the chart is loaded leaves it so:
    the samples they carry are not kept. *)
Theorem updates_before_load_are_dropped device m calls :
  let m' := updates calls (LiveChart.setDevice device m) in
  m' = LiveChart.setDevice device m /\
  batteryData (fields m') = [] /\ batteryChart m' = None.
Proof.
  cbn zeta.
  assert (H : updates calls (LiveChart.setDevice device m)
              = LiveChart.setDevice device m).
  { induction calls as [|[[now lvl] ts] calls IH]; [reflexivity|].
    cbn [updates]. exact IH. }
  rewrite H. repeat split.
Qed.


End AcrossCases.

Section AcrossExamples.
Import JS CockpitManager Polling Examples Scenes.


End AcrossExamples.

Section MessageTypes.
Import JS LawnmowerAPI CockpitManager Observe Page.

Lemma typed_log_same s s' : messages s' = messages s -> typed_log s -> typed_log s'.
Proof. unfold typed_log. intros ->. trivial. Qed.

Lemma typed_log_addMessage E txt type ts s :
  type = "info" \/ type = "warning" \/ type = "error" ->
  typed_log s -> typed_log (addMessage E txt type ts s).
Proof.
  unfold typed_log. intros T H. rewrite addMessage_messages.
  apply Forall_take. constructor; [exact T|exact H].
Qed.

Lemma typed_log_updateDeviceState E stateId ts s :
  typed_log s -> typed_log (updateDeviceState E stateId ts s).
Proof.
  intros H. unfold updateDeviceState. destruct (stateId =? 5).
  - apply typed_log_addMessage; [tauto|]. exact H.
  - exact H.
Qed.

Lemma typed_log_generateStateChangeMessage E previous new s :
  typed_log s -> typed_log (generateStateChangeMessage E previous new s).
Proof.
  intros H. unfold generateStateChangeMessage. cbv zeta.
  destruct (_ && _); repeat (apply typed_log_addMessage; [tauto|]); exact H.
Qed.

Lemma typed_log_checkBatteryWarnings E level s :
  typed_log s -> typed_log (checkBatteryWarnings E level s).
Proof.
  intros H. unfold checkBatteryWarnings.
  destruct (_ =? _)%float; [apply typed_log_addMessage; [tauto|exact H]|].
  destruct (_ <? _)%float; [apply typed_log_addMessage; [tauto|exact H]|exact H].
Qed.

Lemma typed_log_checkStuckDetection M E latitude longitude s :
  typed_log s -> typed_log (checkStuckDetection M E latitude longitude s).
Proof.
  intros H. unfold checkStuckDetection.
  destruct (currentDevice s) as [dev|]; [|exact H]. cbv zeta.
  destruct (bool_decide _); [exact H|].
  destruct (stuckPositions s !! id dev) as [a|]; [|exact H].
  destruct (1 <? _)%float; [exact H|].
  destruct (_ <? _)%float; [|exact H].
  eapply (typed_log_same (addMessage E _ "error" None s));
    [destruct (mapManager _); reflexivity|].
  apply typed_log_addMessage; [tauto|exact H].
Qed.

Lemma typed_log_loadInitialData E i s :
  typed_log s -> typed_log (loadInitialData E i s).
Proof.
  intros H. unfold loadInitialData.
  set (s1 := match init_battery i with Some (level, ts) => _ | None => s end).
  assert (H1 : typed_log s1).
  { subst s1. destruct (init_battery i) as [[level ts]|]; [|exact H].
    eapply typed_log_same; [|exact H].
    apply (updateBatteryLevel_frame level ts s). }
  clearbody s1.
  set (s2 := match init_state i with Some (st, ts) => _ | None => s1 end).
  assert (H2 : typed_log s2).
  { subst s2. destruct (init_state i) as [[st ts]|]; [|exact H1].
    apply typed_log_updateDeviceState, H1. }
  clearbody s2.
  set (s3 := match init_gps i with Some (p, ts) => _ | None => s2 end).
  assert (H3 : typed_log s3).
  { subst s3. destruct (init_gps i) as [[[lat lon] ts]|]; [|exact H2].
    eapply typed_log_same; [|exact H2].
    apply (updateGpsPosition_log lat lon ts s2). }
  clearbody s3.
  destruct (currentDevice s3).
  - eapply typed_log_same; [apply updateLastUpdateTime_messages|].
    apply typed_log_addMessage; [tauto|exact H3].
  - apply typed_log_addMessage; [tauto|exact H3].
Qed.

Lemma typed_log_step M E ev s : typed_log s -> typed_log (step M E ev s).
Proof.
  intros H. destruct ev as [device|device i|data|data|data|c|tab]; cbn [step].
  - unfold setDevice_selected. destruct device; constructor.
  - unfold setDevice_loaded.
    pose proof (typed_log_loadInitialData E i s H) as G.
    destruct (mapManager _); exact G.
  - unfold handleBatteryUpdate. destruct (rejected _ s); [exact H|].
    eapply typed_log_same; [apply updateLastUpdateTime_messages|].
    apply typed_log_checkBatteryWarnings.
    eapply typed_log_same; [|exact H].
    apply (updateBatteryLevel_frame (BatteryLevel data) (Date_current E) s).
  - unfold handleGpsUpdate. destruct (rejected _ s); [exact H|].
    eapply typed_log_same; [apply updateLastUpdateTime_messages|].
    apply typed_log_checkStuckDetection.
    eapply typed_log_same; [|exact H].
    apply (updateGpsPosition_log (Latitude data) (Longitude data) (Date_current E) s).
  - unfold handleStateUpdate. destruct (currentDevice s) as [dev|]; [|exact H].
    destruct (negb _); [exact H|]. cbv zeta.
    eapply typed_log_same; [apply updateLastUpdateTime_messages|].
    eapply typed_log_same; [reflexivity|].
    destruct (lastStates s !! id dev) as [previous|];
      [destruct (negb _)|];
      try apply typed_log_generateStateChangeMessage;
      apply typed_log_updateDeviceState, H.
  - exact H.
  - exact H.
Qed.

(** X25: the types of the messages. In every reachable session each
    message of the log has the type info, warning or error, and so has
    each message that the list shows, whatever filter is active: a filter
    other than these three and 'all' shows nothing. *)
Theorem message_types M s :
  reachable M s ->
  typed_log s /\
  (forall activeFilter shown,
     MessageList.renderMessages activeFilter s = Some shown ->
     Forall (fun m => msg_type m = "info" \/ msg_type m = "warning" \/
                      msg_type m = "error") shown) /\
  (forall activeFilter,
     activeFilter <> "all" -> activeFilter <> "info" ->
     activeFilter <> "warning" -> activeFilter <> "error" ->
     MessageList.renderMessages activeFilter s = None).
Proof.
  intros R.
  assert (T : typed_log s).
  { induction R as [a|s E ev R IH]; [constructor|apply typed_log_step, IH]. }
  split; [exact T|]. split.
  - intros activeFilter shown H. unfold MessageList.renderMessages in H.
    destruct (_ =? 0)%nat; [discriminate|]. injection H as <-.
    apply Forall_take. destruct (negb _); [|exact T].
    apply List.Forall_forall. intros m I.
    rewrite <- list_elem_of_In in I. apply list_elem_of_filter in I.
    unfold typed_log in T. rewrite List.Forall_forall in T.
    apply T. rewrite <- list_elem_of_In. tauto.
  - intros activeFilter N0 N1 N2 N3. unfold MessageList.renderMessages.
    destruct (String.eqb_spec activeFilter "all") as [H|_]; [contradiction|].
    cbn [negb].
    assert (F : filter (fun msg => msg_type msg = activeFilter) (messages s) = []).
    { unfold typed_log in T. induction T as [|m l Hm _ IH]; [reflexivity|].
      rewrite filter_cons_False; [exact IH|].
      intros <-. destruct Hm as [H|[H|H]]; contradiction. }
    rewrite F. reflexivity.
Qed.

End MessageTypes.

Section MessageTypesExample.
Import JS CockpitManager Observe Page Examples.

(** X25 on the session that resumed after the pause. *)
Lemma message_types_witness : typed_log resumed_after_pause.
Proof.
  apply (proj1 (message_types example_math resumed_after_pause
                  ltac:(unfold resumed_after_pause, paused_after_mowing;
                        repeat apply reachable_run; apply reachable_new))).
Defined.

End MessageTypesExample.
